(** * The Keras frontend of Relay: lowering of Keras layers to Relay expressions

    A shallow embedding of [python/tvm/relay/frontend/keras.py].  Python
    integers are [Z] (with floor division), Python float literals are the
    rationals they denote, exceptions are values of [exn], and the
    expression table threaded through the converters is the state of a
    small state-and-exception monad in which a raised exception keeps the
    table as it was at the point of the raise. *)

From Stdlib Require Import ZArith QArith Reals Lra Lia String List.
From stdpp Require Import base gmap strings stringmap list pretty.

Local Open Scope Z_scope.
Local Open Scope string_scope.
Set Warnings "-register-all".

(** ** Exceptions and fallible results *)

Inductive exn : Type :=
| ValueError (msg : string)
| TypeError (msg : string)
| NotImplementedError (msg : string)
| AssertionError (msg : string)
| ImportError (msg : string)
| IndexError (msg : string)
| AttributeError (attr : string)
| ZeroDivisionError
| OverflowError (msg : string)
| DuplicateSymbol (name : string)
| UnknownSymbol (name : string).

Inductive result (A : Type) : Type :=
| Ok (a : A)
| Err (e : exn).
Arguments Ok {A} a.
Arguments Err {A} e.

#[global] Instance result_ret : MRet result := fun A a => Ok a.
#[global] Instance result_bind : MBind result := fun A B k r =>
  match r with
  | Ok a => k a
  | Err e => Err e
  end.

(** ** The padding calculator *)

(** The range of the 64-bit integers of numpy. *)
Definition int64_min : Z := -9223372036854775808.
Definition int64_max : Z := 9223372036854775807.

Definition in_int64 (v : Z) : Prop := int64_min <= v ∧ v <= int64_max.

#[global] Instance in_int64_dec (v : Z) : Decision (in_int64 v).
Proof. unfold in_int64. apply _. Defined.

(** [np.maximum(x1, x2)] on Python integers.  The sizes are Python
    integers, which are unbounded; numpy converts them to 64-bit integers
    and raises [OverflowError] for one that does not fit (NumPy 2; earlier
    versions give a float or an object there, no int64 either).  The
    result is an int64. *)
Definition np_maximum (x1 x2 : Z) : result Z :=
  if decide (in_int64 x1 ∧ in_int64 x2) then Ok (Z.max x1 x2)
  else Err (OverflowError "Python integer out of bounds for int64").

(** [//] is floor division, which is [Z.div]; a zero divisor raises.
    The arithmetic before [np.maximum] is on Python integers.  [pad] is
    an int64 that is not negative, so [pad // 2] and the subtraction stay
    in range. *)
Definition _get_pad_pair (input1d kernel1d stride1d : Z) : result (Z * Z) :=
  if decide (stride1d = 0) then Err ZeroDivisionError else
  let out1d := (input1d + stride1d - 1) `div` stride1d in
  pad ← np_maximum ((out1d - 1) * stride1d + kernel1d - input1d) 0;
  let pad_before := pad `div` 2 in
  let pad_after := pad - pad_before in
  Ok (pad_before, pad_after).


(** ** Python values

    The values the frontend reads from layer attributes.  A function
    object (an activation) is represented by its [__name__], a backend
    variable by its shape. *)

Inductive pyval : Type :=
| PyNone
| PyBool (b : bool)
| PyInt (n : Z)
| PyFloat (x : Q)
| PyStr (s : string)
| PyTuple (xs : list pyval)
| PyList (xs : list pyval)
| PyVariable (shape : list Z).

(** Truth value of an object, as [if v:] takes it. *)
Definition truthy (v : pyval) : result bool :=
  match v with
  | PyNone => Ok false
  | PyBool b => Ok b
  | PyInt n => Ok (negb (n =? 0)%Z)
  | PyFloat x => Ok (negb (Qeq_bool x 0))
  | PyStr s => Ok (negb (String.eqb s ""))
  | PyTuple xs | PyList xs => Ok (match xs with [] => false | _ => true end)
  | PyVariable _ => Err (TypeError "truth value of a backend variable")
  end.

(** [float(v)].  Only numbers are converted: no attribute converted by
    the frontend holds a string. *)
Definition py_float (v : pyval) : result Q :=
  match v with
  | PyBool b => Ok (if b then 1%Q else 0%Q)
  | PyInt n => Ok (inject_Z n)
  | PyFloat x => Ok x
  | PyStr _ => Err (ValueError "could not convert string to float")
  | _ => Err (TypeError "float() argument must be a string or a number")
  end.

(** An operand of integer arithmetic.  Sizes, strides and rates are ints
    in Keras; [None] (an unknown dimension) raises [TypeError] as it does
    in Python arithmetic, and so does every other non-integer here. *)
Definition as_int (v : pyval) : result Z :=
  match v with
  | PyBool b => Ok (if b then 1 else 0)
  | PyInt n => Ok n
  | _ => Err (TypeError "unsupported operand type(s)")
  end.

(** Numeric value of a scalar, for [==] between numbers. *)
Definition py_num (v : pyval) : option Q :=
  match v with
  | PyBool b => Some (if b then 1%Q else 0%Q)
  | PyInt n => Some (inject_Z n)
  | PyFloat x => Some x
  | _ => None
  end.

Fixpoint py_eqb (a b : pyval) : bool :=
  let eqs := fix eqs (xs ys : list pyval) : bool :=
    match xs, ys with
    | [], [] => true
    | x :: xs, y :: ys => py_eqb x y && eqs xs ys
    | _, _ => false
    end in
  match a, b with
  | PyNone, PyNone => true
  | PyStr s, PyStr t => String.eqb s t
  | PyTuple xs, PyTuple ys => eqs xs ys
  | PyList xs, PyList ys => eqs xs ys
  | PyVariable _, _ | _, PyVariable _ => false
  | _, _ =>
      match py_num a, py_num b with
      | Some x, Some y => Qeq_bool x y
      | _, _ => false
      end
  end.

(** The items of a tuple or a list, for iteration and [len]. *)
Definition py_items (v : pyval) : result (list pyval) :=
  match v with
  | PyTuple xs | PyList xs => Ok xs
  | _ => Err (TypeError "object is not iterable")
  end.

(** [l[i]] on a Python sequence held as a Rocq list. *)
Definition list_index {A} (l : list A) (i : nat) : result A :=
  match l !! i with
  | Some x => Ok x
  | None => Err (IndexError "index out of range")
  end.

(** [l[-1]]. *)
Definition list_last {A} (l : list A) : result A :=
  match last l with
  | Some x => Ok x
  | None => Err (IndexError "index out of range")
  end.

(** [v[i]] for a tuple or list [v]. *)
Definition py_index (v : pyval) (i : nat) : result pyval :=
  match v with
  | PyTuple xs | PyList xs => list_index xs i
  | _ => Err (TypeError "object is not subscriptable")
  end.

(** [a, b = v]. *)
Definition unpack2 (v : pyval) : result (pyval * pyval) :=
  xs ← py_items v;
  match xs with
  | [a; b] => Ok (a, b)
  | _ => Err (ValueError "wrong number of values to unpack")
  end.

(** [a, b, c = v]. *)
Definition unpack3 (v : pyval) : result (pyval * pyval * pyval) :=
  xs ← py_items v;
  match xs with
  | [a; b; c] => Ok (a, b, c)
  | _ => Err (ValueError "wrong number of values to unpack")
  end.

(** [a, b, c, d = v]. *)
Definition unpack4 (v : pyval) : result (pyval * pyval * pyval * pyval) :=
  xs ← py_items v;
  match xs with
  | [a; b; c; d] => Ok (a, b, c, d)
  | _ => Err (ValueError "wrong number of values to unpack")
  end.

(** [tuple(dim if dim else 1 for dim in v)]. *)
Definition dims_or_1 (v : pyval) : result (list pyval) :=
  xs ← py_items v;
  mapM (λ dim, t ← truthy dim; Ok (if t : bool then dim else PyInt 1)) xs.

(** ** numpy arrays

    Arrays are kept symbolic: a learned array is known by a label and its
    shape, [np.zeros] and [transpose] are constructors.  Only shapes are
    computed. *)

Inductive ndarray : Type :=
| NdWeights (label : string) (shape : list Z)
| NdZeros (shape : list Z) (dtype : string)
| NdTranspose (a : ndarray) (axes : list nat).

Fixpoint np_shape (a : ndarray) : list Z :=
  match a with
  | NdWeights _ shape => shape
  | NdZeros shape _ => shape
  | NdTranspose a axes => (λ i, default 0 (np_shape a !! i)) <$> axes
  end.

(** [a.transpose(axes)]: the axes must be a permutation of the array's. *)
Definition np_transpose (a : ndarray) (axes : list nat) : result ndarray :=
  if decide (axes ≡ₚ seq 0 (length (np_shape a)))
  then Ok (NdTranspose a axes)
  else Err (ValueError "axes don't match array").

(** [np.zeros(shape, dtype)] for a tuple of ints. *)
Definition np_zeros (shape : list pyval) (dtype : string) : result ndarray :=
  dims ← mapM as_int shape;
  if decide (Forall (λ d, 0 <= d) dims)
  then Ok (NdZeros dims dtype)
  else Err (ValueError "negative dimensions are not allowed").

(** [np.roll(range(size), 1)]. *)
Definition np_roll_range_1 (size : nat) : list nat :=
  match size with
  | O => []
  | S k => k :: seq 0 k
  end.

(** ** Relay expressions

    Modelled from the spec: the IR values and the operator constructors
    of [relay.expr] and [relay.op] are not part of this file.  An IR value
    is opaque to the frontend beyond identity and shape, so an operator
    call is kept as syntax: the operator's name, its expression arguments
    in the order of the call, and its keyword attributes. *)

Inductive expr : Type :=
| EVar (name_hint : string) (shape : option (list Z))
| EConst (value : pyval) (dtype : option string)
| ECall (op : string) (args : list expr) (attrs : list (string * pyval))
| ETupleGetItem (tuple_value : expr) (index : nat)
| ETuple (fields : list expr).

(** What a converter receives and returns: one expression, or a Python
    list of expressions. *)
Inductive pyexprs : Type :=
| One (e : expr)
| Many (es : list expr).

(** An operator applied to a Python list where it takes an expression
    does not build a call. *)
Definition the_expr (inexpr : pyexprs) : result expr :=
  match inexpr with
  | One e => Ok e
  | Many _ => Err (TypeError "expected a relay expression")
  end.

(** Modelled from the spec: the wrapper [relay.expr.TupleWrapper] of a
    tuple-valued call such as a split into slices or chunks, which is not
    part of this file.  Item [index] is [TupleGetItem(tuple_value, index)]
    for [index < size]; iteration yields the items in order. *)
Record TupleWrapper : Type := mkTupleWrapper {
  tuple_value : expr;
  size : Z
}.

Definition tw_getitem (t : TupleWrapper) (index : nat) : result expr :=
  if decide (size t <= Z.of_nat index)
  then Err (IndexError "Tuple index out of range")
  else Ok (ETupleGetItem (tuple_value t) index).

Definition tw_iter (t : TupleWrapper) : list expr :=
  ETupleGetItem (tuple_value t) <$> seq 0 (Z.to_nat (size t)).

Module _expr.

Definition var (name_hint : string) (shape : option (list Z)) : expr :=
  EVar name_hint shape.

Definition const (value : pyval) (dtype : option string) : expr :=
  EConst value dtype.

Definition Tuple (fields : list expr) : expr := ETuple fields.

(** [relay.Function(params, body)]. *)
Record Function : Type := mkFunction {
  fn_params : list expr;
  fn_body : expr
}.

End _expr.

Module _op.

Definition add (lhs rhs : expr) : expr := ECall "add" [lhs; rhs] [].
Definition subtract (lhs rhs : expr) : expr := ECall "subtract" [lhs; rhs] [].
Definition multiply (lhs rhs : expr) : expr := ECall "multiply" [lhs; rhs] [].
Definition divide (lhs rhs : expr) : expr := ECall "divide" [lhs; rhs] [].
Definition maximum (lhs rhs : expr) : expr := ECall "maximum" [lhs; rhs] [].
Definition greater (lhs rhs : expr) : expr := ECall "greater" [lhs; rhs] [].
Definition negative (data : expr) : expr := ECall "negative" [data] [].
Definition exp (data : expr) : expr := ECall "exp" [data] [].
Definition log (data : expr) : expr := ECall "log" [data] [].
Definition abs (data : expr) : expr := ECall "abs" [data] [].
Definition sigmoid (data : expr) : expr := ECall "sigmoid" [data] [].
Definition tanh (data : expr) : expr := ECall "tanh" [data] [].
Definition clip (data : expr) (a_min a_max : Q) : expr :=
  ECall "clip" [data] [("a_min", PyFloat a_min); ("a_max", PyFloat a_max)].
(** [data.astype(dtype)]. *)
Definition astype (data : expr) (dtype : string) : expr :=
  ECall "cast" [data] [("dtype", PyStr dtype)].
Definition squeeze (data : expr) (axis : pyval) : expr :=
  ECall "squeeze" [data] [("axis", axis)].
Definition expand_dims (data : expr) (axis : Z) : expr :=
  ECall "expand_dims" [data] [("axis", PyInt axis)].
Definition transpose (data : expr) (axes : list Z) : expr :=
  ECall "transpose" [data] [("axes", PyList (PyInt <$> axes))].
Definition reshape (data : expr) (newshape : list pyval) : expr :=
  ECall "reshape" [data] [("newshape", PyTuple newshape)].
Definition concatenate (data : list expr) (axis : Z) : expr :=
  ECall "concatenate" [ETuple data] [("axis", PyInt axis)].
Definition strided_slice (data : expr) (begin end_ : list pyval) : expr :=
  ECall "strided_slice" [data] [("begin", PyList begin); ("end", PyList end_)].

(** [split(data, indices_or_sections, axis)]: as many parts as the int
    says, or one more than there are split indices. *)
Definition split (data : expr) (indices_or_sections : pyval) (axis : Z)
  : result TupleWrapper :=
  ret_size ← match indices_or_sections with
             | PyInt n => Ok n
             | PyBool b => Ok (if b then 1 else 0)
             | PyTuple xs | PyList xs => Ok (Z.of_nat (length xs) + 1)
             | _ => Err (TypeError "object has no len()")
             end;
  Ok (mkTupleWrapper
        (ECall "split" [data]
           [("indices_or_sections", indices_or_sections); ("axis", PyInt axis)])
        ret_size).

Module nn.

Definition relu (data : expr) : expr := ECall "nn.relu" [data] [].
Definition leaky_relu (data : expr) (alpha : Q) : expr :=
  ECall "nn.leaky_relu" [data] [("alpha", PyFloat alpha)].
Definition softmax (data : expr) (axis : Z) : expr :=
  ECall "nn.softmax" [data] [("axis", PyInt axis)].
Definition dense (data weight : expr) (units : pyval) : expr :=
  ECall "nn.dense" [data; weight] [("units", units)].
Definition bias_add (data bias : expr) : expr :=
  ECall "nn.bias_add" [data; bias] [].
Definition batch_flatten (data : expr) : expr :=
  ECall "nn.batch_flatten" [data] [].
Definition pad (data : expr) (pad_width : list (pyval * pyval)) : expr :=
  ECall "nn.pad" [data]
    [("pad_width", PyTuple ((λ p, PyTuple [p.1; p.2]) <$> pad_width))].
(** The convolutions and poolings are called with [**params]: the dict's
    [weight] is the second expression argument, the rest are attributes. *)
Definition conv2d (data weight : expr) (params : list (string * pyval)) : expr :=
  ECall "nn.conv2d" [data; weight] params.
Definition conv2d_transpose (data weight : expr) (params : list (string * pyval))
  : expr :=
  ECall "nn.conv2d_transpose" [data; weight] params.
Definition max_pool2d (data : expr) (params : list (string * pyval)) : expr :=
  ECall "nn.max_pool2d" [data] params.
Definition avg_pool2d (data : expr) (params : list (string * pyval)) : expr :=
  ECall "nn.avg_pool2d" [data] params.
Definition global_max_pool2d (data : expr) : expr :=
  ECall "nn.global_max_pool2d" [data] [].
Definition global_avg_pool2d (data : expr) : expr :=
  ECall "nn.global_avg_pool2d" [data] [].
Definition upsampling (data : expr) (params : list (string * pyval)) : expr :=
  ECall "nn.upsampling" [data] params.
(** [batch_norm(data, **params)]: the dict's expressions, in the order
    gamma, beta, moving_mean, moving_var when present, follow [data]; the
    call has three results. *)
Definition batch_norm (data : expr) (tensors : list expr)
    (params : list (string * pyval)) : TupleWrapper :=
  mkTupleWrapper (ECall "nn.batch_norm" (data :: tensors) params) 3.

End nn.

End _op.

(** A dict of keyword arguments, in insertion order; assigning to a key
    that is present replaces its value in place. *)
Fixpoint dict_set (k : string) (v : pyval) (d : list (string * pyval))
  : list (string * pyval) :=
  match d with
  | [] => [(k, v)]
  | (k', v') :: d => if decide (k' = k) then (k, v) :: d else (k', v') :: dict_set k v d
  end.

Fixpoint dict_get (k : string) (d : list (string * pyval)) : option pyval :=
  match d with
  | [] => None
  | (k', v') :: d => if decide (k' = k) then Some v' else dict_get k d
  end.

(** ** The expression table

    Modelled from the spec: the class [ExprTable] of [frontend/common.py]
    is not part of this file.  The table maps a name to one IR value and,
    in parallel, a constant's name to its raw array.  [set_expr] fails
    with [DuplicateSymbol] on a name already present, [get_expr] fails
    with [UnknownSymbol] on an absent name, and [new_const] generates a
    fresh unique name, stores the array in the constant registry and
    returns an IR reference.  The spec does not fix the shape of the
    generated names; here they are the first of [_param], [_param0],
    [_param1], ... that is a key of neither mapping. *)

Record ExprTable : Type := mkExprTable {
  exprs : gmap string expr;
  params : gmap string ndarray
}.

(** [ExprTable()]. *)
Definition ExprTable_new : ExprTable := mkExprTable ∅ ∅.

(** Computations over the table.  An exception leaves the table as it
    was when raised: the writes done before the raise stay. *)
Definition M (A : Type) : Type := ExprTable → result A * ExprTable.

#[global] Instance M_ret : MRet M := fun A a etab => (Ok a, etab).
#[global] Instance M_bind : MBind M := fun A B k m etab =>
  match m etab with
  | (Ok a, etab') => k a etab'
  | (Err e, etab') => (Err e, etab')
  end.

Definition raise {A} (e : exn) : M A := fun etab => (Err e, etab).

(** A computation that does not touch the table. *)
Definition lift {A} (r : result A) : M A := fun etab => (r, etab).

(** [for x in l: body(x)]. *)
Fixpoint forM_ {A} (body : A → M unit) (l : list A) : M unit :=
  match l with
  | [] => mret tt
  | x :: l => _ ← body x; forM_ body l
  end.

(** A loop over [l] that carries the variables [s] it assigns. *)
Fixpoint foldM {S A} (body : S → A → result S) (s : S) (l : list A) : result S :=
  match l with
  | [] => Ok s
  | x :: l => s' ← body s x; foldM body s' l
  end.

(** [enumerate(l)]. *)
Definition enumerate {A} (l : list A) : list (nat * A) :=
  zip (seq 0 (length l)) l.

Definition set_expr (name : string) (e : expr) : M unit := fun etab =>
  match exprs etab !! name with
  | Some _ => (Err (DuplicateSymbol name), etab)
  | None => (Ok tt, mkExprTable (<[name := e]> (exprs etab)) (params etab))
  end.

Definition get_expr (name : string) : M expr := fun etab =>
  match exprs etab !! name with
  | Some e => (Ok e, etab)
  | None => (Err (UnknownSymbol name), etab)
  end.

(** The name [new_const] generates: a key of neither mapping. *)
Definition fresh_name (etab : ExprTable) : string :=
  fresh_string_of_set "_param" (dom (exprs etab) ∪ dom (params etab)).

Definition new_const (value : ndarray) : M expr := fun etab =>
  let name := fresh_name etab in
  (Ok (_expr.var name (Some (np_shape value))),
   mkExprTable (exprs etab) (<[name := value]> (params etab))).

(** ** Keras layers and models

    What the frontend reads of a layer: its class name, whether it is an
    [InputLayer], its name, its weights, its attributes by name, and its
    inbound nodes under either of the two attribute names Keras versions
    use.  Of the layers a node lists as inbound only the name and the
    class test are read. *)

Record LayerRef : Type := mkLayerRef {
  ref_name : string;
  ref_is_InputLayer : bool
}.

Record Node : Type := mkNode {
  node_indices : list nat;
  tensor_indices : list nat;
  inbound_layers : list LayerRef
}.

Record Layer : Type := mkLayer {
  type_name : string;
  is_InputLayer : bool;
  name : string;
  get_weights : list ndarray;
  attrs : gmap string pyval;
  inbound_nodes : option (list Node);
  _inbound_nodes : option (list Node)
}.

(** [keras_layer.attr]. *)
Definition getattr (keras_layer : Layer) (attr : string) : result pyval :=
  match attrs keras_layer !! attr with
  | Some v => Ok v
  | None => Err (AttributeError attr)
  end.

(** [keras_layer.attr.__name__] for an attribute holding a function. *)
Definition getattr_name (keras_layer : Layer) (attr : string) : result string :=
  v ← getattr keras_layer attr;
  match v with
  | PyStr s => Ok s
  | _ => Err (AttributeError "__name__")
  end.

Record Model : Type := mkModel {
  is_keras_Model : bool;
  layers : list Layer;
  _node_key : Layer → nat → string;
  _network_nodes : gset string;
  _output_coordinates : list (LayerRef * nat * nat)
}.

(** The Keras installation [from_keras] finds. *)
Record Keras : Type := mkKeras {
  installed : bool;
  backend : string;
  image_data_format : string
}.

(** ** The converters *)

Definition _check_data_format (keras_layer : Layer) : result unit :=
  match attrs keras_layer !! "data_format" with
  | Some data_format =>
      if py_eqb data_format (PyStr "channels_last") then Ok tt
      else Err (ValueError
                  "Keras frontend currently supports data_format = channels_last only.")
  | None => Ok tt
  end.

Definition _get_elu (inexpr alpha : expr) : expr :=
  _op.add
    (_op.multiply (_op.negative alpha)
       (_op.nn.relu (_op.subtract (_expr.const (PyFloat 1) None) (_op.exp inexpr))))
    (_op.nn.relu inexpr).

(** [_as_list] on converter values, and on attribute values. *)
Definition _as_list (arr : pyexprs) : list expr :=
  match arr with
  | Many es => es
  | One e => [e]
  end.

Definition _as_list_val (arr : pyval) : list pyval :=
  match arr with
  | PyList xs => xs
  | _ => [arr]
  end.

(** The second argument of [_convert_activation]: an identifier string,
    or a layer carrying the activation. *)
Inductive str_or_layer : Type :=
| IsStr (s : string)
| IsLayer (keras_layer : Layer).

(** [keras_layer.attr if hasattr(keras_layer, attr) else dflt]; a string
    has none of the attributes asked for. *)
Definition attr_or (keras_layer : str_or_layer) (attr : string) (dflt : pyval)
  : pyval :=
  match keras_layer with
  | IsStr _ => dflt
  | IsLayer l => default dflt (attrs l !! attr)
  end.

(** The first lines of [_convert_activation]: the identifier itself, or
    the [__name__] of the layer's activation (under either Python
    version's attribute name). *)
Definition act_type_of (keras_layer : str_or_layer) : result string :=
  match keras_layer with
  | IsStr s => Ok s
  | IsLayer l => getattr_name l "activation"
  end.

Definition _convert_activation (inexpr : pyexprs) (keras_layer : str_or_layer)
  : result pyexprs :=
  act_type ← act_type_of keras_layer;
  if decide (act_type = "linear") then
    match keras_layer with
    | IsStr _ => Ok inexpr
    | IsLayer _ =>
        let alpha := attr_or keras_layer "alpha" (PyFloat 1) in
        let beta := attr_or keras_layer "beta" (PyFloat 0) in
        let alpha := _expr.const alpha (Some "float32") in
        let beta := _expr.const beta (Some "float32") in
        x ← the_expr inexpr;
        Ok (One (_op.add (_op.multiply x alpha) beta))
    end
  else if decide (act_type = "softmax") then
    x ← the_expr inexpr; Ok (One (_op.nn.softmax x 1))
  else if decide (act_type = "sigmoid") then
    x ← the_expr inexpr; Ok (One (_op.sigmoid x))
  else if decide (act_type = "tanh") then
    x ← the_expr inexpr; Ok (One (_op.tanh x))
  else if decide (act_type = "relu") then
    x ← the_expr inexpr; Ok (One (_op.nn.relu x))
  else if decide (act_type = "softplus") then
    x ← the_expr inexpr;
    Ok (One (_op.log (_op.add (_op.exp x) (_expr.const (PyFloat 1) None))))
  else if decide (act_type = "elu") then
    let alpha := attr_or keras_layer "alpha" (PyFloat 1) in
    let alpha := _expr.const alpha (Some "float32") in
    x ← the_expr inexpr; Ok (One (_get_elu x alpha))
  else if decide (act_type = "selu") then
    let alpha := attr_or keras_layer "alpha"
                   (PyFloat 1.6732632423543772848170429916717) in
    let gamma := attr_or keras_layer "gamma"
                   (PyFloat 1.0507009873554804934193349852946) in
    let alpha := _expr.const alpha (Some "float32") in
    let gamma := _expr.const gamma (Some "float32") in
    x ← the_expr inexpr; Ok (One (_op.multiply gamma (_get_elu x alpha)))
  else if decide (act_type = "relu6") then
    x ← the_expr inexpr; Ok (One (_op.clip x 0 6))
  else if decide (act_type = "softsign") then
    x ← the_expr inexpr;
    Ok (One (_op.divide x (_op.add (_expr.const (PyFloat 1) None) (_op.abs x))))
  else if decide (act_type = "hard_sigmoid") then
    x ← the_expr inexpr;
    let transformX :=
      _op.add (_op.multiply (_expr.const (PyFloat 0.2) None) x)
        (_expr.const (PyFloat 0.5) None) in
    Ok (One (_op.clip transformX 0 1))
  else Err (TypeError ("Unsupported activation type : " ++ act_type)).

Definition _convert_recurrent_activation (inexpr : pyexprs) (keras_layer : Layer)
  : result pyexprs :=
  act_type ← getattr_name keras_layer "recurrent_activation";
  _convert_activation inexpr (IsStr act_type).

Definition _convert_advanced_activation (inexpr : pyexprs) (keras_layer : Layer)
  : M pyexprs :=
  let act_type := type_name keras_layer in
  if decide (act_type = "ReLU") then
    lift (max_value ← getattr keras_layer "max_value";
          clipped ← truthy max_value;
          if clipped : bool then
            a_max ← py_float max_value;
            x ← the_expr inexpr; Ok (One (_op.clip x 0 a_max))
          else
            x ← the_expr inexpr; Ok (One (_op.nn.relu x)))
  else if decide (act_type = "LeakyReLU") then
    lift (alpha ← getattr keras_layer "alpha";
          alpha ← py_float alpha;
          x ← the_expr inexpr; Ok (One (_op.nn.leaky_relu x alpha)))
  else if decide (act_type = "ELU") then
    let alpha := attr_or (IsLayer keras_layer) "alpha" (PyFloat 1) in
    let alpha := _expr.const alpha (Some "float32") in
    lift (x ← the_expr inexpr; Ok (One (_get_elu x alpha)))
  else if decide (act_type = "PReLU") then
    alpha ← lift (match attrs keras_layer !! "alpha" with
                  | Some alpha => Ok alpha
                  | None => Err (AssertionError "alpha required for PReLU.")
                  end);
    _ ← lift (_check_data_format keras_layer);
    size ← lift (match alpha with
                 | PyVariable shape => Ok (length shape)
                 | _ => Err (AttributeError "shape")
                 end);
    w ← lift (w ← list_index (get_weights keras_layer) 0;
              np_transpose w (np_roll_range_1 size));
    alpha ← new_const w;
    lift (x ← the_expr inexpr;
          Ok (One (_op.add
                     (_op.multiply (_op.negative alpha)
                        (_op.nn.relu (_op.negative x)))
                     (_op.nn.relu x))))
  else if decide (act_type = "ThresholdedReLU") then
    let theta := attr_or (IsLayer keras_layer) "theta" (PyFloat 1) in
    lift (x ← the_expr inexpr;
          Ok (One (_op.multiply x
                     (_op.astype
                        (_op.greater x (_expr.const theta (Some "float32")))
                        "float32"))))
  else raise (TypeError ("Unsupported advanced activation type : " ++ act_type)).

Definition _convert_merge (inexpr : pyexprs) (keras_layer : Layer)
  : result pyexprs :=
  let merge_type := type_name keras_layer in
  inexpr ← match inexpr with
           | Many es => Ok es
           | One _ => Err (TypeError "object is not subscriptable")
           end;
  ret ← list_index inexpr 0;
  if decide (merge_type = "Subtract") then
    if decide (length inexpr = 2%nat) then
      rhs ← list_index inexpr 1; Ok (One (_op.subtract ret rhs))
    else Err (AssertionError "Subtract merge takes 2 inputs.")
  else if decide (merge_type ∈ ["Add"; "Multiply"; "Maximum"]) then
    let op :=
      if decide (merge_type = "Add") then _op.add
      else if decide (merge_type = "Multiply") then _op.multiply
      else _op.maximum in
    Ok (One (foldl op ret (drop 1 inexpr)))
  else if decide (merge_type = "Average") then
    let ret := foldl _op.add ret (drop 1 inexpr) in
    Ok (One (_op.divide ret
               (_expr.const (PyInt (Z.of_nat (length inexpr))) (Some "float32"))))
  else Err (TypeError ("Unsupported merge type : " ++ merge_type)).

(** [len(v)] and [v[-1]] on attribute values. *)
Definition py_len (v : pyval) : result nat :=
  xs ← py_items v; Ok (length xs).

Definition py_last (v : pyval) : result pyval :=
  match v with
  | PyTuple xs | PyList xs => list_last xs
  | _ => Err (TypeError "object is not subscriptable")
  end.

(** [a, b, c, d = arr.shape]. *)
Definition unpack_shape4 (shape : list Z) : result (Z * Z * Z * Z) :=
  match shape with
  | [a; b; c; d] => Ok (a, b, c, d)
  | _ => Err (ValueError "wrong number of values to unpack")
  end.

(** The fused activation of a layer ("defuse activation"): applied unless
    it is linear. *)
Definition defuse_activation (out : expr) (keras_layer : Layer) : result expr :=
  act_type ← getattr_name keras_layer "activation";
  if decide (act_type ≠ "linear")
  then out ← _convert_activation (One out) (IsStr act_type); the_expr out
  else Ok out.

(** The lines that end the dense and convolution converters: the bias,
    held at [bias_index] in the weights, when the layer uses one, then the
    fused activation. *)
Definition bias_and_activation (out : expr) (keras_layer : Layer)
    (bias_index : nat) : M expr :=
  use_bias ← lift (v ← getattr keras_layer "use_bias"; truthy v);
  out ← (if use_bias : bool then
           b ← lift (list_index (get_weights keras_layer) bias_index);
           bias ← new_const b;
           mret (_op.nn.bias_add out bias)
         else mret out);
  lift (defuse_activation out keras_layer).

Definition _convert_dense (inexpr : pyexprs) (keras_layer : Layer) : M pyexprs :=
  let weightList := get_weights keras_layer in
  w0 ← lift (w ← list_index weightList 0; np_transpose w [1; 0]%nat);
  weight ← new_const w0;
  units ← lift (w ← list_index weightList 0; list_index (np_shape w) 1);
  input_shape ← lift (getattr keras_layer "input_shape");
  input_dim ← lift (py_len input_shape);
  inexpr ← lift (
    if decide (2 < input_dim)%nat then
      input_shape ← (s ← list_index (_as_list_val input_shape) 0; dims_or_1 s);
      bad ← (if decide (input_dim ≠ 3%nat) then Ok true else
             d0 ← list_index input_shape 0;
             if negb (py_eqb d0 (PyInt 1)) then Ok true else
             d1 ← list_index input_shape 1;
             Ok (negb (py_eqb d1 (PyInt 1))));
      if bad : bool
      then Err (ValueError "Cannot flatten the inputs with shape. for dense.")
      else x ← the_expr inexpr; Ok (_op.squeeze x (PyInt 0))
    else the_expr inexpr);
  let out := _op.nn.dense inexpr weight (PyInt units) in
  out ← bias_and_activation out keras_layer 1;
  let out := if decide (2 < input_dim)%nat then _op.expand_dims out 0 else out in
  mret (One out).

(** The ["same"] branch shared by the convolutions: the pads of both
    spatial axes. *)
Definition same_pads (keras_layer : Layer) (kernel_h kernel_w : Z)
    (stride_h stride_w : pyval) : result (Z * Z * Z * Z) :=
  input_shape ← getattr keras_layer "input_shape";
  in_h ← py_index input_shape 1;
  in_w ← py_index input_shape 2;
  '(pad_t, pad_b) ← (i ← as_int in_h; s ← as_int stride_h;
                     _get_pad_pair i kernel_h s);
  '(pad_l, pad_r) ← (i ← as_int in_w; s ← as_int stride_w;
                     _get_pad_pair i kernel_w s);
  Ok (pad_t, pad_b, pad_l, pad_r).

(** The padding branches of a convolution: the input (padded or not) and
    the parameters (with the padding entry replaced or not). *)
Definition conv_padding (inexpr : pyexprs) (keras_layer : Layer)
    (kernel_h kernel_w : Z) (stride_h stride_w : pyval)
    (params : list (string * pyval)) : result (pyexprs * list (string * pyval)) :=
  padding ← getattr keras_layer "padding";
  if py_eqb padding (PyStr "valid") then Ok (inexpr, params)
  else if py_eqb padding (PyStr "same") then
    '(pad_t, pad_b, pad_l, pad_r) ←
      same_pads keras_layer kernel_h kernel_w stride_h stride_w;
    if decide (pad_t = pad_b ∧ pad_l = pad_r) then
      Ok (inexpr, dict_set "padding" (PyTuple [PyInt pad_t; PyInt pad_l]) params)
    else
      x ← the_expr inexpr;
      Ok (One (_op.nn.pad x
                 [(PyInt 0, PyInt 0); (PyInt 0, PyInt 0);
                  (PyInt pad_t, PyInt pad_b); (PyInt pad_l, PyInt pad_r)]),
          params)
  else
    Err (TypeError "Unsupported padding type : {}").

Definition _convert_convolution (inexpr : pyexprs) (keras_layer : Layer)
  : M pyexprs :=
  _ ← lift (_check_data_format keras_layer);
  let is_deconv := bool_decide (type_name keras_layer = "Conv2DTranspose") in
  let is_depthconv := bool_decide (type_name keras_layer = "DepthwiseConv2D") in
  let weightList := get_weights keras_layer in
  '(kernel_h, kernel_w, dim2, dim3, weight) ← lift (
    w ← list_index weightList 0;
    '(kernel_h, kernel_w, dim2, dim3) ← unpack_shape4 (np_shape w);
    weight ← (if is_deconv then np_transpose w [3; 2; 0; 1]%nat
              else if is_depthconv then np_transpose w [2; 3; 0; 1]%nat
              else np_transpose w [3; 2; 0; 1]%nat);
    Ok (kernel_h, kernel_w, dim2, dim3, weight));
  '(dilation, dilated_kernel_h, dilated_kernel_w, stride_h, stride_w) ← lift (
    dilation_rate ← getattr keras_layer "dilation_rate";
    dilation ← match dilation_rate with
               | PyList _ | PyTuple _ =>
                   d0 ← py_index dilation_rate 0;
                   d1 ← py_index dilation_rate 1;
                   Ok [d0; d1]
               | _ => Ok [dilation_rate; dilation_rate]
               end;
    dilated_kernel_h ← (d ← list_index dilation 0; d ← as_int d;
                        Ok ((kernel_h - 1) * d + 1));
    dilated_kernel_w ← (d ← list_index dilation 1; d ← as_int d;
                        Ok ((kernel_w - 1) * d + 1));
    '(stride_h, stride_w) ← (strides ← getattr keras_layer "strides";
                             unpack2 strides);
    Ok (dilation, dilated_kernel_h, dilated_kernel_w, stride_h, stride_w));
  weight ← new_const weight;
  let params := [("kernel_size", PyList [PyInt kernel_h; PyInt kernel_w]);
                 ("strides", PyList [stride_h; stride_w]);
                 ("dilation", PyList dilation);
                 ("padding", PyList [PyInt 0; PyInt 0])] in
  let params :=
    if is_depthconv then
      (* in_channels, depth_mult = dim2, dim3 *)
      dict_set "groups" (PyInt dim2)
        (dict_set "channels" (PyInt (dim2 * dim3)) params)
    else if is_deconv then
      (* n_filters, in_channels = dim2, dim3 *)
      dict_set "channels" (PyInt dim2) params
    else
      (* in_channels, n_filters = dim2, dim3 *)
      dict_set "channels" (PyInt dim3) params in
  '(inexpr, params) ← lift (
    conv_padding inexpr keras_layer dilated_kernel_h dilated_kernel_w
      stride_h stride_w params);
  out ← lift (x ← the_expr inexpr;
              Ok (if is_deconv then _op.nn.conv2d_transpose x weight params
                  else _op.nn.conv2d x weight params));
  out ← bias_and_activation out keras_layer 1;
  mret (One out).

Definition _convert_separable_convolution (inexpr : pyexprs) (keras_layer : Layer)
  : M pyexprs :=
  _ ← lift (_check_data_format keras_layer);
  let weightList := get_weights keras_layer in
  (* depthwise conv *)
  '(kernel_h, kernel_w, in_channels, depth_mult, stride_h, stride_w, weight0) ←
    lift (
      w ← list_index weightList 0;
      '(kernel_h, kernel_w, in_channels, depth_mult) ← unpack_shape4 (np_shape w);
      '(stride_h, stride_w) ← (strides ← getattr keras_layer "strides";
                               unpack2 strides);
      weight0 ← np_transpose w [2; 3; 0; 1]%nat;
      Ok (kernel_h, kernel_w, in_channels, depth_mult, stride_h, stride_w, weight0));
  weight0 ← new_const weight0;
  let params0 := [("channels", PyInt (in_channels * depth_mult));
                  ("groups", PyInt in_channels);
                  ("kernel_size", PyList [PyInt kernel_h; PyInt kernel_w]);
                  ("strides", PyList [stride_h; stride_w]);
                  ("dilation", PyList [PyInt 1; PyInt 1]);
                  ("padding", PyList [PyInt 0; PyInt 0])] in
  '(inexpr, params0) ← lift (
    conv_padding inexpr keras_layer kernel_h kernel_w stride_h stride_w params0);
  depthconv ← lift (x ← the_expr inexpr; Ok (_op.nn.conv2d x weight0 params0));
  (* pointwise conv *)
  weight1 ← lift (w ← list_index weightList 1; np_transpose w [3; 2; 0; 1]%nat);
  weight1_e ← new_const weight1;
  channels ← lift (list_index (np_shape weight1) 0);
  let params1 := [("channels", PyInt channels);
                  ("groups", PyInt 1);
                  ("kernel_size", PyList [PyInt 1; PyInt 1]);
                  ("strides", PyList [PyInt 1; PyInt 1]);
                  ("dilation", PyList [PyInt 1; PyInt 1])] in
  let out := _op.nn.conv2d depthconv weight1_e params1 in
  out ← bias_and_activation out keras_layer 2;
  mret (One out).

Definition _convert_flatten (inexpr : pyexprs) (keras_layer : Layer)
  : result pyexprs :=
  _ ← _check_data_format keras_layer;
  (* NCHW -> NHWC so that dense can be correctly converted *)
  x ← the_expr inexpr;
  let inexpr := _op.transpose x [0; 2; 3; 1] in
  Ok (One (_op.nn.batch_flatten inexpr)).

Definition _convert_pooling (inexpr : pyexprs) (keras_layer : Layer)
  : result pyexprs :=
  _ ← _check_data_format keras_layer;
  let pool_type := type_name keras_layer in
  (* global pool in keras = global pool + flatten in nnvm/relay *)
  if decide (pool_type = "GlobalMaxPooling2D") then
    x ← the_expr inexpr;
    _convert_flatten (One (_op.nn.global_max_pool2d x)) keras_layer
  else if decide (pool_type = "GlobalAveragePooling2D") then
    x ← the_expr inexpr;
    _convert_flatten (One (_op.nn.global_avg_pool2d x)) keras_layer
  else
    '(pool_h, pool_w) ← (pool_size ← getattr keras_layer "pool_size";
                         unpack2 pool_size);
    '(stride_h, stride_w) ← (strides ← getattr keras_layer "strides";
                             unpack2 strides);
    let params := [("pool_size", PyList [pool_h; pool_w]);
                   ("strides", PyList [stride_h; stride_w]);
                   ("padding", PyList [PyInt 0; PyInt 0])] in
    padding ← getattr keras_layer "padding";
    params ← (if py_eqb padding (PyStr "valid") then Ok params
              else if py_eqb padding (PyStr "same") then
                input_shape ← getattr keras_layer "input_shape";
                in_h ← py_index input_shape 1;
                in_w ← py_index input_shape 2;
                '(pad_t, pad_b) ← (i ← as_int in_h; k ← as_int pool_h;
                                   s ← as_int stride_h; _get_pad_pair i k s);
                '(pad_l, pad_r) ← (i ← as_int in_w; k ← as_int pool_w;
                                   s ← as_int stride_w; _get_pad_pair i k s);
                Ok (dict_set "padding"
                      (PyList [PyInt pad_t; PyInt pad_l; PyInt pad_b; PyInt pad_r])
                      params)
              else Err (TypeError "Unsupported padding type : {}"));
    if decide (pool_type = "MaxPooling2D") then
      x ← the_expr inexpr; Ok (One (_op.nn.max_pool2d x params))
    else if decide (pool_type = "AveragePooling2D") then
      let params := dict_set "count_include_pad" (PyBool false) params in
      x ← the_expr inexpr; Ok (One (_op.nn.avg_pool2d x params))
    else Err (TypeError "Unsupported pooling type : {}").

Definition _convert_upsample (inexpr : pyexprs) (keras_layer : Layer)
  : result pyexprs :=
  _ ← _check_data_format keras_layer;
  let upsample_type := type_name keras_layer in
  params ← (
    if decide (upsample_type = "UpSampling1D") then
      h ← getattr keras_layer "size";
      Ok [("scale", h)]
    else if decide (upsample_type = "UpSampling2D") then
      '(h, w) ← (size ← getattr keras_layer "size"; unpack2 size);
      if negb (py_eqb h w) then
        Err (TypeError "Unsupported upsampling type with different axes size : {}")
      else Ok [("scale", h)]
    else if decide (upsample_type = "UpSampling3D") then
      '(h, w, d) ← (size ← getattr keras_layer "size"; unpack3 size);
      if negb (py_eqb h w) || negb (py_eqb w d) then
        Err (TypeError "Unsupported upsampling type with different axes size : {}")
      else Ok [("scale", h)]
    else Err (TypeError ("Unsupported upsampling type : " ++ upsample_type)));
  x ← the_expr inexpr; Ok (One (_op.nn.upsampling x params)).

Definition _convert_cropping (inexpr : pyexprs) (keras_layer : Layer)
  : result pyexprs :=
  _ ← _check_data_format keras_layer;
  let crop_type := type_name keras_layer in
  '(in_h, in_w, crop_t, crop_b, crop_l, crop_r) ← (
    if decide (crop_type = "Cropping1D") then
      Err (NotImplementedError "Cropping1D not implemented")
    else if decide (crop_type = "Cropping2D") then
      '(_, in_h, in_w, _) ← (input_shape ← getattr keras_layer "input_shape";
                             unpack4 input_shape);
      '(crop_t, crop_b, crop_l, crop_r) ← (
        cropping ← getattr keras_layer "cropping";
        '(tb, lr) ← unpack2 cropping;
        '(crop_t, crop_b) ← unpack2 tb;
        '(crop_l, crop_r) ← unpack2 lr;
        Ok (crop_t, crop_b, crop_l, crop_r));
      Ok (in_h, in_w, crop_t, crop_b, crop_l, crop_r)
    else Err (TypeError ("Unrecognized cropping type : " ++ crop_type)));
  let int32_max := 2147483647 in
  end_h ← (a ← as_int in_h; b ← as_int crop_b; Ok (a - b));
  end_w ← (a ← as_int in_w; b ← as_int crop_r; Ok (a - b));
  x ← the_expr inexpr;
  Ok (One (_op.strided_slice x
             [PyInt 0; PyInt 0; crop_t; crop_l]
             [PyInt int32_max; PyInt int32_max; PyInt end_h; PyInt end_w])).

Definition _convert_batchnorm (inexpr : pyexprs) (keras_layer : Layer)
  : M pyexprs :=
  epsilon ← lift (getattr keras_layer "epsilon");
  let params := [("scale", PyBool false);
                 ("center", PyBool false);
                 ("epsilon", epsilon)] in
  let idx := 0%nat in
  scale ← lift (v ← getattr keras_layer "scale"; truthy v);
  '(params, tensors, idx) ← (
    if scale : bool then
      gamma ← lift (list_index (get_weights keras_layer) idx);
      gamma ← new_const gamma;
      mret (dict_set "scale" (PyBool true) params, [gamma], S idx)
    else mret (params, [], idx));
  center ← lift (v ← getattr keras_layer "center"; truthy v);
  '(params, tensors, idx) ← (
    if center : bool then
      beta ← lift (list_index (get_weights keras_layer) idx);
      beta ← new_const beta;
      mret (dict_set "center" (PyBool true) params, (tensors ++ [beta])%list, S idx)
    else mret (params, tensors, idx));
  moving_mean ← lift (list_index (get_weights keras_layer) idx);
  moving_var ← lift (list_index (get_weights keras_layer) (idx + 1));
  moving_mean ← new_const moving_mean;
  moving_var ← new_const moving_var;
  lift (x ← the_expr inexpr;
        let bn := _op.nn.batch_norm x (tensors ++ [moving_mean; moving_var])%list params in
        (* result, moving_mean, moving_var = ... *)
        result ← tw_getitem bn 0;
        Ok (One result)).

Definition _convert_padding (inexpr : pyexprs) (keras_layer : Layer)
  : result pyexprs :=
  _ ← _check_data_format keras_layer;
  let padding_type := type_name keras_layer in
  padding ← getattr keras_layer "padding";
  '(top, left_, bottom, right_) ← (
    if decide (padding_type = "ZeroPadding2D") then
      match padding with
      | PyInt _ | PyBool _ => Ok (padding, padding, padding, padding)
      | PyTuple xs =>
          p0 ← list_index xs 0;
          match p0 with
          | PyInt _ | PyBool _ =>
              '(top, left_) ← unpack2 padding;
              Ok (top, left_, top, left_)
          | PyTuple _ =>
              '(top, bottom) ← unpack2 p0;
              '(left_, right_) ← (p1 ← list_index xs 1; unpack2 p1);
              Ok (top, left_, bottom, right_)
          | _ => Err (ValueError "Unrecognized padding option: {}")
          end
      | _ => Err (ValueError "Unrecognized padding option: {}")
      end
    else if decide (padding_type = "ZeroPadding1D") then
      Err (NotImplementedError "ZeroPadding1D not implemented")
    else Err (ValueError ("Unrecognized padding type: " ++ padding_type)));
  x ← the_expr inexpr;
  Ok (One (_op.nn.pad x
             [(PyInt 0, PyInt 0); (PyInt 0, PyInt 0); (top, bottom); (left_, right_)])).

Definition _convert_concat (inexpr : pyexprs) (keras_layer : Layer)
  : result pyexprs :=
  _ ← _check_data_format keras_layer;
  Ok (One (_op.concatenate (_as_list inexpr) 1)).

Definition _convert_reshape (inexpr : pyexprs) (keras_layer : Layer)
  : result pyexprs :=
  _ ← _check_data_format keras_layer;
  ch ← (input_shape ← getattr keras_layer "input_shape"; py_last input_shape);
  target_shape ← getattr keras_layer "target_shape";
  t ← py_last target_shape;
  if negb (py_eqb ch t) then
    Err (AssertionError
           ("Only supports last dimension in target shape being equal to " ++
            "the channel number of input tensor."))
  else
    shape ← match target_shape with
            | PyTuple xs => Ok ([PyInt (-1); ch] ++ removelast xs)%list
            | _ => Err (TypeError "can only concatenate tuple to tuple")
            end;
    x ← the_expr inexpr; Ok (One (_op.reshape x shape)).

(** [tuple(dim if dim else 1 for dim in _as_list(keras_layer.attr)[0])]. *)
Definition first_shape (keras_layer : Layer) (attr : string)
  : result (list pyval) :=
  shape ← getattr keras_layer attr;
  s ← list_index (_as_list_val shape) 0;
  dims_or_1 s.

(** [np.zeros((1, keras_layer.units), 'float32')]. *)
Definition zero_state (keras_layer : Layer) : result ndarray :=
  units ← getattr keras_layer "units";
  np_zeros [PyInt 1; units] "float32".

(** An activation applied to one expression, giving one expression. *)
Definition activation (data : expr) (keras_layer : Layer) : result expr :=
  out ← _convert_activation (One data) (IsLayer keras_layer); the_expr out.

Definition recurrent_activation (data : expr) (keras_layer : Layer)
  : result expr :=
  out ← _convert_recurrent_activation (One data) keras_layer; the_expr out.

(** The body of the loop of [_convert_lstm] over the time steps; it
    assigns [next_h] and [next_c]. *)
Definition _convert_lstm_step (keras_layer : Layer)
    (kernel_weight recurrent_weight in_bias : expr) (units : Z)
    (state : expr * expr) (data : expr) : result (expr * expr) :=
  let '(next_h, next_c) := state in
  let ixh1 := _op.nn.dense data kernel_weight (PyInt units) in
  let ixh2 := _op.nn.bias_add
                (_op.nn.dense next_h recurrent_weight (PyInt units)) in_bias in
  let gate := _op.add ixh1 ixh2 in
  gates ← _op.split gate (PyInt 4) 1;
  in_gate ← (g ← tw_getitem gates 0; recurrent_activation g keras_layer);
  in_transform ← (g ← tw_getitem gates 1; recurrent_activation g keras_layer);
  next_c ← (g ← tw_getitem gates 2; a ← activation g keras_layer;
            Ok (_op.add (_op.multiply in_transform next_c)
                  (_op.multiply in_gate a)));
  out_gate ← (g ← tw_getitem gates 3; recurrent_activation g keras_layer);
  next_h ← (a ← activation next_c keras_layer; Ok (_op.multiply out_gate a));
  Ok (next_h, next_c).

Definition _convert_lstm (inexpr : pyexprs) (keras_layer : Layer) : M pyexprs :=
  _ ← lift (_check_data_format keras_layer);
  inexpr ← match inexpr with
           | Many es => mret es
           | One e =>
               buf ← lift (zero_state keras_layer);
               c_op ← new_const buf;
               h_op ← new_const buf;
               mret [e; h_op; c_op]
           end;
  in_data ← lift (list_index inexpr 0);
  next_h ← lift (list_index inexpr 1);
  next_c ← lift (list_index inexpr 2);
  let weightList := get_weights keras_layer in
  in_shape ← lift (first_shape keras_layer "input_shape");
  w0 ← lift (w ← list_index weightList 0; np_transpose w [1; 0]%nat);
  kernel_weight ← new_const w0;
  w1 ← lift (w ← list_index weightList 1; np_transpose w [1; 0]%nat);
  recurrent_weight ← new_const w1;
  w2 ← lift (list_index weightList 2);
  in_bias ← new_const w2;
  lift (
    units ← (w ← list_index weightList 0; list_index (np_shape w) 1);
    time_steps ← list_index in_shape 1;
    let in_data := _op.squeeze in_data (PyList [PyInt 0]) in
    in_data ← _op.split in_data time_steps 0;
    (* loop for the number of time_steps *)
    '(next_h, next_c) ←
      foldM (_convert_lstm_step keras_layer kernel_weight recurrent_weight
               in_bias units)
        (next_h, next_c) (tw_iter in_data);
    out_shape ← first_shape keras_layer "output_shape";
    let out := _op.reshape next_h out_shape in
    Ok (Many [out; next_h; next_c])).

Definition _convert_simple_rnn (inexpr : pyexprs) (keras_layer : Layer)
  : M pyexprs :=
  _ ← lift (_check_data_format keras_layer);
  inexpr ← match inexpr with
           | Many es => mret es
           | One e =>
               buf ← lift (zero_state keras_layer);
               prev_op ← new_const buf;
               mret [e; prev_op]
           end;
  in_data ← lift (list_index inexpr 0);
  prev_op ← lift (list_index inexpr 1);
  let weightList := get_weights keras_layer in
  w0 ← lift (w ← list_index weightList 0; np_transpose w [1; 0]%nat);
  kernel_weight ← new_const w0;
  w1 ← lift (w ← list_index weightList 1; np_transpose w [1; 0]%nat);
  recurrent_weight ← new_const w1;
  w2 ← lift (list_index weightList 2);
  in_bias ← new_const w2;
  lift (
    units ← (w ← list_index weightList 0; list_index (np_shape w) 1);
    let in_data := _op.nn.batch_flatten in_data in
    let ixh := _op.nn.bias_add
                 (_op.nn.dense in_data kernel_weight (PyInt units)) in_bias in
    let prev_op := _op.nn.batch_flatten prev_op in
    let ixh2 := _op.nn.dense prev_op recurrent_weight (PyInt units) in
    let output := _op.add ixh ixh2 in
    output ← activation output keras_layer;
    out_shape ← first_shape keras_layer "output_shape";
    let output := _op.reshape output out_shape in
    Ok (Many [output; output])).

Definition _convert_gru (inexpr : pyexprs) (keras_layer : Layer) : M pyexprs :=
  _ ← lift (_check_data_format keras_layer);
  inexpr ← match inexpr with
           | Many es => mret es
           | One e =>
               buf ← lift (zero_state keras_layer);
               h_tm1 ← new_const buf;
               mret [e; h_tm1]
           end;
  in_data ← lift (list_index inexpr 0);
  h_tm1_op ← lift (list_index inexpr 1);
  let weightList := get_weights keras_layer in
  w0 ← lift (w ← list_index weightList 0; np_transpose w [1; 0]%nat);
  kernel_weight ← new_const w0;
  w1 ← lift (w ← list_index weightList 1; np_transpose w [1; 0]%nat);
  recurrent_weight ← new_const w1;
  w2 ← lift (list_index weightList 2);
  in_bias ← new_const w2;
  lift (
    units ← (w ← list_index weightList 0; list_index (np_shape w) 1);
    let in_data := _op.nn.batch_flatten in_data in
    let matrix_x := _op.nn.bias_add
                      (_op.nn.dense in_data kernel_weight (PyInt units)) in_bias in
    (* inputs projected by all gate matrices at once *)
    layer_units ← getattr keras_layer "units";
    twice_units ← (u ← as_int layer_units; Ok (2 * u));
    let split_indices := PyList [layer_units; PyInt twice_units] in
    gates ← _op.split matrix_x split_indices 1;
    x_z ← tw_getitem gates 0;
    x_r ← tw_getitem gates 1;
    x_h ← tw_getitem gates 2;
    (* hidden state projected separately for update/reset and new *)
    let units := PyInt twice_units in
    let split_indices := PyList [units] in
    rec_weights ← _op.split recurrent_weight split_indices 0;
    let h_tm1_op := _op.nn.batch_flatten h_tm1_op in
    rec_weights_0 ← tw_getitem rec_weights 0;
    let matrix_inner := _op.nn.dense h_tm1_op rec_weights_0 units in
    let split_indices := PyList [layer_units] in
    recurrent ← _op.split matrix_inner split_indices 1;
    recurrent_z ← tw_getitem recurrent 0;
    recurrent_r ← tw_getitem recurrent 1;
    rec_act_z ← recurrent_activation (_op.add x_z recurrent_z) keras_layer;
    rec_act_r ← recurrent_activation (_op.add x_r recurrent_r) keras_layer;
    let units := layer_units in
    rec_weights_1 ← tw_getitem rec_weights 1;
    let recurrent_h := _op.nn.dense (_op.multiply rec_act_r h_tm1_op)
                         rec_weights_1 units in
    act_hh ← activation (_op.add x_h recurrent_h) keras_layer;
    (* previous and candidate state mixed by update gate *)
    let output :=
      _op.add (_op.multiply rec_act_z h_tm1_op)
        (_op.multiply (_op.subtract (_expr.const (PyFloat 1) None) rec_act_z)
           act_hh) in
    out_shape ← first_shape keras_layer "output_shape";
    let output := _op.reshape output out_shape in
    Ok (Many [output; output])).

(** Layers that can be skipped because they are train time only. *)
Definition _default_skip (inexpr : pyexprs) (keras_layer : Layer)
  : result pyexprs :=
  Ok inexpr.

(** A converter as [_convert_map] holds it: called with the input
    expression(s), the layer and the expression table. *)
Definition converter : Type := pyexprs → Layer → M pyexprs.

Definition pure_converter (f : pyexprs → Layer → result pyexprs) : converter :=
  fun inexpr keras_layer => lift (f inexpr keras_layer).

Definition _convert_map : list (string * converter) :=
  [ ("Dense", _convert_dense);
    ("Activation",
     pure_converter (fun inexpr l => _convert_activation inexpr (IsLayer l)));
    ("ReLU", _convert_advanced_activation);
    ("LeakyReLU", _convert_advanced_activation);
    ("PReLU", _convert_advanced_activation);
    ("ELU", _convert_advanced_activation);
    ("ThresholdedReLU", _convert_advanced_activation);

    ("AveragePooling2D", pure_converter _convert_pooling);
    ("MaxPooling2D", pure_converter _convert_pooling);
    ("GlobalAveragePooling2D", pure_converter _convert_pooling);
    ("GlobalMaxPooling2D", pure_converter _convert_pooling);
    ("Conv2D", _convert_convolution);
    ("Conv2DTranspose", _convert_convolution);
    ("DepthwiseConv2D", _convert_convolution);
    ("SeparableConv2D", _convert_separable_convolution);

    ("Flatten", pure_converter _convert_flatten);
    ("Reshape", pure_converter _convert_reshape);
    ("Concatenate", pure_converter _convert_concat);
    ("BatchNormalization", _convert_batchnorm);

    ("Add", pure_converter _convert_merge);
    ("Subtract", pure_converter _convert_merge);
    ("Multiply", pure_converter _convert_merge);
    ("ZeroPadding2D", pure_converter _convert_padding);
    ("UpSampling2D", pure_converter _convert_upsample);
    ("Cropping2D", pure_converter _convert_cropping);

    ("SimpleRNN", _convert_simple_rnn);
    ("LSTM", _convert_lstm);
    ("GRU", _convert_gru);

    ("Average", pure_converter _convert_merge);
    ("Maximum", pure_converter _convert_merge);

    ("InputLayer", pure_converter _default_skip);
    ("Dropout", pure_converter _default_skip);
    ("SpatialDropout2D", pure_converter _default_skip);
    ("SpatialDropout1D", pure_converter _default_skip) ].

(** [_convert_map[key]], [None] when [key not in _convert_map]. *)
Fixpoint map_lookup {A} (key : string) (m : list (string * A)) : option A :=
  match m with
  | [] => None
  | (k, v) :: m => if decide (k = key) then Some v else map_lookup key m
  end.

Definition _check_unsupported_layers (model : Model) : result unit :=
  foldM (fun _ layer =>
           match map_lookup (type_name layer) _convert_map with
           | None => Err (ValueError
                            ("Keras layer " ++ type_name layer ++ " not supported."))
           | Some _ => Ok tt
           end)
    tt (layers model).

(** Convert a Keras layer to a Relay expression and update the expression
    table. *)
Definition keras_op_to_relay (inexpr : pyexprs) (keras_layer : Layer)
    (outname : string) : M unit :=
  match map_lookup (type_name keras_layer) _convert_map with
  | None => raise (NotImplementedError (type_name keras_layer ++ " is not supported"))
  | Some convert =>
      outs ← convert inexpr keras_layer;
      let outs := _as_list outs in
      forM_ (fun '(t_idx, out) =>
               let name := outname ++ ":" ++ pretty (t_idx : nat) in
               set_expr name out)
        (enumerate outs)
  end.

(** ** The graph walker and the function assembler *)

(** Modelled from the spec: [ir_pass.free_vars] is not part of this
    file.  The free input variables an expression depends on, each once,
    in the order they are first met. *)
Fixpoint expr_vars (e : expr) : list expr :=
  match e with
  | EVar _ _ => [e]
  | EConst _ _ => []
  | ECall _ args _ => flat_map expr_vars args
  | ETupleGetItem t _ => expr_vars t
  | ETuple fields => flat_map expr_vars fields
  end.

Definition same_var (a b : expr) : bool :=
  match a, b with
  | EVar n s, EVar n' s' => bool_decide (n = n' ∧ s = s')
  | _, _ => false
  end.

Fixpoint dedup_vars (seen vars : list expr) : list expr :=
  match vars with
  | [] => []
  | v :: vars =>
      if existsb (same_var v) seen then dedup_vars seen vars
      else v :: dedup_vars (v :: seen) vars
  end.

Definition free_vars (e : expr) : list expr := dedup_vars [] (expr_vars e).

(** [_nd.array(np.array(v, dtype))]: the array with its element type. *)
Record NDArray : Type := mkNDArray {
  nd_value : ndarray;
  nd_dtype : string
}.

(** The name under which an inbound tensor was recorded. *)
Definition inbound_expr_name (n_idx t_idx : nat) (inbound_layer : LayerRef)
  : string :=
  if ref_is_InputLayer inbound_layer then ref_name inbound_layer
  else ref_name inbound_layer ++ ":" ++ pretty n_idx ++ ":" ++ pretty t_idx.

(** [zip(a, b, c)]. *)
Definition zip3 {A B C} (a : list A) (b : list B) (c : list C)
  : list (A * B * C) :=
  zip (zip a b) c.

(** [for x in l: inexpr.append(f(x))]. *)
Fixpoint mapM_M {A B} (f : A → M B) (l : list A) : M (list B) :=
  match l with
  | [] => mret []
  | x :: l => y ← f x; ys ← mapM_M f l; mret (y :: ys)
  end.

(** The body of the loop of [from_keras] over the inbound nodes of a
    layer. *)
Definition from_keras_node (model : Model) (keras_layer : Layer)
    (node_idx : nat) (node : Node) : M unit :=
  (* If some nodes in imported model is not relevant to the current model,
     skip such layers. *)
  if decide (_node_key model keras_layer node_idx ∉ _network_nodes model)
  then mret tt
  else
    let zip_node := zip3 (node_indices node) (tensor_indices node)
                      (inbound_layers node) in
    inexpr ← mapM_M (fun '(n_idx, t_idx, inbound_layer) =>
                       get_expr (inbound_expr_name n_idx t_idx inbound_layer))
               zip_node;
    let inexpr := match inexpr with
                  | [e] => One e
                  | _ => Many inexpr
                  end in
    keras_op_to_relay inexpr keras_layer
      (name keras_layer ++ ":" ++ pretty node_idx).

(** The body of the loop of [from_keras] over the layers. *)
Definition from_keras_layer (model : Model) (shape_dict : gmap string (list Z))
    (keras_layer : Layer) : M unit :=
  if is_InputLayer keras_layer then
    let input_name := name keras_layer in
    let shape := shape_dict !! input_name in
    set_expr input_name (_expr.var input_name shape)
  else
    let inbound_nodes :=
      match inbound_nodes keras_layer with
      | Some nodes => Some nodes
      | None => _inbound_nodes keras_layer
      end in
    match inbound_nodes with
    | None =>
        raise (TypeError "Unknown layer type or unsupported Keras version : {}")
    | Some inbound_nodes =>
        forM_ (fun '(node_idx, node) =>
                 from_keras_node model keras_layer node_idx node)
          (enumerate inbound_nodes)
    end.

(** The checks [from_keras] makes before it creates the table. *)
Definition from_keras_checks (keras : Keras) (model : Model) : result unit :=
  if negb (installed keras) then Err (ImportError "Keras must be installed")
  else if negb (is_keras_Model model) then Err (AssertionError "")
  else if decide (backend keras ≠ "tensorflow") then
    Err (ValueError "Keras frontend currently supports tensorflow backend only.")
  else if decide (image_data_format keras ≠ "channels_last") then
    Err (ValueError
           "Keras frontend currently supports data_format = channels_last only.")
  else _check_unsupported_layers model.

(** [etab.params]. *)
Definition etab_params : M (gmap string ndarray) :=
  fun etab => (Ok (params etab), etab).

(** The part of [from_keras] that runs on the table. *)
Definition from_keras_convert (model : Model) (shape_dict : gmap string (list Z))
  : M (_expr.Function * gmap string NDArray) :=
  _ ← forM_ (from_keras_layer model shape_dict) (layers model);
  (* model._output_coordinates contains out_node(oc[0]), node_index(oc[1])
     and tensor_index(oc[2]) *)
  outexpr ← mapM_M (fun '(oc0, oc1, oc2) =>
                      get_expr (ref_name oc0 ++ ":" ++ pretty (oc1 : nat) ++ ":"
                                ++ pretty (oc2 : nat)))
              (_output_coordinates model);
  let outexpr := match outexpr with
                 | [e] => e
                 | _ => _expr.Tuple outexpr
                 end in
  let func := _expr.mkFunction (free_vars outexpr) outexpr in
  params ← etab_params;
  let params := (fun v => mkNDArray v "float32") <$> params in
  mret (func, params).

(** Convert keras model to relay Function.  Besides the result, the
    expression table as it stands when [from_keras] returns or raises:
    [None] when it was never created. *)
Definition from_keras (keras : Keras) (model : Model)
    (shape_dict : gmap string (list Z))
  : result (_expr.Function * gmap string NDArray) * option ExprTable :=
  match from_keras_checks keras model with
  | Err e => (Err e, None)
  | Ok _ =>
      let etab := ExprTable_new in
      let '(r, etab) := from_keras_convert model shape_dict etab in
      (r, Some etab)
  end.

(** ** Scalar meaning of the lowered activations

    Modelled from the spec: the operators' definitions belong to the IR
    and are not part of this file.  Over the reals, at a scalar input
    that every variable stands for: [nn.relu] is [max x 0], [clip] bounds
    its argument below by [a_min] and above by [a_max], [log] is the
    natural logarithm, and the arithmetic operators are the usual ones.
    Float literals denote the rationals they are written as. *)

Definition eval_unop (op : string) : option (R → R) :=
  if String.eqb op "negative" then Some Ropp
  else if String.eqb op "exp" then Some exp
  else if String.eqb op "log" then Some ln
  else if String.eqb op "abs" then Some Rabs
  else if String.eqb op "nn.relu" then Some (fun a => Rmax a 0)
  else None.

Definition eval_binop (op : string) : option (R → R → R) :=
  if String.eqb op "add" then Some Rplus
  else if String.eqb op "subtract" then Some Rminus
  else if String.eqb op "multiply" then Some Rmult
  else if String.eqb op "divide" then Some Rdiv
  else if String.eqb op "maximum" then Some Rmax
  else None.

Fixpoint eval (v : R) (e : expr) : option R :=
  match e with
  | EVar _ _ => Some v
  | EConst c _ => Q2R <$> py_num c
  | ECall op [a] attrs =>
      if String.eqb op "clip" then
        match dict_get "a_min" attrs, dict_get "a_max" attrs, eval v a with
        | Some (PyFloat a_min), Some (PyFloat a_max), Some r =>
            Some (Rmin (Rmax r (Q2R a_min)) (Q2R a_max))
        | _, _, _ => None
        end
      else
        match eval_unop op, eval v a with
        | Some f, Some r => Some (f r)
        | _, _ => None
        end
  | ECall op [a; b] _ =>
      match eval_binop op, eval v a, eval v b with
      | Some f, Some r, Some r' => Some (f r r')
      | _, _, _ => None
      end
  | _ => None
  end.

(** The reference functions, as Keras documents them. *)
Module reference.

Definition softplus (v : R) : R := ln (exp v + 1).

Definition elu (alpha v : R) : R :=
  if Rle_dec 0 v then v else (alpha * (exp v - 1))%R.

Definition selu_alpha : Q := 1.6732632423543772848170429916717.
Definition selu_gamma : Q := 1.0507009873554804934193349852946.

Definition selu (v : R) : R := (Q2R selu_gamma * elu (Q2R selu_alpha) v)%R.

Definition relu6 (v : R) : R := Rmin (Rmax v 0) 6.

Definition softsign (v : R) : R := (v / (1 + Rabs v))%R.

Definition hard_sigmoid (v : R) : R := Rmax 0 (Rmin 1 (0.2 * v + 0.5)).

End reference.

(** * Verification *)

(** ** The padding calculator (C1, C7) *)

(** The ceiling of [a / b] as the specification writes it: the least
    integer not below the quotient. *)
Definition ceil_div (a b : Z) : Z := - ((- a) `div` b).

Lemma ceil_div_least (a b : Z) :
  0 < b → a <= ceil_div a b * b ∧ ∀ q, a <= q * b → ceil_div a b <= q.
Proof.
  intros Hb. unfold ceil_div. split.
  - pose proof (Z.mul_div_le (- a) b Hb). lia.
  - intros q Hq.
    assert (- q <= (- a) `div` b); [|lia].
    apply Z.div_le_lower_bound; lia.
Qed.

Lemma ceil_div_code (a b : Z) :
  0 < b → (a + b - 1) `div` b = ceil_div a b.
Proof.
  intros Hb. unfold ceil_div.
  pose proof (Z.div_mod (a + b - 1) b ltac:(lia)).
  pose proof (Z.mod_pos_bound (a + b - 1) b Hb).
  pose proof (Z.div_mod (- a) b ltac:(lia)).
  pose proof (Z.mod_pos_bound (- a) b Hb).
  nia.
Qed.

Lemma np_maximum_0_Ok (v : Z) :
  in_int64 v → np_maximum v 0 = Ok (Z.max v 0).
Proof.
  intros Hv. unfold np_maximum.
  destruct (decide _) as [|Hn]; [reflexivity|].
  exfalso. apply Hn. split; [exact Hv|]. unfold in_int64, int64_min, int64_max. lia.
Qed.

Lemma np_maximum_0_Err (v : Z) :
  ¬ in_int64 v →
  np_maximum v 0 = Err (OverflowError "Python integer out of bounds for int64").
Proof.
  intros Hv. unfold np_maximum.
  destruct (decide _) as [[H _]|]; [contradiction|reflexivity].
Qed.

(** The claim of C1 as written: the calculator never fails on positive
    integers.  Python integers are unbounded and [np.maximum] is not: for
    input 5, kernel [2^63 + 1] and stride 1 the total padding would be
    [2^63], which no int64 holds, and the call raises. *)
Lemma get_pad_pair_overflow :
  _get_pad_pair 5 9223372036854775809 1 =
    Err (OverflowError "Python integer out of bounds for int64").
Proof. reflexivity. Qed.

(** C1 (amended): for positive sizes whose padding expression
    [(ceil (input/stride) - 1) * stride + kernel - input] is in the range
    of a 64-bit integer, the padding calculator returns, without failing,
    the pair [(total_pad // 2, total_pad - total_pad // 2)] for
    [total_pad = max ((ceil (input/stride) - 1) * stride + kernel - input) 0],
    and padding the input by that pair makes the output size of the
    convolution [ceil (input/stride)]. *)
Theorem get_pad_pair_same (input_size kernel_size stride : Z) :
  0 < input_size → 0 < kernel_size → 0 < stride →
  let out := ceil_div input_size stride in
  in_int64 ((out - 1) * stride + kernel_size - input_size) →
  let total_pad := Z.max ((out - 1) * stride + kernel_size - input_size) 0 in
  ∃ pad_before pad_after,
    _get_pad_pair input_size kernel_size stride = Ok (pad_before, pad_after)
    ∧ pad_before = total_pad `div` 2
    ∧ pad_after = total_pad - pad_before
    ∧ out = (input_size + pad_before + pad_after - kernel_size) `div` stride + 1.
Proof.
  intros Hi Hk Hs out Hrange total_pad.
  exists (total_pad `div` 2), (total_pad - total_pad `div` 2).
  assert (Hout : (input_size + stride - 1) `div` stride = out)
    by (apply ceil_div_code; lia).
  split; [|split; [reflexivity|split; [reflexivity|]]].
  - unfold _get_pad_pair. destruct (decide (stride = 0)); [lia|].
    rewrite Hout. rewrite (np_maximum_0_Ok _ Hrange). reflexivity.
  - destruct (ceil_div_least input_size stride Hs) as [Hup Hleast].
    fold out in Hup.
    assert (Hlow : (out - 1) * stride < input_size).
    { destruct (Z_lt_le_dec ((out - 1) * stride) input_size) as [|Hge]; [done|].
      specialize (Hleast (out - 1) Hge). unfold out in *. lia. }
    replace (input_size + total_pad `div` 2 + (total_pad - total_pad `div` 2)
             - kernel_size) with (input_size + total_pad - kernel_size) by lia.
    assert ((input_size + total_pad - kernel_size) `div` stride = out - 1); [|lia].
    symmetry. apply Z.div_unique_pos
      with (r := input_size + total_pad - kernel_size - (out - 1) * stride);
      unfold total_pad; lia.
Qed.

Lemma get_pad_pair_same_witness :
  ∃ pad_before pad_after,
    _get_pad_pair 8 3 1 = Ok (pad_before, pad_after)
    ∧ pad_before = 1 ∧ pad_after = 1.
Proof.
  destruct (get_pad_pair_same 8 3 1) as (b & a & H & Hb & Ha & _);
    [lia..|vm_compute; split; discriminate|].
  exists b, a. split; [exact H|]. split; [rewrite Hb|rewrite Ha, Hb]; reflexivity.
Defined.

(** The claim of C7 as written: input 7, kernel 3, stride 2 would give
    the pair (0, 1).  The calculator gives (1, 1). *)
Lemma get_pad_pair_7_3_2_not_0_1 :
  _get_pad_pair 7 3 2 ≠ Ok (0, 1).
Proof. vm_compute. discriminate. Qed.

(** C7 (amended): for input size 7, kernel size 3 and stride 2 the
    padding calculator yields [pad_before = 1] and [pad_after = 1]: the
    total padding 2 is split evenly. *)
Theorem get_pad_pair_7_3_2 :
  _get_pad_pair 7 3 2 = Ok (1, 1).
Proof. reflexivity. Qed.

(** ** The simple activations (C10, C6) *)

Lemma act_type_of_layer (l : Layer) (id : string) :
  attrs l !! "activation" = Some (PyStr id) → act_type_of (IsLayer l) = Ok id.
Proof. intros H. unfold act_type_of, getattr_name, getattr. rewrite H. reflexivity. Qed.

(** C10: called with the identifier string ['linear'] the simple
    activation lowerer returns its input unchanged, whatever the input
    is; a ['linear'] activation carried by a layer is lowered to
    [x * alpha + beta], where [alpha] and [beta] are the layer's
    attributes of that name and default to 1 and 0. *)
Theorem convert_activation_linear (inexpr : pyexprs) (x : expr) (l : Layer) :
  attrs l !! "activation" = Some (PyStr "linear") →
  _convert_activation inexpr (IsStr "linear") = Ok inexpr
  ∧ _convert_activation (One x) (IsLayer l) =
      Ok (One (_op.add
                 (_op.multiply x
                    (_expr.const (default (PyFloat 1) (attrs l !! "alpha"))
                       (Some "float32")))
                 (_expr.const (default (PyFloat 0) (attrs l !! "beta"))
                    (Some "float32"))))
  ∧ (attrs l !! "alpha" = None → attrs l !! "beta" = None →
     _convert_activation (One x) (IsLayer l) =
       Ok (One (ECall "add"
                  [ECall "multiply" [x; EConst (PyFloat 1) (Some "float32")] [];
                   EConst (PyFloat 0) (Some "float32")] [])))
  ∧ ∀ e, _convert_activation (One x) (IsStr "linear") = Ok (One e) → e = x.
Proof.
  intros Hact. split; [reflexivity|].
  assert (Hl : _convert_activation (One x) (IsLayer l) =
      Ok (One (_op.add
                 (_op.multiply x
                    (_expr.const (default (PyFloat 1) (attrs l !! "alpha"))
                       (Some "float32")))
                 (_expr.const (default (PyFloat 0) (attrs l !! "beta"))
                    (Some "float32"))))).
  { unfold _convert_activation. rewrite (act_type_of_layer l "linear" Hact).
    reflexivity. }
  split; [exact Hl|]. split.
  - intros Ha Hb. rewrite Hl, Ha, Hb. reflexivity.
  - intros e He. cbv in He. congruence.
Qed.

Definition linear_activation_layer : Layer :=
  mkLayer "Activation" false "activation_1" []
    (list_to_map [("activation", PyStr "linear")]) None (Some []).

Lemma convert_activation_linear_witness :
  _convert_activation (Many []) (IsStr "linear") = Ok (Many [])
  ∧ _convert_activation (One (EVar "x" None)) (IsLayer linear_activation_layer) =
      Ok (One (ECall "add"
                 [ECall "multiply"
                    [EVar "x" None; EConst (PyFloat 1) (Some "float32")] [];
                  EConst (PyFloat 0) (Some "float32")] [])).
Proof.
  destruct (convert_activation_linear (Many []) (EVar "x" None)
              linear_activation_layer) as (H1 & _ & H3 & _).
  - vm_compute. reflexivity.
  - split; [exact H1|]. apply H3; vm_compute; reflexivity.
Defined.


(** Evaluation of the operator calls the activations are made of. *)
Lemma eval_const_float v q d : eval v (_expr.const (PyFloat q) d) = Some (Q2R q).
Proof. reflexivity. Qed.

Lemma eval_binary v a b ra rb :
  eval v a = Some ra → eval v b = Some rb →
  eval v (_op.add a b) = Some (ra + rb)%R
  ∧ eval v (_op.subtract a b) = Some (ra - rb)%R
  ∧ eval v (_op.multiply a b) = Some (ra * rb)%R
  ∧ eval v (_op.divide a b) = Some (ra / rb)%R.
Proof.
  intros Ha Hb. unfold _op.add, _op.subtract, _op.multiply, _op.divide.
  cbn [eval]. rewrite Ha, Hb. repeat split; reflexivity.
Qed.

Lemma eval_unary v a ra :
  eval v a = Some ra →
  eval v (_op.negative a) = Some (- ra)%R
  ∧ eval v (_op.exp a) = Some (exp ra)
  ∧ eval v (_op.log a) = Some (ln ra)
  ∧ eval v (_op.abs a) = Some (Rabs ra)
  ∧ eval v (_op.nn.relu a) = Some (Rmax ra 0).
Proof.
  intros Ha. unfold _op.negative, _op.exp, _op.log, _op.abs, _op.nn.relu.
  cbn [eval]. rewrite Ha. repeat split; reflexivity.
Qed.

Lemma eval_clip v a ra lo hi :
  eval v a = Some ra →
  eval v (_op.clip a lo hi) = Some (Rmin (Rmax ra (Q2R lo)) (Q2R hi)).
Proof. intros Ha. unfold _op.clip. cbn [eval]. rewrite Ha. reflexivity. Qed.

Lemma Q2R_literals :
  Q2R 0 = 0%R ∧ Q2R 1 = 1%R ∧ Q2R 6 = 6%R.
Proof. unfold Q2R. simpl. repeat split; lra. Qed.

Lemma eval_get_elu v x rx alpha :
  eval v x = Some rx →
  eval v (_get_elu x (_expr.const (PyFloat alpha) (Some "float32"))) =
    Some (- Q2R alpha * Rmax (1 - exp rx) 0 + Rmax rx 0)%R.
Proof.
  intros Hx. unfold _get_elu.
  destruct (eval_unary v x rx Hx) as (_ & Hexp & _ & _ & Hrelu).
  pose proof (eval_const_float v 1 None) as H1.
  destruct (eval_binary v _ _ _ _ H1 Hexp) as (_ & Hsub & _).
  destruct (eval_unary v _ _ Hsub) as (_ & _ & _ & _ & Hrelu').
  pose proof (eval_const_float v alpha (Some "float32")) as Ha.
  destruct (eval_unary v _ _ Ha) as (Hneg & _).
  destruct (eval_binary v _ _ _ _ Hneg Hrelu') as (_ & _ & Hmul & _).
  destruct (eval_binary v _ _ _ _ Hmul Hrelu) as (Hadd & _).
  rewrite Hadd. destruct Q2R_literals as (_ & -> & _). reflexivity.
Qed.

(** The lowered elu agrees with the reference: the identity from 0 on,
    [alpha * (exp x - 1)] below. *)
Lemma elu_value (alpha rx : R) :
  (- alpha * Rmax (1 - exp rx) 0 + Rmax rx 0)%R = reference.elu alpha rx.
Proof.
  unfold reference.elu. destruct (Rle_dec 0 rx) as [Hle|Hlt].
  - assert (1 <= exp rx)%R.
    { destruct Hle as [Hpos|<-]; [|rewrite exp_0; lra].
      pose proof (exp_increasing 0 rx Hpos). rewrite exp_0 in *. lra. }
    rewrite (Rmax_right (1 - exp rx) 0) by lra.
    rewrite (Rmax_left rx 0) by lra. lra.
  - assert (exp rx < 1)%R.
    { pose proof (exp_increasing rx 0 ltac:(lra)). rewrite exp_0 in *. lra. }
    rewrite (Rmax_left (1 - exp rx) 0) by lra.
    rewrite (Rmax_right rx 0) by lra. lra.
Qed.

(** C6: each supported simple-activation identifier is lowered to the
    stated sequence of primitive operators: softplus = log(exp(x)+1),
    elu = -alpha*relu(1-exp(x)) + relu(x) with alpha 1 unless the layer
    carries one, selu = gamma*elu(x, alpha) with its two fixed constants,
    relu6 = clip(x,0,6), softsign = x/(1+|x|) and hard_sigmoid =
    clip(0.2x+0.5,0,1).  Evaluated over the reals at a scalar input the
    lowered sequence is the reference function; in particular
    hard_sigmoid(0) = 0.5, relu6(10) = 6, softsign(0) = 0, and elu is the
    identity from 0 on and [alpha * (exp x - 1)] below 0. *)
Theorem convert_activation_expansions (x : expr) :
  let lower id := _convert_activation (One x) (IsStr id) in
  let const32 (c : pyval) := EConst c (Some "float32") in
  let const (q : Q) := EConst (PyFloat q) None in
  let elu alpha :=
    ECall "add"
      [ECall "multiply"
         [ECall "negative" [alpha] [];
          ECall "nn.relu" [ECall "subtract" [const 1%Q; ECall "exp" [x] []] []] []] [];
       ECall "nn.relu" [x] []] [] in
  let clip e (a_min a_max : Q) :=
    ECall "clip" [e] [("a_min", PyFloat a_min); ("a_max", PyFloat a_max)] in
  (lower "softplus" =
     Ok (One (ECall "log" [ECall "add" [ECall "exp" [x] []; const 1%Q] []] []))
   ∧ lower "elu" = Ok (One (elu (const32 (PyFloat 1))))
   ∧ (∀ l, attrs l !! "activation" = Some (PyStr "elu") →
        _convert_activation (One x) (IsLayer l) =
          Ok (One (elu (const32 (default (PyFloat 1) (attrs l !! "alpha"))))))
   ∧ lower "selu" =
       Ok (One (ECall "multiply"
                  [const32 (PyFloat 1.0507009873554804934193349852946);
                   elu (const32 (PyFloat 1.6732632423543772848170429916717))] []))
   ∧ lower "relu6" = Ok (One (clip x 0%Q 6%Q))
   ∧ lower "softsign" =
       Ok (One (ECall "divide"
                  [x; ECall "add" [const 1%Q; ECall "abs" [x] []] []] []))
   ∧ lower "hard_sigmoid" =
       Ok (One (clip (ECall "add" [ECall "multiply" [const 0.2%Q; x] []; const 0.5%Q] [])
                  0%Q 1%Q)))
  ∧ (∀ v id e, eval v x = Some v → lower id = Ok (One e) →
       (id = "softplus" → eval v e = Some (reference.softplus v))
       ∧ (id = "elu" → eval v e = Some (reference.elu 1 v))
       ∧ (id = "selu" → eval v e = Some (reference.selu v))
       ∧ (id = "relu6" → eval v e = Some (reference.relu6 v))
       ∧ (id = "softsign" → eval v e = Some (reference.softsign v))
       ∧ (id = "hard_sigmoid" → eval v e = Some (reference.hard_sigmoid v)))
  ∧ (∀ e, eval 0 x = Some 0%R → lower "hard_sigmoid" = Ok (One e) →
       eval 0 e = Some 0.5%R)
  ∧ (∀ e, eval 10 x = Some 10%R → lower "relu6" = Ok (One e) →
       eval 10 e = Some 6%R)
  ∧ (∀ e, eval 0 x = Some 0%R → lower "softsign" = Ok (One e) →
       eval 0 e = Some 0%R)
  ∧ (∀ v e, eval v x = Some v → lower "elu" = Ok (One e) →
       ((0 <= v)%R → eval v e = Some v)
       ∧ ((v < 0)%R → eval v e = Some (1 * (exp v - 1))%R))
  ∧ (∀ l alpha v e,
       attrs l !! "activation" = Some (PyStr "elu") →
       attrs l !! "alpha" = Some (PyFloat alpha) →
       eval v x = Some v →
       _convert_activation (One x) (IsLayer l) = Ok (One e) →
       ((0 <= v)%R → eval v e = Some v)
       ∧ ((v < 0)%R → eval v e = Some (Q2R alpha * (exp v - 1))%R)).
Proof.
  intros lower const32 const elu clip.
  assert (Heval : ∀ v id e, eval v x = Some v → lower id = Ok (One e) →
       (id = "softplus" → eval v e = Some (reference.softplus v))
       ∧ (id = "elu" → eval v e = Some (reference.elu 1 v))
       ∧ (id = "selu" → eval v e = Some (reference.selu v))
       ∧ (id = "relu6" → eval v e = Some (reference.relu6 v))
       ∧ (id = "softsign" → eval v e = Some (reference.softsign v))
       ∧ (id = "hard_sigmoid" → eval v e = Some (reference.hard_sigmoid v))).
  { intros v id e Hx He.
    destruct Q2R_literals as (Q0 & Q1 & Q6).
    destruct (eval_unary v x v Hx) as (_ & Hexp & _ & Habs & _).
    repeat split; intros ->; cbv in He; injection He as <-.
    - pose proof (eval_const_float v 1 None) as H1.
      destruct (eval_binary v _ _ _ _ Hexp H1) as (Hadd & _).
      destruct (eval_unary v _ _ Hadd) as (_ & _ & Hln & _).
      etransitivity; [exact Hln|]. rewrite Q1. reflexivity.
    - etransitivity; [exact (eval_get_elu v x v 1 Hx)|].
      rewrite Q1. exact (f_equal Some (elu_value 1 v)).
    - pose proof (eval_get_elu v x v reference.selu_alpha Hx) as Helu.
      pose proof (eval_const_float v reference.selu_gamma (Some "float32")) as Hg.
      destruct (eval_binary v _ _ _ _ Hg Helu) as (_ & _ & Hmul & _).
      etransitivity; [exact Hmul|]. unfold reference.selu.
      exact (f_equal (λ r, Some (Q2R reference.selu_gamma * r)%R) (elu_value _ v)).
    - etransitivity; [exact (eval_clip v x v 0 6 Hx)|].
      rewrite Q0, Q6. reflexivity.
    - pose proof (eval_const_float v 1 None) as H1.
      destruct (eval_binary v _ _ _ _ H1 Habs) as (Hadd & _).
      destruct (eval_binary v _ _ _ _ Hx Hadd) as (_ & _ & _ & Hdiv).
      etransitivity; [exact Hdiv|]. rewrite Q1. reflexivity.
    - pose proof (eval_const_float v 0.2 None) as H02.
      pose proof (eval_const_float v 0.5 None) as H05.
      destruct (eval_binary v _ _ _ _ H02 Hx) as (_ & _ & Hmul & _).
      destruct (eval_binary v _ _ _ _ Hmul H05) as (Hadd & _).
      etransitivity; [exact (eval_clip v _ _ 0 1 Hadd)|].
      rewrite Q0, Q1. unfold reference.hard_sigmoid. f_equal.
      unfold Rmax, Rmin.
      repeat (destruct (Rle_dec _ _)); lra. }
  split.
  { repeat split; try reflexivity.
    intros l Hact. unfold _convert_activation.
    rewrite (act_type_of_layer l "elu" Hact). reflexivity. }
  assert (Hlayer : ∀ l, attrs l !! "activation" = Some (PyStr "elu") →
        _convert_activation (One x) (IsLayer l) =
          Ok (One (elu (const32 (default (PyFloat 1) (attrs l !! "alpha")))))).
  { intros l Hact. unfold _convert_activation.
    rewrite (act_type_of_layer l "elu" Hact). reflexivity. }
  split; [exact Heval|].
  split; [|split; [|split; [|split]]].
  - intros e Hx He.
    destruct (Heval 0%R _ e Hx He) as (_ & _ & _ & _ & _ & H).
    rewrite (H eq_refl). f_equal.
    unfold reference.hard_sigmoid, Rmax, Rmin.
    repeat (destruct (Rle_dec _ _)); lra.
  - intros e Hx He.
    destruct (Heval 10%R _ e Hx He) as (_ & _ & _ & H & _).
    rewrite (H eq_refl). f_equal.
    unfold reference.relu6, Rmax, Rmin.
    repeat (destruct (Rle_dec _ _)); lra.
  - intros e Hx He.
    destruct (Heval 0%R _ e Hx He) as (_ & _ & _ & _ & H & _).
    rewrite (H eq_refl). f_equal.
    unfold reference.softsign. rewrite Rabs_R0. lra.
  - intros v e Hx He.
    destruct (Heval v _ e Hx He) as (_ & Helu & _).
    rewrite (Helu eq_refl). unfold reference.elu.
    split; intros Hv; f_equal; destruct (Rle_dec 0 v); lra.
  - intros l alpha v e Hact Halpha Hx He.
    rewrite (Hlayer l Hact), Halpha in He. injection He as <-.
    pose proof (eval_get_elu v x v alpha Hx) as Helu.
    rewrite elu_value in Helu. unfold _get_elu in Helu.
    unfold elu, const32, const. cbn [default].
    split; intros Hv; (etransitivity; [exact Helu|]); f_equal;
      unfold reference.elu; destruct (Rle_dec 0 v); lra.
Qed.

Lemma convert_activation_expansions_witness :
  let x := EVar "x" None in
  let hard_sigmoid :=
    ECall "clip"
      [ECall "add" [ECall "multiply" [EConst (PyFloat 0.2) None; x] [];
                    EConst (PyFloat 0.5) None] []]
      [("a_min", PyFloat 0); ("a_max", PyFloat 1)] in
  _convert_activation (One x) (IsStr "hard_sigmoid") = Ok (One hard_sigmoid)
  ∧ eval 0 hard_sigmoid = Some 0.5%R.
Proof.
  intros x hard_sigmoid.
  destruct (convert_activation_expansions x) as (Hlower & _ & Hhs & _).
  split; [apply Hlower|].
  apply Hhs; [reflexivity|apply Hlower].
Defined.

(** ** The advanced activations (C8) *)

(** Lifting a computation that does not touch the table. *)
Lemma bind_lift_Ok {A B} (r : result A) (a : A) (k : A → M B) (etab : ExprTable) :
  r = Ok a → (lift r ≫= k) etab = k a etab.
Proof. intros ->. reflexivity. Qed.

(** A truthy number is not zero. *)
Lemma truthy_float_nonzero (max_value : pyval) (a_max : Q) :
  truthy max_value = Ok true → py_float max_value = Ok a_max → ¬ (a_max == 0)%Q.
Proof.
  destruct max_value as [|b|n|q|s|xs|xs|sh]; simpl; intros Ht Hf; try discriminate.
  - injection Ht as ->. injection Hf as <-. discriminate.
  - injection Ht as Ht. injection Hf as <-.
    apply negb_true_iff, Z.eqb_neq in Ht.
    unfold Qeq, inject_Z. simpl. lia.
  - injection Ht as Ht. injection Hf as <-.
    apply negb_true_iff in Ht. intros Hq.
    apply Qeq_bool_iff in Hq. congruence.
Qed.

(** C8: for a [ReLU] layer whose [max_value] is falsy (0, 0.0, [None],
    [False]) the lowering is the plain [relu]; the clipped form
    [clip(x, 0, float(max_value))] is emitted exactly when [max_value] is
    truthy, and then its upper bound is not zero.  The table is not
    touched. *)
Theorem relu_max_value (x : expr) (l : Layer) (max_value : pyval)
    (etab : ExprTable) :
  type_name l = "ReLU" →
  attrs l !! "max_value" = Some max_value →
  let lowered := _convert_advanced_activation (One x) l etab in
  (max_value ∈ [PyNone; PyInt 0; PyFloat 0; PyBool false] →
     truthy max_value = Ok false)
  ∧ (truthy max_value = Ok false → lowered = (Ok (One (_op.nn.relu x)), etab))
  ∧ (∀ a_max, truthy max_value = Ok true → py_float max_value = Ok a_max →
       lowered = (Ok (One (_op.clip x 0 a_max)), etab))
  ∧ (∀ e a_min a_max attrs' etab',
       lowered = (Ok (One (ECall "clip" [e] (("a_min", a_min) :: ("a_max", a_max) :: attrs'))), etab') →
       truthy max_value = Ok true
       ∧ ∃ q, py_float max_value = Ok q ∧ a_max = PyFloat q ∧ ¬ (q == 0)%Q).
Proof.
  intros Hty Hmax lowered.
  assert (Hl : lowered =
    lift (clipped ← truthy max_value;
          if clipped : bool then
            a_max ← py_float max_value;
            x ← the_expr (One x); Ok (One (_op.clip x 0 a_max))
          else
            x ← the_expr (One x); Ok (One (_op.nn.relu x))) etab).
  { unfold lowered, _convert_advanced_activation. rewrite Hty.
    simpl. unfold getattr. rewrite Hmax. reflexivity. }
  split; [|split; [|split]].
  - intros Hin. repeat (apply elem_of_cons in Hin as [->|Hin]; [reflexivity|]).
    apply elem_of_nil in Hin. contradiction.
  - intros Ht. rewrite Hl, Ht. reflexivity.
  - intros a_max Ht Hf. rewrite Hl, Ht. simpl. rewrite Hf. reflexivity.
  - intros e a_min a_max attrs' etab' Hclip. rewrite Hl in Hclip.
    unfold lift in Hclip.
    destruct (truthy max_value) as [[|]|err] eqn:Ht; simpl in Hclip;
      [|discriminate..].
    destruct (py_float max_value) as [q|err] eqn:Hf; simpl in Hclip;
      [|discriminate].
    split; [reflexivity|]. exists q.
    split; [reflexivity|]. split; [unfold _op.clip in Hclip; congruence|].
    eapply truthy_float_nonzero; eassumption.
Qed.

Definition relu_layer (max_value : pyval) : Layer :=
  mkLayer "ReLU" false "re_lu_1" []
    (list_to_map [("max_value", max_value)]) None (Some []).

Lemma relu_max_value_witness :
  _convert_advanced_activation (One (EVar "x" None)) (relu_layer (PyInt 0))
    ExprTable_new = (Ok (One (ECall "nn.relu" [EVar "x" None] [])), ExprTable_new)
  ∧ _convert_advanced_activation (One (EVar "x" None)) (relu_layer (PyInt 6))
      ExprTable_new =
      (Ok (One (ECall "clip" [EVar "x" None]
                  [("a_min", PyFloat 0); ("a_max", PyFloat 6)])), ExprTable_new).
Proof.
  split.
  - refine (proj1 (proj2 (relu_max_value (EVar "x" None) (relu_layer (PyInt 0))
                            (PyInt 0) ExprTable_new _ _)) _);
      vm_compute; reflexivity.
  - refine (proj1 (proj2 (proj2 (relu_max_value (EVar "x" None)
                                   (relu_layer (PyInt 6)) (PyInt 6)
                                   ExprTable_new _ _))) 6%Q _ _);
      vm_compute; reflexivity.
Defined.

(** ** The convolutions (C3) *)

Lemma np_transpose_Ok (a : ndarray) (axes : list nat) :
  axes ≡ₚ seq 0 (length (np_shape a)) → np_transpose a axes = Ok (NdTranspose a axes).
Proof. intros H. unfold np_transpose. destruct (decide _); [reflexivity|contradiction]. Qed.

Lemma perm_3201 : [3; 2; 0; 1]%nat ≡ₚ seq 0 4.
Proof. apply (bool_decide_unpack _). vm_compute. reflexivity. Qed.

Lemma perm_2301 : [2; 3; 0; 1]%nat ≡ₚ seq 0 4.
Proof. apply (bool_decide_unpack _). vm_compute. reflexivity. Qed.

(** C3: a convolution with ["valid"] padding keeps the padding parameter
    (0,0) and takes its input as it is; with ["same"] padding the pads are
    those of the padding calculator for the dilated kernel size
    [(kernel-1)*dilation + 1], passed as the padding parameter when they
    are symmetric on both axes, and otherwise applied by an explicit pad
    operation before a convolution with padding (0,0); any other padding
    fails. *)
Theorem convolution_padding (x : expr) (l : Layer) (etab : ExprTable)
    (w : ndarray) (ws : list ndarray)
    (kernel_h kernel_w dim2 dim3 dh dw sh sw : Z)
    (dilation_rate padding : pyval) :
  type_name l ∈ ["Conv2D"; "Conv2DTranspose"; "DepthwiseConv2D"] →
  _check_data_format l = Ok tt →
  get_weights l = w :: ws →
  np_shape w = [kernel_h; kernel_w; dim2; dim3] →
  attrs l !! "dilation_rate" = Some dilation_rate →
  (dilation_rate = PyTuple [PyInt dh; PyInt dw]
   ∨ dilation_rate = PyInt dh ∧ dw = dh) →
  attrs l !! "strides" = Some (PyTuple [PyInt sh; PyInt sw]) →
  attrs l !! "padding" = Some padding →
  let is_deconv := bool_decide (type_name l = "Conv2DTranspose") in
  let is_depthconv := bool_decide (type_name l = "DepthwiseConv2D") in
  let weight_array :=
    NdTranspose w (if is_depthconv then [2; 3; 0; 1]%nat else [3; 2; 0; 1]%nat) in
  let kwargs (pad : pyval) :=
    ([("kernel_size", PyList [PyInt kernel_h; PyInt kernel_w]);
      ("strides", PyList [PyInt sh; PyInt sw]);
      ("dilation", PyList [PyInt dh; PyInt dw]);
      ("padding", pad)] ++
     (if is_depthconv then [("channels", PyInt (dim2 * dim3)); ("groups", PyInt dim2)]
      else if is_deconv then [("channels", PyInt dim2)]
      else [("channels", PyInt dim3)]))%list in
  let convolution (data : expr) (pad : pyval) : M pyexprs :=
    weight ← new_const weight_array;
    out ← bias_and_activation
            (if is_deconv then _op.nn.conv2d_transpose data weight (kwargs pad)
             else _op.nn.conv2d data weight (kwargs pad)) l 1;
    mret (One out) in
  (padding = PyStr "valid" →
     _convert_convolution (One x) l etab =
       convolution x (PyList [PyInt 0; PyInt 0]) etab)
  ∧ (padding = PyStr "same" →
     ∀ batch in_h in_w channels pad_t pad_b pad_l pad_r,
       attrs l !! "input_shape" =
         Some (PyTuple [batch; PyInt in_h; PyInt in_w; channels]) →
       _get_pad_pair in_h ((kernel_h - 1) * dh + 1) sh = Ok (pad_t, pad_b) →
       _get_pad_pair in_w ((kernel_w - 1) * dw + 1) sw = Ok (pad_l, pad_r) →
       _convert_convolution (One x) l etab =
         if decide (pad_t = pad_b ∧ pad_l = pad_r)
         then convolution x (PyTuple [PyInt pad_t; PyInt pad_l]) etab
         else convolution
                (_op.nn.pad x [(PyInt 0, PyInt 0); (PyInt 0, PyInt 0);
                               (PyInt pad_t, PyInt pad_b);
                               (PyInt pad_l, PyInt pad_r)])
                (PyList [PyInt 0; PyInt 0]) etab)
  ∧ (py_eqb padding (PyStr "valid") = false →
     py_eqb padding (PyStr "same") = false →
     ∃ etab', _convert_convolution (One x) l etab =
                (Err (TypeError "Unsupported padding type : {}"), etab')).
Proof.
  intros Hty Hfmt Hws Hshape Hdil Hdr Hstr Hpad is_deconv is_depthconv
    weight_array kwargs convolution.
  assert (Hkind : is_deconv = false ∧ is_depthconv = false
                  ∨ is_deconv = true ∧ is_depthconv = false
                  ∨ is_deconv = false ∧ is_depthconv = true).
  { unfold is_deconv, is_depthconv.
    repeat (apply elem_of_cons in Hty as [->|Hty]; [auto|]).
    apply elem_of_nil in Hty. contradiction. }
  assert (Hconv :
    _convert_convolution (One x) l etab =
      (weight ← new_const weight_array;
       '(inexpr, kw) ← lift (
          conv_padding (One x) l ((kernel_h - 1) * dh + 1) ((kernel_w - 1) * dw + 1)
            (PyInt sh) (PyInt sw) (kwargs (PyList [PyInt 0; PyInt 0])));
       out ← lift (x ← the_expr inexpr;
                   Ok (if is_deconv then _op.nn.conv2d_transpose x weight kw
                       else _op.nn.conv2d x weight kw));
       out ← bias_and_activation out l 1;
       mret (One out)) etab).
  { unfold _convert_convolution.
    rewrite (bind_lift_Ok _ tt) by exact Hfmt.
    fold is_deconv is_depthconv.
    erewrite bind_lift_Ok; cycle 1.
    { rewrite Hws. cbn [list_index lookup list_lookup]. cbn [mbind result_bind].
      rewrite Hshape. cbn [unpack_shape4 mbind result_bind].
      rewrite !np_transpose_Ok by (rewrite Hshape; auto using perm_3201, perm_2301).
      instantiate (1 := (kernel_h, kernel_w, dim2, dim3, weight_array)).
      unfold weight_array.
      destruct Hkind as [[-> ->]|[[-> ->]|[-> ->]]]; reflexivity. }
    cbn beta iota.
    erewrite bind_lift_Ok; cycle 1.
    { unfold getattr. rewrite Hdil, Hstr.
      instantiate (1 := ([PyInt dh; PyInt dw], (kernel_h - 1) * dh + 1,
                         (kernel_w - 1) * dw + 1, PyInt sh, PyInt sw)).
      destruct Hdr as [->|[-> ->]]; reflexivity. }
    cbn beta iota. unfold kwargs.
    destruct Hkind as [[-> ->]|[[-> ->]|[-> ->]]]; reflexivity. }
  rewrite Hconv. clear Hconv.
  unfold convolution, conv_padding, getattr. rewrite Hpad.
  cbn [mbind result_bind].
  split; [|split].
  - intros ->. reflexivity.
  - intros -> batch in_h in_w channels pad_t pad_b pad_l pad_r Hin Ht Hl.
    change (py_eqb (PyStr "same") (PyStr "valid")) with false.
    change (py_eqb (PyStr "same") (PyStr "same")) with true.
    cbn iota. unfold same_pads, getattr. rewrite Hin.
    cbn [mbind result_bind py_index list_index lookup list_lookup as_int].
    rewrite Ht, Hl. cbn [mbind result_bind].
    destruct (decide (pad_t = pad_b ∧ pad_l = pad_r)).
    + unfold kwargs.
      destruct Hkind as [[-> ->]|[[-> ->]|[-> ->]]]; reflexivity.
    + reflexivity.
  - intros Hv Hs. rewrite Hv, Hs.
    eexists. reflexivity.
Qed.

Definition conv_same_layer : Layer :=
  mkLayer "Conv2D" false "conv2d_1" [NdWeights "kernel" [3; 3; 3; 4]]
    (list_to_map [("dilation_rate", PyTuple [PyInt 1; PyInt 1]);
                  ("strides", PyTuple [PyInt 2; PyInt 2]);
                  ("padding", PyStr "same");
                  ("input_shape", PyTuple [PyNone; PyInt 8; PyInt 8; PyInt 3]);
                  ("use_bias", PyBool false);
                  ("activation", PyStr "linear")])
    None (Some []).

Lemma convolution_padding_witness :
  (_convert_convolution (One (EVar "x" None)) conv_same_layer ExprTable_new).1 =
    Ok (One (ECall "nn.conv2d"
               [ECall "nn.pad" [EVar "x" None]
                  [("pad_width",
                    PyTuple [PyTuple [PyInt 0; PyInt 0]; PyTuple [PyInt 0; PyInt 0];
                             PyTuple [PyInt 0; PyInt 1]; PyTuple [PyInt 0; PyInt 1]])];
                EVar "_param" (Some [4; 3; 3; 3])]
               [("kernel_size", PyList [PyInt 3; PyInt 3]);
                ("strides", PyList [PyInt 2; PyInt 2]);
                ("dilation", PyList [PyInt 1; PyInt 1]);
                ("padding", PyList [PyInt 0; PyInt 0]);
                ("channels", PyInt 4)])).
Proof.
  destruct (convolution_padding (EVar "x" None) conv_same_layer ExprTable_new
              (NdWeights "kernel" [3; 3; 3; 4]) [] 3 3 3 4 1 1 2 2
              (PyTuple [PyInt 1; PyInt 1]) (PyStr "same"))
    as (_ & Hsame & _).
  - apply (bool_decide_unpack _). vm_compute. reflexivity.
  - reflexivity.
  - reflexivity.
  - reflexivity.
  - reflexivity.
  - left. reflexivity.
  - reflexivity.
  - reflexivity.
  - rewrite (Hsame eq_refl PyNone 8 8 (PyInt 3) 0 1 0 1);
      [vm_compute; reflexivity|reflexivity..].
Defined.

(** ** The expression table (C4) *)

Lemma fresh_name_fresh (etab : ExprTable) :
  exprs etab !! fresh_name etab = None ∧ params etab !! fresh_name etab = None.
Proof.
  pose proof (fresh_string_of_set_fresh
                (dom (exprs etab) ∪ dom (params etab)) "_param") as H.
  fold (fresh_name etab) in H.
  rewrite not_elem_of_union, !not_elem_of_dom in H. exact H.
Qed.

Lemma new_const_eq (a : ndarray) (etab : ExprTable) :
  new_const a etab =
    (Ok (EVar (fresh_name etab) (Some (np_shape a))),
     mkExprTable (exprs etab) (<[fresh_name etab := a]> (params etab))).
Proof. reflexivity. Qed.

(** The operations of the table, for runs of arbitrary calls. *)
Inductive table_op : Type :=
| OpSet (name : string) (value : expr)
| OpGet (name : string)
| OpNewConst (value : ndarray).

(** The names on which [set] is called. *)
Definition set_names (ops : list table_op) : list string :=
  flat_map (fun op => match op with OpSet name _ => [name] | _ => [] end) ops.

(** One call: the name it returned, if it is a [new_const], and the table
    it leaves.  A failed call leaves the table unchanged, so a run may go
    on after it. *)
Definition run_op (op : table_op) (etab : ExprTable) : list string * ExprTable :=
  match op with
  | OpSet name value => ([], (set_expr name value etab).2)
  | OpGet name => ([], (get_expr name etab).2)
  | OpNewConst value =>
      match new_const value etab with
      | (Ok (EVar n _), etab') => ([n], etab')
      | (_, etab') => ([], etab')
      end
  end.

Fixpoint run_ops (ops : list table_op) (etab : ExprTable)
  : list string * ExprTable :=
  match ops with
  | [] => ([], etab)
  | op :: ops =>
      let '(returned, etab) := run_op op etab in
      let '(returned', etab) := run_ops ops etab in
      ((returned ++ returned')%list, etab)
  end.

Lemma elem_of_set_names_cons (k : string) (op : table_op) (ops : list table_op) :
  k ∈ set_names (op :: ops) ↔ k ∈ set_names [op] ∨ k ∈ set_names ops.
Proof. unfold set_names. simpl. rewrite app_nil_r. apply elem_of_app. Qed.

Lemma run_op_inv (op : table_op) (etab : ExprTable) :
  let '(returned, etab') := run_op op etab in
  exprs etab ⊆ exprs etab'
  ∧ params etab ⊆ params etab'
  ∧ (∀ k, is_Some (exprs etab' !! k) →
          is_Some (exprs etab !! k) ∨ k ∈ set_names [op])
  ∧ NoDup returned
  ∧ ∀ n, n ∈ returned →
         exprs etab !! n = None ∧ params etab !! n = None
         ∧ is_Some (params etab' !! n).
Proof.
  destruct op as [name value|name|value]; simpl.
  - unfold set_expr. destruct (exprs etab !! name) eqn:Hn; simpl.
    + split; [done|]. split; [done|]. split; [auto|].
      split; [apply NoDup_nil_2|]. intros n []%elem_of_nil.
    + split; [by apply insert_subseteq|]. split; [done|]. split; [|split].
      * intros k Hk. destruct (decide (k = name)) as [->|Hne].
        -- right. apply list_elem_of_singleton. reflexivity.
        -- left. by rewrite lookup_insert_ne in Hk.
      * apply NoDup_nil_2.
      * intros n []%elem_of_nil.
  - unfold get_expr. destruct (exprs etab !! name); simpl.
    + split; [done|]. split; [done|]. split; [auto|].
      split; [apply NoDup_nil_2|]. intros n []%elem_of_nil.
    + split; [done|]. split; [done|]. split; [auto|].
      split; [apply NoDup_nil_2|]. intros n []%elem_of_nil.
  - destruct (fresh_name_fresh etab) as [He Hp].
    split; [done|]. split; [by apply insert_subseteq|]. split; [auto|].
    split; [apply NoDup_singleton|].
    intros n ->%list_elem_of_singleton.
    rewrite lookup_insert_eq. eauto.
Qed.

Lemma run_ops_inv (ops : list table_op) (etab : ExprTable) :
  let '(returned, etab') := run_ops ops etab in
  exprs etab ⊆ exprs etab'
  ∧ params etab ⊆ params etab'
  ∧ (∀ k, is_Some (exprs etab' !! k) →
          is_Some (exprs etab !! k) ∨ k ∈ set_names ops)
  ∧ NoDup returned
  ∧ ∀ n, n ∈ returned →
         exprs etab !! n = None ∧ params etab !! n = None
         ∧ is_Some (params etab' !! n).
Proof.
  revert etab. induction ops as [|op ops IH]; intros etab; simpl.
  - split; [done|]. split; [done|]. split; [auto|].
    split; [apply NoDup_nil_2|]. intros n []%elem_of_nil.
  - pose proof (run_op_inv op etab) as H1.
    destruct (run_op op etab) as [r1 etab1].
    specialize (IH etab1). destruct (run_ops ops etab1) as [r2 etab2].
    destruct H1 as (He1 & Hp1 & Hk1 & Hnd1 & Hr1).
    destruct IH as (He2 & Hp2 & Hk2 & Hnd2 & Hr2).
    split; [by etrans|]. split; [by etrans|]. split; [|split].
    + intros k Hk. destruct (Hk2 k Hk) as [Hk'|Hk'].
      * destruct (Hk1 k Hk') as [|Hin]; [by left|right].
        apply elem_of_set_names_cons. by left.
      * right. apply elem_of_set_names_cons. by right.
    + apply NoDup_app. split; [done|]. split; [|done].
      intros n Hn1 Hn2.
      destruct (Hr1 n Hn1) as (_ & _ & [a Ha]).
      destruct (Hr2 n Hn2) as (_ & Hnone & _). congruence.
    + intros n [Hn|Hn]%elem_of_app.
      * destruct (Hr1 n Hn) as (? & ? & [a Ha]). repeat split; auto.
        exists a. eapply lookup_weaken; eauto.
      * destruct (Hr2 n Hn) as (He & Hp & Hs). repeat split; auto.
        -- destruct (exprs etab !! n) eqn:E; [|done].
           eapply lookup_weaken in E; eauto. congruence.
        -- destruct (params etab !! n) eqn:E; [|done].
           eapply lookup_weaken in E; eauto. congruence.
Qed.

(** C4: [set] on a name already present fails with [DuplicateSymbol] and
    leaves the table as it is, so no call overwrites a key; [get] on a
    name on which no [set] was ever called fails with [UnknownSymbol];
    and the name a call of [new_const] returns differs from every name
    returned before and from every name stored in the table, after any
    run of calls on a fresh table. *)
Theorem expr_table_operations :
  (∀ etab name value, is_Some (exprs etab !! name) →
     set_expr name value etab = (Err (DuplicateSymbol name), etab))
  ∧ (∀ etab name value k e, exprs etab !! k = Some e →
       exprs (set_expr name value etab).2 !! k = Some e)
  ∧ (∀ ops name, name ∉ set_names ops →
       let etab := (run_ops ops ExprTable_new).2 in
       get_expr name etab = (Err (UnknownSymbol name), etab))
  ∧ (∀ ops value,
       let '(returned, etab) := run_ops ops ExprTable_new in
       NoDup returned
       ∧ ∃ n etab', new_const value etab = (Ok (EVar n (Some (np_shape value))), etab')
           ∧ (n ∉ returned)
           ∧ exprs etab !! n = None ∧ params etab !! n = None
           ∧ params etab' !! n = Some value).
Proof.
  split; [|split; [|split]].
  - intros etab name value [e He]. unfold set_expr. rewrite He. reflexivity.
  - intros etab name value k e Hk. unfold set_expr.
    destruct (exprs etab !! name) eqn:Hn; simpl; [done|].
    rewrite lookup_insert_ne; [done|congruence].
  - intros ops name Hname etab.
    pose proof (run_ops_inv ops ExprTable_new) as H.
    unfold etab. destruct (run_ops ops ExprTable_new) as [r etab']. simpl.
    destruct H as (_ & _ & Hk & _).
    unfold get_expr. destruct (exprs etab' !! name) eqn:Hn; [|done].
    destruct (Hk name (mk_is_Some _ _ Hn)) as [[? Hempty]|Hin]; [|done].
    simpl in Hempty. by rewrite lookup_empty in Hempty.
  - intros ops value.
    pose proof (run_ops_inv ops ExprTable_new) as H.
    destruct (run_ops ops ExprTable_new) as [returned etab].
    destruct H as (_ & _ & _ & Hnd & Hr).
    split; [done|].
    destruct (fresh_name_fresh etab) as [He Hp].
    eexists _, _. split; [apply new_const_eq|]. repeat split; auto.
    + intros Hin. destruct (Hr _ Hin) as (_ & _ & [a Ha]). congruence.
    + simpl. apply lookup_insert_eq.
Qed.

Lemma expr_table_operations_witness :
  let etab := (set_expr "input_1" (EVar "input_1" None) ExprTable_new).2 in
  set_expr "input_1" (EVar "other" None) etab =
    (Err (DuplicateSymbol "input_1"), etab)
  ∧ get_expr "dense_1:0:0" etab = (Err (UnknownSymbol "dense_1:0:0"), etab).
Proof.
  intros etab.
  destruct expr_table_operations as (Hset & _ & Hget & _).
  split.
  - apply Hset. exists (EVar "input_1" None). vm_compute. reflexivity.
  - apply (Hget [OpSet "input_1" (EVar "input_1" None)]).
    apply (bool_decide_unpack _). vm_compute. reflexivity.
Defined.

(** ** The LSTM (C2) *)

(** The unrolled cell as the specification words it. *)
Module lstm_spec.
Section cell.
Variables (activation recurrent_activation : expr → expr).
Variables (kernel recurrent_kernel bias : expr) (units : Z).



Definition dense (x w : expr) : expr :=
  ECall "nn.dense" [x; w] [("units", PyInt units)].



End cell.
End lstm_spec.




Lemma bind_new_const {B} (a : ndarray) (k : expr → M B) (etab : ExprTable) :
  (new_const a ≫= k) etab =
    k (EVar (fresh_name etab) (Some (np_shape a))) (new_const a etab).2.
Proof. reflexivity. Qed.


(** Dimensions that are known and not zero stay as they are. *)
Lemma dims_or_1_ints (ds : list Z) :
  Forall (λ d, d ≠ 0) ds →
  dims_or_1 (PyTuple (PyInt <$> ds)) = Ok (PyInt <$> ds).
Proof.
  unfold dims_or_1. cbn [py_items mbind result_bind].
  induction ds as [|d ds IH]; intros HF; [reflexivity|].
  apply Forall_cons in HF as [Hd HF].
  set (f := λ dim, t ← truthy dim; Ok (if t : bool then dim else PyInt 1)) in *.
  change (mapM f (PyInt <$> d :: ds))
    with (y ← f (PyInt d); k ← mapM f (PyInt <$> ds); mret (y :: k)).
  rewrite (IH HF). unfold f. cbn [truthy mbind result_bind].
  destruct (Z.eqb_spec d 0) as [|_]; [contradiction|]. reflexivity.
Qed.

(** An unknown or zero dimension is read as 1: a layer declared with
    such a time dimension is unrolled over one step. *)
Lemma dims_or_1_unknown (batch n : Z) :
  dims_or_1 (PyTuple [PyInt batch; PyNone; PyInt n]) ≫= (fun s => list_index s 1)
    = Ok (PyInt 1)
  ∧ dims_or_1 (PyTuple [PyInt batch; PyInt 0; PyInt n]) ≫= (fun s => list_index s 1)
      = Ok (PyInt 1).
Proof.
  unfold dims_or_1. cbn [py_items mbind result_bind mapM truthy mret result_ret].
  destruct (batch =? 0)%Z, (n =? 0)%Z; split; reflexivity.
Qed.

Lemma tw_getitem_Ok (t : TupleWrapper) (i : nat) :
  Z.of_nat i < size t → tw_getitem t i = Ok (ETupleGetItem (tuple_value t) i).
Proof. intros H. unfold tw_getitem. destruct (decide _); [lia|reflexivity]. Qed.


Lemma perm_10 : [1; 0]%nat ≡ₚ seq 0 2.
Proof. apply (bool_decide_unpack _). vm_compute. reflexivity. Qed.

Lemma activation_as_function (l : Layer) (act rec_act : expr → expr) :
  (∀ g, _convert_activation (One g) (IsLayer l) = Ok (One (act g))) →
  (∀ g, _convert_recurrent_activation (One g) l = Ok (One (rec_act g))) →
  (∀ g, activation g l = Ok (act g))
  ∧ (∀ g, recurrent_activation g l = Ok (rec_act g)).
Proof.
  intros Hact Hrec. split; intros g.
  - unfold activation. rewrite Hact. reflexivity.
  - unfold recurrent_activation. rewrite Hrec. reflexivity.
Qed.

(** The recurrent activation of a layer is its attribute
    [recurrent_activation], lowered from the identifier alone. *)
Lemma recurrent_activation_of_layer (l : Layer) (rec_id : string)
    (rec_act : expr → expr) :
  attrs l !! "recurrent_activation" = Some (PyStr rec_id) →
  (∀ g, _convert_activation (One g) (IsStr rec_id) = Ok (One (rec_act g))) →
  ∀ g, _convert_recurrent_activation (One g) l = Ok (One (rec_act g)).
Proof.
  intros Hid Hrec g. unfold _convert_recurrent_activation, getattr_name, getattr.
  rewrite Hid. cbn [mbind result_bind]. apply Hrec.
Qed.

Lemma bind_assoc {A B C} (m : M A) (k1 : A → M B) (k2 : B → M C)
    (etab : ExprTable) :
  ((m ≫= k1) ≫= k2) etab = (m ≫= (λ a, k1 a ≫= k2)) etab.
Proof.
  unfold mbind, M_bind. destruct (m etab) as [[a|e] etab']; reflexivity.
Qed.

Lemma bind_ret {A B} (a : A) (k : A → M B) (etab : ExprTable) :
  (mret a ≫= k) etab = k a etab.
Proof. reflexivity. Qed.

Lemma zero_state_Ok (l : Layer) (u : Z) :
  attrs l !! "units" = Some (PyInt u) → 0 <= u →
  zero_state l = Ok (NdZeros [1; u] "float32").
Proof.
  intros Hunits Hu. unfold zero_state, getattr. rewrite Hunits.
  cbn [mbind result_bind]. unfold np_zeros.
  cbn [mapM as_int mbind result_bind mret result_ret].
  destruct (decide _) as [|Hn]; [reflexivity|].
  exfalso. apply Hn. repeat constructor; lia.
Qed.


Definition lstm_layer : Layer :=
  mkLayer "LSTM" false "lstm_1"
    [NdWeights "kernel" [3; 8]; NdWeights "recurrent_kernel" [2; 8];
     NdWeights "bias" [8]]
    (list_to_map [("units", PyInt 2); ("activation", PyStr "tanh");
                  ("recurrent_activation", PyStr "hard_sigmoid");
                  ("input_shape", PyTuple [PyInt 1; PyInt 2; PyInt 3]);
                  ("output_shape", PyTuple [PyInt 1; PyInt 2])])
    None
    (Some [mkNode [0%nat] [0%nat] [mkLayerRef "input_1" true]]).




(** ** Unsupported layers (C5) *)

Lemma map_lookup_None {A} (key : string) (m : list (string * A)) :
  key ∉ m.*1 ↔ map_lookup key m = None.
Proof.
  induction m as [|[k v] m IH]; simpl.
  - split; [reflexivity|]. intros _ []%elem_of_nil.
  - rewrite not_elem_of_cons, IH.
    destruct (decide (k = key)) as [->|Hne].
    + split; [intros [[] _]; reflexivity|discriminate].
    + split; [intros [_ H]; exact H|intros H; split; [congruence|exact H]].
Qed.

Lemma check_unsupported_layers_fails (model : Model) (layer : Layer) :
  layer ∈ layers model →
  type_name layer ∉ _convert_map.*1 →
  ∃ first, first ∈ layers model ∧ (type_name first ∉ _convert_map.*1)
           ∧ _check_unsupported_layers model =
               Err (ValueError ("Keras layer " ++ type_name first ++ " not supported.")).
Proof.
  unfold _check_unsupported_layers.
  induction (layers model) as [|l ls IH]; intros Hin Hnot.
  - apply elem_of_nil in Hin. contradiction.
  - cbn [foldM].
    destruct (map_lookup (type_name l) _convert_map) as [c|] eqn:Hl.
    + apply elem_of_cons in Hin as [->|Hin].
      { apply map_lookup_None in Hnot. congruence. }
      destruct (IH Hin Hnot) as (first & Hf & Hnf & Heq).
      exists first. split; [by right|]. split; [done|]. exact Heq.
    + exists l. split; [by left|]. split; [|reflexivity].
      by apply map_lookup_None.
Qed.

(** C5: when the model has a layer whose kind is not a key of the
    dispatch map, [from_keras] fails and the expression table was never
    created, so no layer was lowered and no symbol written; when the
    checks of the Keras installation pass, the failure is the one the
    check of unsupported layers raises for the first such layer.  The
    dispatch repeats the check: [keras_op_to_relay] on such a layer fails
    and leaves the table as it is. *)
Theorem from_keras_unsupported_layer (keras : Keras) (model : Model)
    (shape_dict : gmap string (list Z)) (layer : Layer) :
  layer ∈ layers model →
  type_name layer ∉ _convert_map.*1 →
  (∃ e, from_keras keras model shape_dict = (Err e, None))
  ∧ (installed keras = true → is_keras_Model model = true →
     backend keras = "tensorflow" → image_data_format keras = "channels_last" →
     ∃ first, first ∈ layers model ∧ (type_name first ∉ _convert_map.*1)
       ∧ from_keras keras model shape_dict =
           (Err (ValueError ("Keras layer " ++ type_name first ++ " not supported.")),
            None))
  ∧ (∀ inexpr outname etab,
       keras_op_to_relay inexpr layer outname etab =
         (Err (NotImplementedError (type_name layer ++ " is not supported")), etab)).
Proof.
  intros Hin Hnot.
  destruct (check_unsupported_layers_fails model layer Hin Hnot)
    as (first & Hf & Hnf & Hcheck).
  assert (Hchecks : ∃ e, from_keras_checks keras model = Err e).
  { unfold from_keras_checks.
    destruct (negb (installed keras)); [eauto|].
    destruct (negb (is_keras_Model model)); [eauto|].
    destruct (decide (backend keras ≠ "tensorflow")); [eauto|].
    destruct (decide (image_data_format keras ≠ "channels_last")); [eauto|].
    rewrite Hcheck. eauto. }
  split; [|split].
  - destruct Hchecks as [e He]. exists e. unfold from_keras. rewrite He. reflexivity.
  - intros Hi Hm Hb Hd. exists first. split; [done|]. split; [done|].
    unfold from_keras, from_keras_checks. rewrite Hi, Hm, Hb, Hd, Hcheck.
    reflexivity.
  - intros inexpr outname etab. unfold keras_op_to_relay.
    apply map_lookup_None in Hnot. rewrite Hnot. reflexivity.
Qed.

Definition conv1d_layer : Layer :=
  mkLayer "Conv1D" false "conv1d_1" [] ∅ None (Some []).

Definition conv1d_model : Model :=
  mkModel true [mkLayer "InputLayer" true "input_1" [] ∅ None (Some []); conv1d_layer]
    (fun l i => name l ++ "_ib-" ++ pretty i) ∅ [].

Lemma from_keras_unsupported_layer_witness :
  ∃ e, from_keras (mkKeras true "tensorflow" "channels_last") conv1d_model ∅ =
         (Err e, None).
Proof.
  refine (proj1 (from_keras_unsupported_layer
                   (mkKeras true "tensorflow" "channels_last") conv1d_model ∅
                   conv1d_layer _ _)).
  - apply list_elem_of_lookup. exists 1%nat. reflexivity.
  - apply (bool_decide_unpack _). vm_compute. reflexivity.
Defined.

(** ** The constants of the recurrent layers (C9) *)

(** A computation that only adds to the constant registry, whether it
    returns or raises. *)
Definition grows {A} (m : M A) : Prop :=
  ∀ etab, params etab ⊆ params (m etab).2.

Lemma grows_ret {A} (a : A) : grows (mret a).
Proof. intros etab. reflexivity. Qed.

Lemma grows_raise {A} (e : exn) : grows (raise (A := A) e).
Proof. intros etab. reflexivity. Qed.

Lemma grows_lift {A} (r : result A) : grows (lift r).
Proof. intros etab. reflexivity. Qed.

Lemma grows_bind {A B} (m : M A) (k : A → M B) :
  grows m → (∀ a, grows (k a)) → grows (m ≫= k).
Proof.
  intros Hm Hk etab. specialize (Hm etab). unfold mbind, M_bind.
  destruct (m etab) as [[a|e] etab1]; simpl in *; [|exact Hm].
  etrans; [exact Hm|apply Hk].
Qed.

Lemma grows_new_const (a : ndarray) : grows (new_const a).
Proof.
  intros etab. simpl. apply insert_subseteq.
  apply (fresh_name_fresh etab).
Qed.

Lemma grows_set_expr (name : string) (e : expr) : grows (set_expr name e).
Proof. intros etab. unfold set_expr. destruct (exprs etab !! name); reflexivity. Qed.

Lemma grows_get_expr (name : string) : grows (get_expr name).
Proof. intros etab. unfold get_expr. destruct (exprs etab !! name); reflexivity. Qed.

Lemma grows_forM_ {A} (body : A → M unit) (l : list A) :
  (∀ a, grows (body a)) → grows (forM_ body l).
Proof.
  intros Hbody. induction l as [|a l IH]; simpl.
  - apply grows_ret.
  - apply grows_bind; [apply Hbody|intros _; exact IH].
Qed.

Lemma grows_mapM_M {A B} (f : A → M B) (l : list A) :
  (∀ a, grows (f a)) → grows (mapM_M f l).
Proof.
  intros Hf. induction l as [|a l IH]; simpl.
  - apply grows_ret.
  - apply grows_bind; [apply Hf|intros b].
    apply grows_bind; [exact IH|intros bs; apply grows_ret].
Qed.

Ltac grows_step :=
  first
    [ apply grows_ret | apply grows_raise | apply grows_lift
    | apply grows_new_const | apply grows_set_expr | apply grows_get_expr
    | apply grows_bind; [|intros ?]
    | match goal with
      | |- grows (match ?x with _ => _ end) => destruct x
      | |- grows (let '_ := ?x in _) => destruct x
      end ].

Ltac grows_auto := repeat grows_step.

Lemma grows_dense inexpr l : grows (_convert_dense inexpr l).
Proof. unfold _convert_dense. grows_auto. Qed.

Lemma grows_advanced_activation inexpr l :
  grows (_convert_advanced_activation inexpr l).
Proof. unfold _convert_advanced_activation. grows_auto. Qed.

Lemma grows_convolution inexpr l : grows (_convert_convolution inexpr l).
Proof.
  unfold _convert_convolution. grows_auto.
Qed.

Lemma grows_separable_convolution inexpr l :
  grows (_convert_separable_convolution inexpr l).
Proof.
  unfold _convert_separable_convolution. grows_auto.
Qed.

Lemma grows_batchnorm inexpr l : grows (_convert_batchnorm inexpr l).
Proof. unfold _convert_batchnorm. grows_auto. Qed.

Lemma grows_lstm inexpr l : grows (_convert_lstm inexpr l).
Proof. unfold _convert_lstm. grows_auto. Qed.

Lemma grows_simple_rnn inexpr l : grows (_convert_simple_rnn inexpr l).
Proof. unfold _convert_simple_rnn. grows_auto. Qed.

Lemma grows_gru inexpr l : grows (_convert_gru inexpr l).
Proof. unfold _convert_gru. grows_auto. Qed.

Lemma grows_pure_converter f inexpr l : grows (pure_converter f inexpr l).
Proof. apply grows_lift. Qed.

Lemma grows_convert_map (key : string) (convert : converter) :
  map_lookup key _convert_map = Some convert →
  ∀ inexpr l, grows (convert inexpr l).
Proof.
  unfold _convert_map. cbn [map_lookup].
  repeat (destruct (decide (_ = key)) as [_|_];
          [intros [= <-];
           auto using grows_dense, grows_advanced_activation, grows_convolution,
             grows_separable_convolution, grows_batchnorm, grows_lstm,
             grows_simple_rnn, grows_gru, grows_pure_converter|]).
  discriminate.
Qed.

Lemma grows_keras_op_to_relay inexpr l outname :
  grows (keras_op_to_relay inexpr l outname).
Proof.
  unfold keras_op_to_relay.
  destruct (map_lookup (type_name l) _convert_map) as [convert|] eqn:Hc.
  - apply grows_bind; [by apply (grows_convert_map _ _ Hc)|intros outs].
    apply grows_forM_. intros [t_idx out]. apply grows_set_expr.
  - apply grows_raise.
Qed.

Lemma grows_from_keras_node model l node_idx node :
  grows (from_keras_node model l node_idx node).
Proof.
  unfold from_keras_node. destruct (decide _); [apply grows_ret|].
  apply grows_bind.
  - apply grows_mapM_M. intros [[n_idx t_idx] inbound]. apply grows_get_expr.
  - intros inexpr. apply grows_keras_op_to_relay.
Qed.

Lemma grows_from_keras_layer model shape_dict l :
  grows (from_keras_layer model shape_dict l).
Proof.
  unfold from_keras_layer. destruct (is_InputLayer l); [apply grows_set_expr|].
  destruct (match inbound_nodes l with Some _ => _ | None => _ end);
    [|apply grows_raise].
  apply grows_forM_. intros [node_idx node]. apply grows_from_keras_node.
Qed.

(** Inversion of computations that returned. *)
Lemma bind_Ok_inv {A B} (m : M A) (k : A → M B) (etab etab' : ExprTable) (b : B) :
  (m ≫= k) etab = (Ok b, etab') →
  ∃ a etab1, m etab = (Ok a, etab1) ∧ k a etab1 = (Ok b, etab').
Proof.
  unfold mbind, M_bind. destruct (m etab) as [[a|e] etab1]; [eauto|discriminate].
Qed.

Lemma lift_Ok_inv {A} (r : result A) (a : A) (etab etab' : ExprTable) :
  lift r etab = (Ok a, etab') → r = Ok a ∧ etab' = etab.
Proof. unfold lift. intros [= -> ->]. auto. Qed.

Lemma forM__app_inv {A} (body : A → M unit) (l1 l2 : list A) (x : A)
    (etab etab' : ExprTable) :
  forM_ body (l1 ++ x :: l2) etab = (Ok tt, etab') →
  ∃ etab1 etab2,
    forM_ body l1 etab = (Ok tt, etab1)
    ∧ body x etab1 = (Ok tt, etab2)
    ∧ forM_ body l2 etab2 = (Ok tt, etab').
Proof.
  revert etab. induction l1 as [|y l1 IH]; intros etab H; simpl in H.
  - apply bind_Ok_inv in H as ([] & etab1 & Hx & H). exists etab, etab1. auto.
  - apply bind_Ok_inv in H as ([] & etab1 & Hy & H).
    destruct (IH _ H) as (e1 & e2 & H1 & H2 & H3).
    exists e1, e2. split; [|auto]. simpl.
    unfold mbind, M_bind. rewrite Hy. exact H1.
Qed.

Lemma mapM_M_length {A B} (f : A → M B) (l : list A) (ys : list B)
    (etab etab' : ExprTable) :
  mapM_M f l etab = (Ok ys, etab') → length ys = length l.
Proof.
  revert ys etab etab'. induction l as [|x l IH]; intros ys etab etab' H; simpl in H.
  - injection H as <- _. reflexivity.
  - apply bind_Ok_inv in H as (y & e1 & _ & H).
    apply bind_Ok_inv in H as (ys' & e2 & H' & H).
    injection H as <- _. simpl. f_equal. eapply IH, H'.
Qed.

Lemma enumerate_lookup_split {A} (l : list A) (i : nat) (x : A) :
  l !! i = Some x →
  ∃ l1 l2, enumerate l = (l1 ++ (i, x) :: l2)%list.
Proof.
  intros Hi. apply list_elem_of_split.
  apply list_elem_of_lookup. exists i. unfold enumerate.
  apply lookup_zip_with_Some. exists i, x. split; [reflexivity|].
  split; [|exact Hi]. apply lookup_seq. split; [reflexivity|].
  by apply lookup_lt_Some in Hi.
Qed.

Lemma np_transpose_inv (w a : ndarray) (axes : list nat) :
  np_transpose w axes = Ok a → a = NdTranspose w axes.
Proof. unfold np_transpose. destruct (decide _); [congruence|discriminate]. Qed.

Lemma zero_state_inv (l : Layer) (buf : ndarray) :
  zero_state l = Ok buf →
  ∃ v u, attrs l !! "units" = Some v ∧ as_int v = Ok u
         ∧ buf = NdZeros [1; u] "float32".
Proof.
  unfold zero_state, getattr. destruct (attrs l !! "units") as [v|]; [|discriminate].
  cbn [mbind result_bind]. unfold np_zeros.
  cbn [mapM mbind result_bind as_int mret result_ret].
  destruct (as_int v) as [u|] eqn:Hu; [|discriminate].
  cbn [mbind result_bind mret result_ret]. case_decide; [|discriminate].
  intros [= <-]. eauto.
Qed.

(** The table after registering arrays one after the other. *)
Definition register_all (arrays : list ndarray) (etab : ExprTable) : ExprTable :=
  foldl (fun etab a => (new_const a etab).2) etab arrays.

Lemma register_all_grows (arrays : list ndarray) (etab : ExprTable) :
  params etab ⊆ params (register_all arrays etab).
Proof.
  revert etab. induction arrays as [|a arrays IH]; intros etab; [reflexivity|].
  etrans; [apply (grows_new_const a etab)|apply IH].
Qed.

Lemma register_all_names (arrays : list ndarray) (etab : ExprTable) :
  ∃ names,
    NoDup names
    ∧ (∀ n, n ∈ names → params etab !! n = None)
    ∧ Forall2 (fun n a => params (register_all arrays etab) !! n = Some a)
        names arrays.
Proof.
  revert etab. induction arrays as [|a arrays IH]; intros etab.
  - exists []. split; [apply NoDup_nil_2|]. split; [|constructor].
    intros n []%elem_of_nil.
  - destruct (IH (new_const a etab).2) as (names & Hnd & Hfresh & Hall).
    destruct (fresh_name_fresh etab) as [_ Hp].
    assert (Hreg : params (new_const a etab).2 !! fresh_name etab = Some a)
      by apply lookup_insert_eq.
    exists (fresh_name etab :: names). split; [|split].
    + apply NoDup_cons. split; [|exact Hnd].
      intros Hin. specialize (Hfresh _ Hin). congruence.
    + intros n [->|Hin]%elem_of_cons; [exact Hp|].
      specialize (Hfresh _ Hin).
      destruct (params etab !! n) eqn:E; [|reflexivity].
      eapply lookup_weaken in E; [|apply (grows_new_const a etab)]. congruence.
    + constructor; [|exact Hall].
      eapply lookup_weaken; [exact Hreg|].
      apply (register_all_grows arrays).
Qed.

Ltac inv_lift H :=
  let E := fresh "E" in
  apply bind_Ok_inv in H as (? & ? & E & H);
  apply lift_Ok_inv in E as [E ->].

(** The three weight constants every recurrent converter registers, and
    the end of the converter, which leaves the table alone. *)
Ltac inv_weights H :=
  let E := fresh "E" in
  let w := fresh "w" in
  let Hw := fresh "Hw" in
  (* kernel_weight *)
  apply bind_Ok_inv in H as (? & ? & E & H);
  apply lift_Ok_inv in E as [E ->];
  destruct (list_index (get_weights _) 0) as [w|] eqn:Hw in E; [|discriminate E];
  apply np_transpose_inv in E as ->;
  rewrite bind_new_const in H;
  (* recurrent_weight *)
  apply bind_Ok_inv in H as (? & ? & E & H);
  apply lift_Ok_inv in E as [E ->];
  let w' := fresh "w" in
  let Hw' := fresh "Hw" in
  destruct (list_index (get_weights _) 1) as [w'|] eqn:Hw' in E; [|discriminate E];
  apply np_transpose_inv in E as ->;
  rewrite bind_new_const in H;
  (* in_bias *)
  apply bind_Ok_inv in H as (? & ? & E & H);
  apply lift_Ok_inv in E as [E ->];
  rewrite bind_new_const in H;
  apply lift_Ok_inv in H as [_ ->].

Lemma list_index_Ok {A} (l : list A) (i : nat) (x : A) :
  list_index l i = Ok x → l !! i = Some x.
Proof. unfold list_index. destruct (l !! i); congruence. Qed.

Lemma lstm_registers (x : expr) (l : Layer) (etab etab' : ExprTable)
    (outs : pyexprs) :
  _convert_lstm (One x) l etab = (Ok outs, etab') →
  ∃ zero w0 w1 w2,
    zero_state l = Ok zero
    ∧ get_weights l !! 0%nat = Some w0 ∧ get_weights l !! 1%nat = Some w1
    ∧ get_weights l !! 2%nat = Some w2
    ∧ etab' = register_all [zero; zero; NdTranspose w0 [1; 0]%nat;
                            NdTranspose w1 [1; 0]%nat; w2] etab.
Proof.
  unfold _convert_lstm. intros H.
  inv_lift H. rewrite bind_assoc in H. inv_lift H.
  rewrite bind_assoc, bind_new_const in H.
  rewrite bind_assoc, bind_new_const in H.
  rewrite bind_ret in H.
  do 4 inv_lift H.
  inv_weights H.
  eexists _, _, _, _. repeat split; eauto using list_index_Ok.
Qed.

Lemma simple_rnn_registers (x : expr) (l : Layer) (etab etab' : ExprTable)
    (outs : pyexprs) :
  _convert_simple_rnn (One x) l etab = (Ok outs, etab') →
  ∃ zero w0 w1 w2,
    zero_state l = Ok zero
    ∧ get_weights l !! 0%nat = Some w0 ∧ get_weights l !! 1%nat = Some w1
    ∧ get_weights l !! 2%nat = Some w2
    ∧ etab' = register_all [zero; NdTranspose w0 [1; 0]%nat;
                            NdTranspose w1 [1; 0]%nat; w2] etab.
Proof.
  unfold _convert_simple_rnn. intros H.
  inv_lift H. rewrite bind_assoc in H. inv_lift H.
  rewrite bind_assoc, bind_new_const in H.
  rewrite bind_ret in H.
  do 2 inv_lift H.
  inv_weights H.
  eexists _, _, _, _. repeat split; eauto using list_index_Ok.
Qed.

Lemma gru_registers (x : expr) (l : Layer) (etab etab' : ExprTable)
    (outs : pyexprs) :
  _convert_gru (One x) l etab = (Ok outs, etab') →
  ∃ zero w0 w1 w2,
    zero_state l = Ok zero
    ∧ get_weights l !! 0%nat = Some w0 ∧ get_weights l !! 1%nat = Some w1
    ∧ get_weights l !! 2%nat = Some w2
    ∧ etab' = register_all [zero; NdTranspose w0 [1; 0]%nat;
                            NdTranspose w1 [1; 0]%nat; w2] etab.
Proof.
  unfold _convert_gru. intros H.
  inv_lift H. rewrite bind_assoc in H. inv_lift H.
  rewrite bind_assoc, bind_new_const in H.
  rewrite bind_ret in H.
  do 2 inv_lift H.
  inv_weights H.
  eexists _, _, _, _. repeat split; eauto using list_index_Ok.
Qed.

(** The zero-filled initial states a recurrent converter registers for a
    bare input: hidden and cell state for the LSTM, the hidden state for
    the others. *)
Definition zero_states (kind : string) (zero : ndarray) : list ndarray :=
  if decide (kind = "LSTM") then [zero; zero] else [zero].

Lemma recurrent_registers (x : expr) (l : Layer) (etab etab' : ExprTable)
    (outname : string) :
  type_name l ∈ ["LSTM"; "SimpleRNN"; "GRU"] →
  keras_op_to_relay (One x) l outname etab = (Ok tt, etab') →
  ∃ zero w0 w1 w2,
    zero_state l = Ok zero
    ∧ get_weights l !! 0%nat = Some w0 ∧ get_weights l !! 1%nat = Some w1
    ∧ get_weights l !! 2%nat = Some w2
    ∧ params (register_all
                (zero_states (type_name l) zero ++
                 [NdTranspose w0 [1; 0]%nat; NdTranspose w1 [1; 0]%nat; w2]) etab)
      ⊆ params etab'.
Proof.
  intros Hkind H. unfold keras_op_to_relay in H.
  assert (Hset : ∀ (outs : pyexprs) e1,
            forM_ (fun '(t_idx, out) =>
                     set_expr (outname ++ ":" ++ pretty (t_idx : nat)) out)
              (enumerate (_as_list outs)) e1 = (Ok tt, etab') →
            params e1 ⊆ params etab').
  { intros outs e1 Hf.
    pose proof (grows_forM_
                  (fun '(t_idx, out) =>
                     set_expr (outname ++ ":" ++ pretty (t_idx : nat)) out)
                  (enumerate (_as_list outs))) as Hg.
    specialize (Hg ltac:(intros [t_idx out]; apply grows_set_expr) e1).
    rewrite Hf in Hg. exact Hg. }
  unfold zero_states.
  repeat (apply elem_of_cons in Hkind as [Hk|Hkind]); [| | |by apply elem_of_nil in Hkind];
    rewrite Hk in *.
  - change (map_lookup "LSTM" _convert_map) with (Some _convert_lstm) in H.
    apply bind_Ok_inv in H as (outs & e1 & Hc & H).
    apply lstm_registers in Hc as (zero & w0 & w1 & w2 & Hz & H0 & H1 & H2 & ->).
    exists zero, w0, w1, w2. repeat split; auto. eapply Hset, H.
  - change (map_lookup "SimpleRNN" _convert_map) with (Some _convert_simple_rnn) in H.
    apply bind_Ok_inv in H as (outs & e1 & Hc & H).
    apply simple_rnn_registers in Hc
      as (zero & w0 & w1 & w2 & Hz & H0 & H1 & H2 & ->).
    exists zero, w0, w1, w2. repeat split; auto. eapply Hset, H.
  - change (map_lookup "GRU" _convert_map) with (Some _convert_gru) in H.
    apply bind_Ok_inv in H as (outs & e1 & Hc & H).
    apply gru_registers in Hc as (zero & w0 & w1 & w2 & Hz & H0 & H1 & H2 & ->).
    exists zero, w0, w1, w2. repeat split; auto. eapply Hset, H.
Qed.

(** C9: when [from_keras] returns, every recurrent layer (LSTM, SimpleRNN,
    GRU) it lowered at a relevant call-site with a single inbound tensor
    has its implicit initial states in the returned constant map: under
    names of their own, distinct from each other and from the names of
    the layer's three weight constants, there are two zero-filled float32
    arrays of shape (1, units) for an LSTM and one for a SimpleRNN or a
    GRU. *)
Theorem recurrent_zero_state_constants (keras : Keras) (model : Model)
    (shape_dict : gmap string (list Z)) (func : _expr.Function)
    (consts : gmap string NDArray) (etab : option ExprTable)
    (before after : list Layer) (layer : Layer)
    (nodes : list Node) (node_idx : nat) (node : Node) :
  from_keras keras model shape_dict = (Ok (func, consts), etab) →
  layers model = (before ++ layer :: after)%list →
  is_InputLayer layer = false →
  type_name layer ∈ ["LSTM"; "SimpleRNN"; "GRU"] →
  match inbound_nodes layer with
  | Some nodes => Some nodes
  | None => _inbound_nodes layer
  end = Some nodes →
  nodes !! node_idx = Some node →
  _node_key model layer node_idx ∈ _network_nodes model →
  length (zip3 (node_indices node) (tensor_indices node) (inbound_layers node))
    = 1%nat →
  ∃ units u w0 w1 w2 names,
    attrs layer !! "units" = Some units ∧ as_int units = Ok u
    ∧ get_weights layer !! 0%nat = Some w0 ∧ get_weights layer !! 1%nat = Some w1
    ∧ get_weights layer !! 2%nat = Some w2
    ∧ NoDup names
    ∧ Forall2 (fun n a => consts !! n = Some (mkNDArray a "float32")) names
        (zero_states (type_name layer) (NdZeros [1; u] "float32") ++
         [NdTranspose w0 [1; 0]%nat; NdTranspose w1 [1; 0]%nat; w2]).
Proof.
  intros Hfrom Hlayers Hinput Hkind Hnodes Hnode Hrel Hone.
  (* the walk over the layers returned *)
  unfold from_keras in Hfrom.
  destruct (from_keras_checks keras model); [|discriminate].
  destruct (from_keras_convert model shape_dict ExprTable_new)
    as [r etabF] eqn:Hconv.
  injection Hfrom as -> _. unfold from_keras_convert in Hconv.
  apply bind_Ok_inv in Hconv as ([] & etabL & Hwalk & Hconv).
  apply bind_Ok_inv in Hconv as (outexpr & etabO & Hout & Hconv).
  assert (HLO : params etabL ⊆ params etabO).
  { pose proof (grows_mapM_M
                  (fun '(oc0, oc1, oc2) =>
                     get_expr (ref_name oc0 ++ ":" ++ pretty (oc1 : nat) ++ ":"
                               ++ pretty (oc2 : nat)))
                  (_output_coordinates model)) as Hg.
    specialize (Hg ltac:(intros [[oc0 oc1] oc2]; apply grows_get_expr) etabL).
    rewrite Hout in Hg. exact Hg. }
  unfold etab_params in Hconv. cbn in Hconv.
  injection Hconv as _ Hconsts _. subst consts.
  (* the layer's turn *)
  rewrite Hlayers in Hwalk.
  apply forM__app_inv in Hwalk as (e1 & e2 & _ & Hlayer & Hafter).
  assert (H2L : params e2 ⊆ params etabL).
  { pose proof (grows_forM_ (from_keras_layer model shape_dict) after
                  (grows_from_keras_layer model shape_dict) e2) as Hg.
    rewrite Hafter in Hg. exact Hg. }
  unfold from_keras_layer in Hlayer. rewrite Hinput, Hnodes in Hlayer.
  destruct (enumerate_lookup_split nodes node_idx node Hnode) as (ns1 & ns2 & Hen).
  rewrite Hen in Hlayer.
  apply forM__app_inv in Hlayer as (e3 & e4 & _ & Hnd & Hrest).
  assert (H42 : params e4 ⊆ params e2).
  { pose proof (grows_forM_
                  (fun '(node_idx, node) =>
                     from_keras_node model layer node_idx node) ns2) as Hg.
    specialize (Hg ltac:(intros [i nd]; apply grows_from_keras_node) e4).
    rewrite Hrest in Hg. exact Hg. }
  (* the call-site *)
  unfold from_keras_node in Hnd.
  destruct (decide _) as [Hn|_] in Hnd; [contradiction|].
  apply bind_Ok_inv in Hnd as (inexpr & e5 & Hin & Hop).
  apply mapM_M_length in Hin. rewrite Hone in Hin.
  destruct inexpr as [|x [|]]; try discriminate Hin.
  destruct (recurrent_registers x layer e5 e4 _ Hkind Hop)
    as (zero & w0 & w1 & w2 & Hz & H0 & H1 & H2 & Hreg).
  destruct (zero_state_inv layer zero Hz) as (units & u & Hunits & Hu & ->).
  destruct (register_all_names
              (zero_states (type_name layer) (NdZeros [1; u] "float32") ++
               [NdTranspose w0 [1; 0]%nat; NdTranspose w1 [1; 0]%nat; w2]) e5)
    as (names & Hnodup & _ & Hall).
  exists units, u, w0, w1, w2, names. repeat split; auto.
  eapply Forall2_impl; [exact Hall|].
  intros nm arr Hna. cbn beta in Hna.
  rewrite lookup_fmap.
  assert (params etabO !! nm = Some arr) as ->; [|reflexivity].
  eapply lookup_weaken; [exact Hna|].
  etrans; [exact Hreg|]. etrans; [exact H42|]. etrans; [exact H2L|exact HLO].
Qed.

Definition lstm_model : Model :=
  mkModel true
    [mkLayer "InputLayer" true "input_1" [] ∅ None (Some []); lstm_layer]
    (fun l i => name l ++ "_ib-" ++ pretty i) {["lstm_1_ib-0"]}
    [(mkLayerRef "lstm_1" false, 0%nat, 0%nat)].

Definition simple_rnn_model_layer : Layer :=
  mkLayer "SimpleRNN" false "simple_rnn_1"
    [NdWeights "kernel" [3; 2]; NdWeights "recurrent_kernel" [2; 2];
     NdWeights "bias" [2]]
    (list_to_map [("units", PyInt 2); ("activation", PyStr "tanh");
                  ("output_shape", PyTuple [PyInt 1; PyInt 2])])
    None
    (Some [mkNode [0%nat] [0%nat] [mkLayerRef "input_1" true]]).

Definition simple_rnn_model : Model :=
  mkModel true
    [mkLayer "InputLayer" true "input_1" [] ∅ None (Some []);
     simple_rnn_model_layer]
    (fun l i => name l ++ "_ib-" ++ pretty i) {["simple_rnn_1_ib-0"]}
    [(mkLayerRef "simple_rnn_1" false, 0%nat, 0%nat)].

Definition gru_model_layer : Layer :=
  mkLayer "GRU" false "gru_1"
    [NdWeights "kernel" [3; 6]; NdWeights "recurrent_kernel" [2; 6];
     NdWeights "bias" [6]]
    (list_to_map [("units", PyInt 2); ("activation", PyStr "tanh");
                  ("recurrent_activation", PyStr "sigmoid");
                  ("output_shape", PyTuple [PyInt 1; PyInt 2])])
    None
    (Some [mkNode [0%nat] [0%nat] [mkLayerRef "input_1" true]]).

Definition gru_model : Model :=
  mkModel true
    [mkLayer "InputLayer" true "input_1" [] ∅ None (Some []); gru_model_layer]
    (fun l i => name l ++ "_ib-" ++ pretty i) {["gru_1_ib-0"]}
    [(mkLayerRef "gru_1" false, 0%nat, 0%nat)].

(** One model for each recurrent kind: [from_keras] returns, and the
    returned constants hold the zero states beside the weights. *)
Lemma recurrent_zero_state_constants_witness :
  (∃ func consts etab names,
     from_keras (mkKeras true "tensorflow" "channels_last") lstm_model ∅ =
       (Ok (func, consts), etab)
     ∧ NoDup names
     ∧ Forall2 (fun n a => consts !! n = Some (mkNDArray a "float32")) names
         [NdZeros [1; 2] "float32"; NdZeros [1; 2] "float32";
          NdTranspose (NdWeights "kernel" [3; 8]) [1; 0]%nat;
          NdTranspose (NdWeights "recurrent_kernel" [2; 8]) [1; 0]%nat;
          NdWeights "bias" [8]])
  ∧ (∃ func consts etab names,
       from_keras (mkKeras true "tensorflow" "channels_last") simple_rnn_model ∅ =
         (Ok (func, consts), etab)
       ∧ NoDup names
       ∧ Forall2 (fun n a => consts !! n = Some (mkNDArray a "float32")) names
           [NdZeros [1; 2] "float32";
            NdTranspose (NdWeights "kernel" [3; 2]) [1; 0]%nat;
            NdTranspose (NdWeights "recurrent_kernel" [2; 2]) [1; 0]%nat;
            NdWeights "bias" [2]])
  ∧ (∃ func consts etab names,
       from_keras (mkKeras true "tensorflow" "channels_last") gru_model ∅ =
         (Ok (func, consts), etab)
       ∧ NoDup names
       ∧ Forall2 (fun n a => consts !! n = Some (mkNDArray a "float32")) names
           [NdZeros [1; 2] "float32";
            NdTranspose (NdWeights "kernel" [3; 6]) [1; 0]%nat;
            NdTranspose (NdWeights "recurrent_kernel" [2; 6]) [1; 0]%nat;
            NdWeights "bias" [6]]).
Proof.
  split; [|split].
  - destruct (from_keras (mkKeras true "tensorflow" "channels_last") lstm_model ∅)
      as [[[func consts]|e] etab] eqn:Hfrom; [|vm_compute in Hfrom; discriminate].
    destruct (recurrent_zero_state_constants _ _ _ func consts etab
                [mkLayer "InputLayer" true "input_1" [] ∅ None (Some [])] []
                lstm_layer
                [mkNode [0%nat] [0%nat] [mkLayerRef "input_1" true]] 0
                (mkNode [0%nat] [0%nat] [mkLayerRef "input_1" true]) Hfrom)
      as (units & u & w0 & w1 & w2 & names & Hunits & Hu & H0 & H1 & H2 & Hnd & Hall);
      [reflexivity|reflexivity
      |apply (bool_decide_unpack _); vm_compute; reflexivity
      |reflexivity|reflexivity
      |apply (bool_decide_unpack _); vm_compute; reflexivity
      |reflexivity|].
    exists func, consts, etab, names. split; [reflexivity|]. split; [exact Hnd|].
    vm_compute in Hunits. injection Hunits as <-.
    injection Hu as <-. injection H0 as <-. injection H1 as <-. injection H2 as <-.
    exact Hall.
  - destruct (from_keras (mkKeras true "tensorflow" "channels_last") simple_rnn_model ∅)
      as [[[func consts]|e] etab] eqn:Hfrom; [|vm_compute in Hfrom; discriminate].
    destruct (recurrent_zero_state_constants _ _ _ func consts etab
                [mkLayer "InputLayer" true "input_1" [] ∅ None (Some [])] []
                simple_rnn_model_layer
                [mkNode [0%nat] [0%nat] [mkLayerRef "input_1" true]] 0
                (mkNode [0%nat] [0%nat] [mkLayerRef "input_1" true]) Hfrom)
      as (units & u & w0 & w1 & w2 & names & Hunits & Hu & H0 & H1 & H2 & Hnd & Hall);
      [reflexivity|reflexivity
      |apply (bool_decide_unpack _); vm_compute; reflexivity
      |reflexivity|reflexivity
      |apply (bool_decide_unpack _); vm_compute; reflexivity
      |reflexivity|].
    exists func, consts, etab, names. split; [reflexivity|]. split; [exact Hnd|].
    vm_compute in Hunits. injection Hunits as <-.
    injection Hu as <-. injection H0 as <-. injection H1 as <-. injection H2 as <-.
    exact Hall.
  - destruct (from_keras (mkKeras true "tensorflow" "channels_last") gru_model ∅)
      as [[[func consts]|e] etab] eqn:Hfrom; [|vm_compute in Hfrom; discriminate].
    destruct (recurrent_zero_state_constants _ _ _ func consts etab
                [mkLayer "InputLayer" true "input_1" [] ∅ None (Some [])] []
                gru_model_layer
                [mkNode [0%nat] [0%nat] [mkLayerRef "input_1" true]] 0
                (mkNode [0%nat] [0%nat] [mkLayerRef "input_1" true]) Hfrom)
      as (units & u & w0 & w1 & w2 & names & Hunits & Hu & H0 & H1 & H2 & Hnd & Hall);
      [reflexivity|reflexivity
      |apply (bool_decide_unpack _); vm_compute; reflexivity
      |reflexivity|reflexivity
      |apply (bool_decide_unpack _); vm_compute; reflexivity
      |reflexivity|].
    exists func, consts, etab, names. split; [reflexivity|]. split; [exact Hnd|].
    vm_compute in Hunits. injection Hunits as <-.
    injection Hu as <-. injection H0 as <-. injection H1 as <-. injection H2 as <-.
    exact Hall.
Defined.


(** * Further properties of the converters *)

(** ** The padding calculator *)

(** X1: the padding calculator fails in two cases only: with a zero
    stride it raises [ZeroDivisionError], and with any other stride it
    raises [OverflowError] when the padding expression
    [(out - 1) * stride + kernel - input] is outside the range of a
    64-bit integer.  In every other case it returns, for all integers, a
    pair of pads that are not negative and of which the second is the
    first or one more. *)
Theorem get_pad_pair_bounds (input1d kernel1d stride1d : Z) :
  let out1d := (input1d + stride1d - 1) `div` stride1d in
  let total := (out1d - 1) * stride1d + kernel1d - input1d in
  (stride1d = 0 → _get_pad_pair input1d kernel1d stride1d = Err ZeroDivisionError)
  ∧ (stride1d ≠ 0 → ¬ in_int64 total →
     _get_pad_pair input1d kernel1d stride1d =
       Err (OverflowError "Python integer out of bounds for int64"))
  ∧ (stride1d ≠ 0 → in_int64 total →
     ∃ pad_before pad_after,
       _get_pad_pair input1d kernel1d stride1d = Ok (pad_before, pad_after)
       ∧ 0 <= pad_before ∧ pad_before <= pad_after ∧ pad_after <= pad_before + 1).
Proof.
  intros out1d total. unfold _get_pad_pair. fold out1d. fold total.
  split; [|split]; intros Hs.
  - destruct (decide (stride1d = 0)); [reflexivity|contradiction].
  - intros Hrange. destruct (decide (stride1d = 0)); [contradiction|].
    rewrite (np_maximum_0_Err _ Hrange). reflexivity.
  - intros Hrange. destruct (decide (stride1d = 0)); [contradiction|].
    rewrite (np_maximum_0_Ok _ Hrange). cbn [mbind result_bind].
    eexists _, _. split; [reflexivity|].
    set (pad := Z.max _ 0).
    assert (0 <= pad) by apply Z.le_max_r.
    pose proof (Z.div_mod pad 2 ltac:(lia)).
    pose proof (Z.mod_pos_bound pad 2 ltac:(lia)). lia.
Qed.

(** X2: with stride 1 the pads do not depend on the input size: the total
    is [kernel - 1], so, as long as that is a 64-bit integer, an odd
    kernel [2k+1] is padded by [k] on both sides. *)
Theorem get_pad_pair_stride_1 (input1d kernel1d : Z) :
  1 <= kernel1d → kernel1d - 1 <= int64_max →
  _get_pad_pair input1d kernel1d 1 =
    Ok ((kernel1d - 1) `div` 2, (kernel1d - 1) - (kernel1d - 1) `div` 2)
  ∧ ∀ k, kernel1d = 2 * k + 1 → _get_pad_pair input1d kernel1d 1 = Ok (k, k).
Proof.
  intros Hk Hmax.
  assert (H : _get_pad_pair input1d kernel1d 1 =
              Ok ((kernel1d - 1) `div` 2, (kernel1d - 1) - (kernel1d - 1) `div` 2)).
  { unfold _get_pad_pair. destruct (decide (1 = 0)); [lia|].
    rewrite Z.div_1_r.
    replace ((input1d + 1 - 1 - 1) * 1 + kernel1d - input1d)
      with (kernel1d - 1) by lia.
    rewrite np_maximum_0_Ok
      by (unfold in_int64, int64_min in *; lia).
    rewrite Z.max_l by lia. reflexivity. }
  split; [exact H|]. intros k ->. rewrite H.
  replace (2 * k + 1 - 1) with (k * 2) by lia.
  rewrite Z.div_mul by lia. do 2 f_equal. lia.
Qed.

Lemma get_pad_pair_stride_1_witness :
  _get_pad_pair 224 3 1 = Ok (1, 1) ∧ _get_pad_pair 17 4 1 = Ok (1, 2).
Proof.
  split.
  - apply (proj2 (get_pad_pair_stride_1 224 3 ltac:(lia)
                    ltac:(vm_compute; discriminate)) 1).
    reflexivity.
  - apply (proj1 (get_pad_pair_stride_1 17 4 ltac:(lia)
                    ltac:(vm_compute; discriminate))).
Defined.

(** X3: windows that do not overlap need no padding when they tile the
    input: for a kernel not larger than the stride and an input size that
    is a multiple of the stride both pads are 0, as long as the
    difference [kernel - stride] is a 64-bit integer. *)
Theorem get_pad_pair_tiling (n kernel1d stride1d : Z) :
  0 < stride1d → kernel1d <= stride1d → int64_min <= kernel1d - stride1d →
  _get_pad_pair (n * stride1d) kernel1d stride1d = Ok (0, 0).
Proof.
  intros Hs Hk Hmin. unfold _get_pad_pair.
  destruct (decide (stride1d = 0)); [lia|].
  assert ((n * stride1d + stride1d - 1) `div` stride1d = n) as ->.
  { symmetry. apply Z.div_unique_pos with (r := stride1d - 1); lia. }
  replace ((n - 1) * stride1d + kernel1d - n * stride1d)
    with (kernel1d - stride1d) by lia.
  rewrite np_maximum_0_Ok by (unfold in_int64, int64_max in *; lia).
  rewrite Z.max_r by lia. reflexivity.
Qed.

Lemma get_pad_pair_tiling_witness :
  _get_pad_pair 224 2 2 = Ok (0, 0).
Proof.
  apply (get_pad_pair_tiling 112 2 2); [lia|lia|vm_compute; discriminate].
Defined.

(** ** The data layout check *)

Lemma check_data_format_fails (l : Layer) (data_format : pyval) :
  attrs l !! "data_format" = Some data_format →
  py_eqb data_format (PyStr "channels_last") = false →
  _check_data_format l =
    Err (ValueError
           "Keras frontend currently supports data_format = channels_last only.").
Proof. intros H Hne. unfold _check_data_format. rewrite H, Hne. reflexivity. Qed.

(** X4: a layer that carries a data format other than [channels_last] is
    refused with the same [ValueError], before the table is touched and
    whatever its input and its other attributes, by every converter that
    checks the layout first: the convolutions, flatten, the poolings,
    upsampling, cropping, zero padding, concatenate, reshape and the
    three recurrent cells.  The advanced activations check the layout in
    the PReLU branch only, after the assertion on alpha: a PReLU layer is
    refused in the same way when it has an alpha, and fails the assertion
    when it has none. *)
Theorem data_format_refused (l : Layer) (data_format : pyval)
    (inexpr : pyexprs) (etab : ExprTable) :
  attrs l !! "data_format" = Some data_format →
  py_eqb data_format (PyStr "channels_last") = false →
  let refused :=
    ValueError
      "Keras frontend currently supports data_format = channels_last only." in
  _convert_convolution inexpr l etab = (Err refused, etab)
  ∧ _convert_separable_convolution inexpr l etab = (Err refused, etab)
  ∧ _convert_lstm inexpr l etab = (Err refused, etab)
  ∧ _convert_simple_rnn inexpr l etab = (Err refused, etab)
  ∧ _convert_gru inexpr l etab = (Err refused, etab)
  ∧ _convert_flatten inexpr l = Err refused
  ∧ _convert_pooling inexpr l = Err refused
  ∧ _convert_upsample inexpr l = Err refused
  ∧ _convert_cropping inexpr l = Err refused
  ∧ _convert_padding inexpr l = Err refused
  ∧ _convert_concat inexpr l = Err refused
  ∧ _convert_reshape inexpr l = Err refused
  ∧ (type_name l = "PReLU" → is_Some (attrs l !! "alpha") →
     _convert_advanced_activation inexpr l etab = (Err refused, etab))
  ∧ (type_name l = "PReLU" → attrs l !! "alpha" = None →
     _convert_advanced_activation inexpr l etab =
       (Err (AssertionError "alpha required for PReLU."), etab)).
Proof.
  intros H Hne refused.
  pose proof (check_data_format_fails l data_format H Hne) as Hc.
  assert (Hprelu : type_name l = "PReLU" →
    _convert_advanced_activation inexpr l etab =
      (alpha ← lift (match attrs l !! "alpha" with
                     | Some alpha => Ok alpha
                     | None => Err (AssertionError "alpha required for PReLU.")
                     end);
       _ ← lift (_check_data_format l);
       raise (A := pyexprs) refused) etab).
  { intros Hty. unfold _convert_advanced_activation.
    repeat (destruct (decide (type_name l = _)) as [E|E];
            [rewrite Hty in E; try discriminate E; clear E
            |try contradiction; clear E]).
    destruct (attrs l !! "alpha") as [alpha|]; [|reflexivity].
    rewrite (bind_lift_Ok _ alpha) by reflexivity.
    rewrite Hc. reflexivity. }
  unfold _convert_convolution, _convert_separable_convolution, _convert_lstm,
    _convert_simple_rnn, _convert_gru, _convert_flatten, _convert_pooling,
    _convert_upsample, _convert_cropping, _convert_padding, _convert_concat,
    _convert_reshape.
  rewrite Hc.
  do 12 (split; [reflexivity|]).
  split; intros Hty Halpha; rewrite (Hprelu Hty).
  - destruct Halpha as [alpha ->].
    rewrite (bind_lift_Ok _ alpha) by reflexivity. rewrite Hc. reflexivity.
  - rewrite Halpha. reflexivity.
Qed.

Definition channels_first_layer : Layer :=
  mkLayer "Flatten" false "flatten_1" []
    (list_to_map [("data_format", PyStr "channels_first")]) None (Some []).

Lemma data_format_refused_witness :
  _convert_flatten (One (EVar "x" None)) channels_first_layer =
    Err (ValueError
           "Keras frontend currently supports data_format = channels_last only.").
Proof.
  refine (proj1 (proj2 (proj2 (proj2 (proj2 (proj2
            (data_format_refused channels_first_layer (PyStr "channels_first")
               (One (EVar "x" None)) ExprTable_new _ _))))))).
  - vm_compute. reflexivity.
  - reflexivity.
Defined.

(** ** The simple activations *)

Definition supported_activations : list string :=
  ["linear"; "softmax"; "sigmoid"; "tanh"; "relu"; "softplus"; "elu"; "selu";
   "relu6"; "softsign"; "hard_sigmoid"].

(** X5: called with an identifier string on one expression, the simple
    activation lowerer returns exactly for the eleven identifiers it
    knows, and then one expression; every other identifier is refused with
    a [TypeError] that names it. *)
Theorem convert_activation_support (x : expr) (id : string) :
  (id ∈ supported_activations →
     ∃ e, _convert_activation (One x) (IsStr id) = Ok (One e))
  ∧ (id ∉ supported_activations →
     _convert_activation (One x) (IsStr id) =
       Err (TypeError ("Unsupported activation type : " ++ id))).
Proof.
  unfold supported_activations. split.
  - intros Hin.
    repeat (apply elem_of_cons in Hin as [->|Hin]; [eexists; reflexivity|]).
    apply elem_of_nil in Hin. contradiction.
  - intros Hnot. repeat (apply not_elem_of_cons in Hnot as [? Hnot]).
    unfold _convert_activation. cbn [act_type_of mbind result_bind].
    repeat (destruct (decide (id = _)); [congruence|]). reflexivity.
Qed.

(** ** The advanced activations *)

(** X6: what the advanced activations do for a layer that lacks its
    coefficient: [LeakyReLU] without [alpha] fails with [AttributeError],
    [PReLU] without [alpha] fails the assertion, while [ELU] and
    [ThresholdedReLU] fall back to the coefficient 1. *)
Theorem advanced_activation_missing_coefficient (x : expr) (l : Layer)
    (etab : ExprTable) :
  let lowered := _convert_advanced_activation (One x) l etab in
  (type_name l = "LeakyReLU" → attrs l !! "alpha" = None →
     lowered = (Err (AttributeError "alpha"), etab))
  ∧ (type_name l = "PReLU" → attrs l !! "alpha" = None →
     lowered = (Err (AssertionError "alpha required for PReLU."), etab))
  ∧ (type_name l = "ELU" → attrs l !! "alpha" = None →
     lowered =
       (Ok (One (_get_elu x (_expr.const (PyFloat 1) (Some "float32")))), etab))
  ∧ (type_name l = "ThresholdedReLU" → attrs l !! "theta" = None →
     lowered =
       (Ok (One (_op.multiply x
                   (_op.astype
                      (_op.greater x (_expr.const (PyFloat 1) (Some "float32")))
                      "float32"))), etab)).
Proof.
  intros lowered. unfold lowered, _convert_advanced_activation.
  repeat split; intros -> Hnone; cbn [decide]; simpl;
    unfold getattr, attr_or; rewrite Hnone; reflexivity.
Qed.

(** X7: only [PReLU] registers a constant: for every other kind, known or
    not, the advanced-activation converter leaves the table as it is,
    whether it returns or raises, and a kind it does not know is refused
    with a [TypeError] that names it. *)
Theorem advanced_activation_table (inexpr : pyexprs) (l : Layer)
    (etab : ExprTable) :
  (type_name l ≠ "PReLU" →
     (_convert_advanced_activation inexpr l etab).2 = etab)
  ∧ (type_name l ∉ ["ReLU"; "LeakyReLU"; "ELU"; "PReLU"; "ThresholdedReLU"] →
     _convert_advanced_activation inexpr l etab =
       (Err (TypeError ("Unsupported advanced activation type : " ++ type_name l)),
        etab)).
Proof.
  unfold _convert_advanced_activation. split.
  - intros Hne.
    repeat (destruct (decide (type_name l = _)); [try reflexivity; contradiction|]).
    reflexivity.
  - intros Hnot. repeat (apply not_elem_of_cons in Hnot as [? Hnot]).
    repeat (destruct (decide (type_name l = _)); [contradiction|]). reflexivity.
Qed.

Lemma roll_range_perm (n : nat) : np_roll_range_1 n ≡ₚ seq 0 n.
Proof.
  destruct n as [|k]; [reflexivity|]. cbn [np_roll_range_1].
  rewrite seq_S. simpl. apply Permutation_cons_append.
Qed.

Lemma shape_of_prefix (shape : list Z) (k : nat) :
  (k <= length shape)%nat →
  (fun i => default 0 (shape !! i)) <$> seq 0 k = take k shape.
Proof.
  revert shape. induction k as [|k IH]; intros shape Hk; [reflexivity|].
  rewrite seq_S, fmap_app. simpl. rewrite IH by lia.
  destruct (lookup_lt_is_Some_2 shape k ltac:(lia)) as [d Hd].
  rewrite Hd. simpl. symmetry. by apply take_S_r.
Qed.

(** X8: [PReLU] registers its learned coefficients with the last axis
    moved to the front (channels last to channels first): for coefficients
    of shape [dims ++ [c]] the registered constant has shape [c :: dims],
    and the lowering is [-alpha * relu(-x) + relu(x)] on that constant. *)
Theorem prelu_channels_first (x : expr) (l : Layer) (etab : ExprTable)
    (alpha_shape dims : list Z) (c : Z) (w : ndarray) (ws : list ndarray) :
  type_name l = "PReLU" →
  attrs l !! "alpha" = Some (PyVariable alpha_shape) →
  _check_data_format l = Ok tt →
  get_weights l = w :: ws →
  np_shape w = (dims ++ [c])%list →
  length alpha_shape = length (np_shape w) →
  let axes := np_roll_range_1 (length alpha_shape) in
  let alpha := EVar (fresh_name etab) (Some (c :: dims)) in
  _convert_advanced_activation (One x) l etab =
    (Ok (One (_op.add
                (_op.multiply (_op.negative alpha) (_op.nn.relu (_op.negative x)))
                (_op.nn.relu x))),
     mkExprTable (exprs etab)
       (<[fresh_name etab := NdTranspose w axes]> (params etab))).
Proof.
  intros Hty Halpha Hfmt Hws Hshape Hlen axes alpha.
  assert (Hshape' : np_shape (NdTranspose w axes) = c :: dims).
  { cbn [np_shape]. unfold axes. rewrite Hlen, Hshape, length_app.
    cbn [length]. rewrite Nat.add_1_r. cbn [np_roll_range_1 fmap list_fmap].
    rewrite lookup_app_r by lia. rewrite Nat.sub_diag. cbn [lookup list_lookup default].
    f_equal. change (list_fmap nat Z ?f ?l) with (f <$> l).
    rewrite shape_of_prefix by (rewrite length_app; lia).
    by rewrite take_app_length. }
  unfold _convert_advanced_activation.
  repeat (destruct (decide (type_name l = _)) as [E|E];
          [rewrite Hty in E; try discriminate E; clear E
          |try contradiction; clear E]).
  rewrite Halpha.
  rewrite (bind_lift_Ok _ (PyVariable alpha_shape)) by reflexivity.
  rewrite (bind_lift_Ok _ tt) by exact Hfmt.
  rewrite (bind_lift_Ok _ (length alpha_shape)) by reflexivity.
  rewrite (bind_lift_Ok _ (NdTranspose w axes)); cycle 1.
  { rewrite Hws. cbn [list_index lookup list_lookup mbind result_bind].
    apply np_transpose_Ok. rewrite <- Hlen. apply roll_range_perm. }
  rewrite bind_new_const. rewrite Hshape'. reflexivity.
Qed.

Definition prelu_layer : Layer :=
  mkLayer "PReLU" false "p_re_lu_1" [NdWeights "alpha" [8; 8; 3]]
    (list_to_map [("alpha", PyVariable [8; 8; 3])]) None (Some []).

Lemma prelu_channels_first_witness :
  ∃ out, _convert_advanced_activation (One (EVar "x" None)) prelu_layer
           ExprTable_new =
           (Ok out,
            mkExprTable ∅
              {[ "_param" := NdTranspose (NdWeights "alpha" [8; 8; 3])
                               [2; 0; 1]%nat ]})
         ∧ np_shape (NdTranspose (NdWeights "alpha" [8; 8; 3]) [2; 0; 1]%nat)
           = [3; 8; 8].
Proof.
  eexists. split; [|reflexivity].
  rewrite (prelu_channels_first (EVar "x" None) prelu_layer ExprTable_new
             [8; 8; 3] [8; 8] 3 (NdWeights "alpha" [8; 8; 3]) []);
    [vm_compute; reflexivity|reflexivity..].
Defined.

(** ** The merge layers *)

(** The operator a folding merge applies. *)
Definition merge_op (merge_type : string) : expr → expr → expr :=
  if decide (merge_type = "Add") then _op.add
  else if decide (merge_type = "Multiply") then _op.multiply
  else _op.maximum.

Lemma merge_fold (l : Layer) (x : expr) (xs : list expr) :
  type_name l ∈ ["Add"; "Multiply"; "Maximum"] →
  _convert_merge (Many (x :: xs)) l =
    Ok (One (foldl (merge_op (type_name l)) x xs)).
Proof.
  intros Hty. unfold _convert_merge.
  cbn [mbind result_bind list_index lookup list_lookup].
  destruct (decide (type_name l = "Subtract")) as [E|_].
  { rewrite E in Hty.
    repeat (apply elem_of_cons in Hty as [Hty|Hty]; [discriminate Hty|]).
    by apply elem_of_nil in Hty. }
  destruct (decide (type_name l ∈ ["Add"; "Multiply"; "Maximum"])); [|contradiction].
  reflexivity.
Qed.

(** X9: [Add], [Multiply] and [Maximum] fold their inputs from the left:
    a single input is returned as it is, and one more input at the end
    wraps the merge of the inputs before it in one more operator call. *)
Theorem merge_left_fold (l : Layer) (x y r : expr) (xs : list expr) :
  type_name l ∈ ["Add"; "Multiply"; "Maximum"] →
  _convert_merge (Many [x]) l = Ok (One x)
  ∧ (_convert_merge (Many (x :: xs)) l = Ok (One r) →
     _convert_merge (Many (x :: xs ++ [y])) l =
       Ok (One (merge_op (type_name l) r y))).
Proof.
  intros Hty. split; [apply (merge_fold l x [] Hty)|].
  rewrite (merge_fold l x xs Hty), (merge_fold l x (xs ++ [y]) Hty).
  intros [= <-]. rewrite foldl_app. reflexivity.
Qed.

Definition add_layer : Layer :=
  mkLayer "Add" false "add_1" [] ∅ None (Some []).

Lemma merge_left_fold_witness :
  _convert_merge (Many [EVar "a" None; EVar "b" None; EVar "c" None]) add_layer =
    Ok (One (_op.add (_op.add (EVar "a" None) (EVar "b" None)) (EVar "c" None))).
Proof.
  refine (proj2 (merge_left_fold add_layer (EVar "a" None) (EVar "c" None)
                   (_op.add (EVar "a" None) (EVar "b" None)) [EVar "b" None] _) _).
  - apply (bool_decide_unpack _). vm_compute. reflexivity.
  - reflexivity.
Defined.

(** X10: [Subtract] takes exactly two inputs: it returns, with the
    difference of the first and the second, for a list of two and fails
    its assertion for a list of any other positive length; every merge
    fails on an empty list with [IndexError], before it looks at the
    layer's kind. *)
Theorem merge_arity (l : Layer) (x : expr) (xs : list expr) :
  (type_name l = "Subtract" →
     (∀ y, xs = [y] →
        _convert_merge (Many (x :: xs)) l = Ok (One (_op.subtract x y)))
     ∧ (length xs ≠ 1%nat →
        _convert_merge (Many (x :: xs)) l =
          Err (AssertionError "Subtract merge takes 2 inputs.")))
  ∧ _convert_merge (Many []) l = Err (IndexError "index out of range").
Proof.
  split; [|reflexivity].
  intros Hty. unfold _convert_merge.
  cbn [mbind result_bind list_index lookup list_lookup].
  destruct (decide (type_name l = "Subtract")); [|contradiction].
  split.
  - intros y ->. reflexivity.
  - intros Hlen. cbn [length].
    destruct (decide (S (length xs) = 2%nat)); [lia|reflexivity].
Qed.

(** X11: [Average] divides the left-folded sum of its inputs by their
    number, as a float32 constant; a kind that is no merge is refused
    with a [TypeError] that names it. *)
Theorem merge_average (l : Layer) (x : expr) (xs : list expr) :
  (type_name l = "Average" →
     _convert_merge (Many (x :: xs)) l =
       Ok (One (_op.divide (foldl _op.add x xs)
                  (_expr.const (PyInt (Z.of_nat (S (length xs))))
                     (Some "float32")))))
  ∧ (type_name l ∉ ["Subtract"; "Add"; "Multiply"; "Maximum"; "Average"] →
     _convert_merge (Many (x :: xs)) l =
       Err (TypeError ("Unsupported merge type : " ++ type_name l))).
Proof.
  unfold _convert_merge.
  cbn [mbind result_bind list_index lookup list_lookup].
  split.
  - intros Hty. rewrite Hty.
    destruct (decide ("Average" = "Subtract")) as [E|_]; [discriminate E|].
    destruct (decide ("Average" ∈ ["Add"; "Multiply"; "Maximum"])) as [E|_].
    { repeat (apply elem_of_cons in E as [E|E]; [discriminate E|]).
      by apply elem_of_nil in E. }
    destruct (decide ("Average" = "Average")); [reflexivity|contradiction].
  - intros Hnot.
    apply not_elem_of_cons in Hnot as [H1 Hnot].
    destruct (decide (type_name l = "Subtract")); [contradiction|].
    destruct (decide (type_name l ∈ ["Add"; "Multiply"; "Maximum"])) as [E|_].
    { exfalso. repeat (apply not_elem_of_cons in Hnot as [? Hnot]).
      repeat (apply elem_of_cons in E as [E|E]; [contradiction|]).
      by apply elem_of_nil in E. }
    repeat (apply not_elem_of_cons in Hnot as [? Hnot]).
    destruct (decide (type_name l = "Average")); [contradiction|reflexivity].
Qed.

(** ** Pooling *)

Lemma getattr_Some (l : Layer) (attr : string) (v : pyval) :
  attrs l !! attr = Some v → getattr l attr = Ok v.
Proof. intros H. unfold getattr. rewrite H. reflexivity. Qed.

(** X12: a max or average pooling never pads its input by an operation
    of its own: with ["same"] padding the four pads of the padding
    calculator go into the padding parameter in the order top, left,
    bottom, right, also when they are asymmetric, and with ["valid"]
    padding the parameter stays [0, 0]; an average pooling moreover
    excludes the pads from its counts. *)
Theorem pooling_padding (x : expr) (l : Layer) (ph pw sh sw : Z)
    (padding : pyval) :
  type_name l ∈ ["MaxPooling2D"; "AveragePooling2D"] →
  _check_data_format l = Ok tt →
  attrs l !! "pool_size" = Some (PyTuple [PyInt ph; PyInt pw]) →
  attrs l !! "strides" = Some (PyTuple [PyInt sh; PyInt sw]) →
  attrs l !! "padding" = Some padding →
  let pool (pad : pyval) : expr :=
    let kwargs := [("pool_size", PyList [PyInt ph; PyInt pw]);
                   ("strides", PyList [PyInt sh; PyInt sw]);
                   ("padding", pad)] in
    if decide (type_name l = "MaxPooling2D")
    then _op.nn.max_pool2d x kwargs
    else _op.nn.avg_pool2d x
           (kwargs ++ [("count_include_pad", PyBool false)])%list in
  (padding = PyStr "valid" →
     _convert_pooling (One x) l = Ok (One (pool (PyList [PyInt 0; PyInt 0]))))
  ∧ (padding = PyStr "same" →
     ∀ batch in_h in_w channels pad_t pad_b pad_l pad_r,
       attrs l !! "input_shape" =
         Some (PyTuple [batch; PyInt in_h; PyInt in_w; channels]) →
       _get_pad_pair in_h ph sh = Ok (pad_t, pad_b) →
       _get_pad_pair in_w pw sw = Ok (pad_l, pad_r) →
       _convert_pooling (One x) l =
         Ok (One (pool (PyList [PyInt pad_t; PyInt pad_l;
                                PyInt pad_b; PyInt pad_r]))))
  ∧ (py_eqb padding (PyStr "valid") = false →
     py_eqb padding (PyStr "same") = false →
     _convert_pooling (One x) l =
       Err (TypeError "Unsupported padding type : {}")).
Proof.
  intros Hty Hfmt Hpool Hstr Hpad pool.
  assert (Hkind : type_name l = "MaxPooling2D" ∨ type_name l = "AveragePooling2D").
  { repeat (apply elem_of_cons in Hty as [Hty|Hty]; [auto|]).
    by apply elem_of_nil in Hty. }
  unfold _convert_pooling. rewrite Hfmt.
  rewrite (getattr_Some _ _ _ Hpool), (getattr_Some _ _ _ Hstr),
    (getattr_Some _ _ _ Hpad).
  cbn [mbind result_bind unpack2 py_items].
  destruct (decide (type_name l = "GlobalMaxPooling2D")) as [E|_];
    [destruct Hkind as [K|K]; rewrite K in E; discriminate E|].
  destruct (decide (type_name l = "GlobalAveragePooling2D")) as [E|_];
    [destruct Hkind as [K|K]; rewrite K in E; discriminate E|].
  split; [|split].
  - intros ->. cbn [py_eqb py_num String.eqb Ascii.eqb Bool.eqb].
    unfold pool. destruct Hkind as [K|K]; rewrite K; reflexivity.
  - intros -> batch in_h in_w channels pad_t pad_b pad_l pad_r Hin Ht Hl.
    rewrite (getattr_Some _ _ _ Hin).
    cbn [py_eqb py_num String.eqb Ascii.eqb Bool.eqb mbind result_bind
         py_index list_index lookup list_lookup as_int].
    rewrite Ht, Hl. cbn [mbind result_bind].
    unfold pool. destruct Hkind as [K|K]; rewrite K; reflexivity.
  - intros Hv Hs. rewrite Hv, Hs. reflexivity.
Qed.

Definition max_pool_same_layer : Layer :=
  mkLayer "MaxPooling2D" false "max_pooling2d_1" []
    (list_to_map [("pool_size", PyTuple [PyInt 3; PyInt 3]);
                  ("strides", PyTuple [PyInt 2; PyInt 2]);
                  ("padding", PyStr "same");
                  ("data_format", PyStr "channels_last");
                  ("input_shape",
                   PyTuple [PyNone; PyInt 112; PyInt 112; PyInt 64])])
    None (Some []).

Lemma pooling_padding_witness :
  _convert_pooling (One (EVar "x" None)) max_pool_same_layer =
    Ok (One (_op.nn.max_pool2d (EVar "x" None)
               [("pool_size", PyList [PyInt 3; PyInt 3]);
                ("strides", PyList [PyInt 2; PyInt 2]);
                ("padding", PyList [PyInt 0; PyInt 0; PyInt 1; PyInt 1])])).
Proof.
  refine (proj1 (proj2 (pooling_padding (EVar "x" None) max_pool_same_layer
                          3 3 2 2 (PyStr "same") _ _ _ _ _))
            eq_refl PyNone 112 112 (PyInt 64) 0 1 0 1 _ _ _);
    try reflexivity.
  apply (bool_decide_unpack _). vm_compute. reflexivity.
Defined.

(** X13: a global pooling is the global pool followed by the flattening
    of [_convert_flatten] (transpose to NHWC, then batch flatten), and it
    reads no attribute but the data format; [_convert_pooling] returns
    for no kind other than the four 2D ones. *)
Theorem pooling_kinds (inexpr : pyexprs) (x : expr) (l : Layer) :
  (_check_data_format l = Ok tt →
     (type_name l = "GlobalMaxPooling2D" →
        _convert_pooling (One x) l =
          Ok (One (_op.nn.batch_flatten
                     (_op.transpose (_op.nn.global_max_pool2d x) [0; 2; 3; 1]))))
     ∧ (type_name l = "GlobalAveragePooling2D" →
        _convert_pooling (One x) l =
          Ok (One (_op.nn.batch_flatten
                     (_op.transpose (_op.nn.global_avg_pool2d x) [0; 2; 3; 1])))))
  ∧ (type_name l ∉ ["GlobalMaxPooling2D"; "GlobalAveragePooling2D";
                     "MaxPooling2D"; "AveragePooling2D"] →
     ∀ out, _convert_pooling inexpr l ≠ Ok out).
Proof.
  split.
  - intros Hfmt. unfold _convert_pooling, _convert_flatten. rewrite Hfmt.
    cbn [mbind result_bind the_expr]. split; intros Hty; rewrite Hty.
    + destruct (decide ("GlobalMaxPooling2D" = "GlobalMaxPooling2D"));
        [reflexivity|contradiction].
    + destruct (decide ("GlobalAveragePooling2D" = "GlobalMaxPooling2D")) as [E|_];
        [discriminate E|].
      destruct (decide ("GlobalAveragePooling2D" = "GlobalAveragePooling2D"));
        [reflexivity|contradiction].
  - intros Hnot out.
    repeat (apply not_elem_of_cons in Hnot as [? Hnot]).
    unfold _convert_pooling.
    destruct (_check_data_format l) as [[]|]; [|discriminate].
    cbn [mbind result_bind].
    destruct (decide (type_name l = "GlobalMaxPooling2D")); [contradiction|].
    destruct (decide (type_name l = "GlobalAveragePooling2D")); [contradiction|].
    destruct (_ ← getattr l "pool_size"; _) as [[pool_h pool_w]|]; [|discriminate].
    cbn [mbind result_bind].
    destruct (_ ← getattr l "strides"; _) as [[stride_h stride_w]|]; [|discriminate].
    cbn [mbind result_bind].
    destruct (getattr l "padding") as [padding|]; [|discriminate].
    cbn [mbind result_bind].
    match goal with
    | |- ?r ≫= _ ≠ _ => destruct r as [kwargs|]; [|discriminate]
    end.
    cbn [mbind result_bind].
    destruct (decide (type_name l = "MaxPooling2D")); [contradiction|].
    destruct (decide (type_name l = "AveragePooling2D")); [contradiction|].
    discriminate.
Qed.

(** ** Zero padding, upsampling, cropping and reshape *)

(** X14: the three forms of the padding of a [ZeroPadding2D] layer: an
    int pads the four sides alike, a pair of ints [(a, b)] pads top and
    bottom by [a] and left and right by [b], and a pair of pairs gives
    (top, bottom) and (left, right); the batch and channel axes are never
    padded, and a padding held as a list is refused. *)
Theorem zero_padding_forms (x : expr) (l : Layer) (padding : pyval) :
  type_name l = "ZeroPadding2D" →
  _check_data_format l = Ok tt →
  attrs l !! "padding" = Some padding →
  let pad (top bottom left_ right_ : Z) :=
    Ok (One (_op.nn.pad x [(PyInt 0, PyInt 0); (PyInt 0, PyInt 0);
                           (PyInt top, PyInt bottom);
                           (PyInt left_, PyInt right_)])) in
  (∀ p, padding = PyInt p → _convert_padding (One x) l = pad p p p p)
  ∧ (∀ a b, padding = PyTuple [PyInt a; PyInt b] →
       _convert_padding (One x) l = pad a a b b)
  ∧ (∀ t b le ri,
       padding = PyTuple [PyTuple [PyInt t; PyInt b];
                          PyTuple [PyInt le; PyInt ri]] →
       _convert_padding (One x) l = pad t b le ri)
  ∧ (∀ xs, padding = PyList xs →
       ∃ msg, _convert_padding (One x) l = Err (ValueError msg)).
Proof.
  intros Hty Hfmt Hpad pad. unfold _convert_padding.
  rewrite Hfmt, (getattr_Some _ _ _ Hpad), Hty.
  cbn [mbind result_bind].
  destruct (decide ("ZeroPadding2D" = "ZeroPadding2D")); [|contradiction].
  repeat split.
  - intros p ->. reflexivity.
  - intros a b ->. reflexivity.
  - intros t b le ri ->. reflexivity.
  - intros xs ->. eexists. reflexivity.
Qed.

Definition zero_padding_layer : Layer :=
  mkLayer "ZeroPadding2D" false "zero_padding2d_1" []
    (list_to_map [("padding", PyTuple [PyInt 3; PyInt 2]);
                  ("data_format", PyStr "channels_last")])
    None (Some []).

Lemma zero_padding_forms_witness :
  _convert_padding (One (EVar "x" None)) zero_padding_layer =
    Ok (One (_op.nn.pad (EVar "x" None)
               [(PyInt 0, PyInt 0); (PyInt 0, PyInt 0);
                (PyInt 3, PyInt 3); (PyInt 2, PyInt 2)])).
Proof.
  refine (proj1 (proj2 (zero_padding_forms (EVar "x" None) zero_padding_layer
                          (PyTuple [PyInt 3; PyInt 2]) _ _ _)) 3 2 eq_refl);
    reflexivity.
Defined.

(** X15: an [UpSampling2D] layer is converted exactly when its two
    factors are equal, to an upsampling by that one factor; with
    different factors it fails with a [TypeError] and builds nothing. *)
Theorem upsample_equal_factors (x : expr) (l : Layer) (h w : pyval) :
  type_name l = "UpSampling2D" →
  _check_data_format l = Ok tt →
  attrs l !! "size" = Some (PyTuple [h; w]) →
  (py_eqb h w = true →
     _convert_upsample (One x) l =
       Ok (One (_op.nn.upsampling x [("scale", h)])))
  ∧ (py_eqb h w = false →
     ∃ msg, _convert_upsample (One x) l = Err (TypeError msg)).
Proof.
  intros Hty Hfmt Hsize. unfold _convert_upsample.
  rewrite Hfmt, (getattr_Some _ _ _ Hsize), Hty.
  cbn [mbind result_bind unpack2 py_items].
  destruct (decide ("UpSampling2D" = "UpSampling1D")) as [E|_]; [discriminate E|].
  destruct (decide ("UpSampling2D" = "UpSampling2D")); [|contradiction].
  split; intros ->; [reflexivity|eexists; reflexivity].
Qed.

Definition upsampling_layer : Layer :=
  mkLayer "UpSampling2D" false "up_sampling2d_1" []
    (list_to_map [("size", PyTuple [PyInt 2; PyInt 2]);
                  ("data_format", PyStr "channels_last")])
    None (Some []).

Lemma upsample_equal_factors_witness :
  _convert_upsample (One (EVar "x" None)) upsampling_layer =
    Ok (One (_op.nn.upsampling (EVar "x" None) [("scale", PyInt 2)])).
Proof.
  refine (proj1 (upsample_equal_factors (EVar "x" None) upsampling_layer
                   (PyInt 2) (PyInt 2) _ _ _) _); reflexivity.
Defined.

(** X16: a [Cropping2D] layer becomes one strided slice that keeps the
    batch and channel axes whole (from 0 to the largest int32) and the
    rows [crop_t .. in_h - crop_b) and columns [crop_l .. in_w - crop_r);
    it needs the input height and width: an unknown one ([None]) makes
    the conversion fail with a [TypeError]. *)
Theorem cropping_slice (x : expr) (l : Layer)
    (batch in_h in_w channels : pyval) (crop_t crop_b crop_l crop_r : Z) :
  type_name l = "Cropping2D" →
  _check_data_format l = Ok tt →
  attrs l !! "input_shape" = Some (PyTuple [batch; in_h; in_w; channels]) →
  attrs l !! "cropping" =
    Some (PyTuple [PyTuple [PyInt crop_t; PyInt crop_b];
                   PyTuple [PyInt crop_l; PyInt crop_r]]) →
  (∀ h w, in_h = PyInt h → in_w = PyInt w →
     _convert_cropping (One x) l =
       Ok (One (_op.strided_slice x
                  [PyInt 0; PyInt 0; PyInt crop_t; PyInt crop_l]
                  [PyInt 2147483647; PyInt 2147483647;
                   PyInt (h - crop_b); PyInt (w - crop_r)])))
  ∧ (in_h = PyNone ∨ in_w = PyNone →
     ∃ msg, _convert_cropping (One x) l = Err (TypeError msg)).
Proof.
  intros Hty Hfmt Hin Hcrop. unfold _convert_cropping.
  rewrite Hfmt, (getattr_Some _ _ _ Hin), (getattr_Some _ _ _ Hcrop), Hty.
  cbn [mbind result_bind unpack2 unpack4 py_items].
  destruct (decide ("Cropping2D" = "Cropping1D")) as [E|_]; [discriminate E|].
  destruct (decide ("Cropping2D" = "Cropping2D")); [|contradiction].
  cbn [mbind result_bind as_int].
  split.
  - intros h w -> ->. reflexivity.
  - intros [->| ->].
    + eexists. reflexivity.
    + destruct in_h; eexists; reflexivity.
Qed.

Definition cropping_layer : Layer :=
  mkLayer "Cropping2D" false "cropping2d_1" []
    (list_to_map [("cropping", PyTuple [PyTuple [PyInt 1; PyInt 2];
                                        PyTuple [PyInt 3; PyInt 4]]);
                  ("input_shape",
                   PyTuple [PyNone; PyInt 32; PyInt 32; PyInt 3])])
    None (Some []).

Lemma cropping_slice_witness :
  _convert_cropping (One (EVar "x" None)) cropping_layer =
    Ok (One (_op.strided_slice (EVar "x" None)
               [PyInt 0; PyInt 0; PyInt 1; PyInt 3]
               [PyInt 2147483647; PyInt 2147483647; PyInt 30; PyInt 28])).
Proof.
  refine (proj1 (cropping_slice (EVar "x" None) cropping_layer
                   PyNone (PyInt 32) (PyInt 32) (PyInt 3) 1 2 3 4 _ _ _ _)
            32 32 eq_refl eq_refl); reflexivity.
Defined.

(** X17: a [Reshape] layer is converted only when the last dimension of
    its target shape equals the channel number of its input; the new
    shape then puts a free batch dimension and the channels before the
    other target dimensions (channels first), and otherwise the
    assertion fails. *)
Theorem reshape_channels_first (x : expr) (l : Layer)
    (input_dims target_dims : list pyval) (ch t : pyval) :
  _check_data_format l = Ok tt →
  attrs l !! "input_shape" = Some (PyTuple (input_dims ++ [ch])) →
  attrs l !! "target_shape" = Some (PyTuple (target_dims ++ [t])) →
  (py_eqb ch t = true →
     _convert_reshape (One x) l =
       Ok (One (_op.reshape x (PyInt (-1) :: ch :: target_dims))))
  ∧ (py_eqb ch t = false →
     ∃ msg, _convert_reshape (One x) l = Err (AssertionError msg)).
Proof.
  intros Hfmt Hin Htarget. unfold _convert_reshape.
  rewrite Hfmt, (getattr_Some _ _ _ Hin), (getattr_Some _ _ _ Htarget).
  cbn [mbind result_bind py_last]. unfold list_last.
  rewrite !last_snoc. cbn [mbind result_bind].
  split; intros ->; cbn [negb].
  - rewrite removelast_last. reflexivity.
  - eexists. reflexivity.
Qed.

Definition reshape_layer : Layer :=
  mkLayer "Reshape" false "reshape_1" []
    (list_to_map [("input_shape", PyTuple [PyNone; PyInt 12; PyInt 5]);
                  ("target_shape", PyTuple [PyInt 3; PyInt 4; PyInt 5])])
    None (Some []).

Lemma reshape_channels_first_witness :
  _convert_reshape (One (EVar "x" None)) reshape_layer =
    Ok (One (_op.reshape (EVar "x" None)
               [PyInt (-1); PyInt 5; PyInt 3; PyInt 4])).
Proof.
  refine (proj1 (reshape_channels_first (EVar "x" None) reshape_layer
                   [PyNone; PyInt 12] [PyInt 3; PyInt 4] (PyInt 5) (PyInt 5)
                   _ _ _) _); reflexivity.
Defined.

(** ** The bias and the fused activation *)

Lemma py_eqb_int (a b : Z) : py_eqb (PyInt a) (PyInt b) = bool_decide (a = b).
Proof.
  cbn [py_eqb py_num]. destruct (bool_decide_reflect (a = b)) as [->|Hne].
  - apply Qeq_bool_iff. reflexivity.
  - apply not_true_is_false. intros H%Qeq_bool_iff.
    unfold Qeq, inject_Z in H. cbn [Qnum Qden] in H. lia.
Qed.

(** X18: the lines that end the dense and convolution converters.  A
    fused ['linear'] activation adds no operation (where an [Activation]
    layer would multiply by alpha and add beta), and any other fused
    activation is lowered from its identifier alone, so with default
    coefficients whatever the layer's attributes say.  The bias, when the
    layer uses one, is registered as one more constant and added before
    the activation; without a bias the table is left as it is. *)
Theorem bias_and_fused_activation (out : expr) (l : Layer) (bias_index : nat)
    (etab : ExprTable) (use_bias : pyval) (biased : bool) (id : string) :
  attrs l !! "use_bias" = Some use_bias →
  truthy use_bias = Ok biased →
  attrs l !! "activation" = Some (PyStr id) →
  let fused (e : expr) : result expr :=
    if decide (id = "linear") then Ok e
    else r ← _convert_activation (One e) (IsStr id); the_expr r in
  (biased = false →
     bias_and_activation out l bias_index etab = (fused out, etab))
  ∧ (biased = true →
     ∀ b, get_weights l !! bias_index = Some b →
       bias_and_activation out l bias_index etab =
         (fused (_op.nn.bias_add out
                   (EVar (fresh_name etab) (Some (np_shape b)))),
          mkExprTable (exprs etab) (<[fresh_name etab := b]> (params etab)))).
Proof.
  intros Hbias Htruthy Hact fused.
  assert (Hfused : ∀ e, defuse_activation e l = fused e).
  { intros e. unfold defuse_activation, getattr_name.
    rewrite (getattr_Some _ _ _ Hact). cbn [mbind result_bind]. unfold fused.
    destruct (decide (id = "linear")) as [->|Hid].
    - destruct (decide ("linear" ≠ "linear")); [contradiction|reflexivity].
    - destruct (decide (id ≠ "linear")); [reflexivity|contradiction]. }
  unfold bias_and_activation.
  rewrite (bind_lift_Ok _ biased)
    by (rewrite (getattr_Some _ _ _ Hbias); exact Htruthy).
  split.
  - intros ->. rewrite bind_ret. unfold lift. rewrite Hfused. reflexivity.
  - intros -> b Hb. rewrite bind_assoc.
    rewrite (bind_lift_Ok _ b) by (unfold list_index; rewrite Hb; reflexivity).
    rewrite bind_assoc, bind_new_const, bind_ret.
    unfold lift. rewrite Hfused. reflexivity.
Qed.

Definition dense_elu_layer : Layer :=
  mkLayer "Dense" false "dense_1"
    [NdWeights "kernel" [4; 2]; NdWeights "bias" [2]]
    (list_to_map [("use_bias", PyBool true);
                  ("activation", PyStr "elu");
                  ("alpha", PyFloat 0.3);
                  ("input_shape", PyTuple [PyNone; PyInt 4])])
    None (Some []).

Lemma bias_and_fused_activation_witness :
  bias_and_activation (EVar "y" None) dense_elu_layer 1 ExprTable_new =
    (Ok (_get_elu (_op.nn.bias_add (EVar "y" None) (EVar "_param" (Some [2])))
           (_expr.const (PyFloat 1) (Some "float32"))),
     mkExprTable ∅ {[ "_param" := NdWeights "bias" [2] ]}).
Proof.
  rewrite (proj2 (bias_and_fused_activation (EVar "y" None) dense_elu_layer 1
                    ExprTable_new (PyBool true) true "elu"
                    eq_refl eq_refl eq_refl)
             eq_refl (NdWeights "bias" [2]) eq_refl).
  vm_compute. reflexivity.
Defined.

(** ** Dense *)

(** A declared shape: each dimension is an int, or unknown ([None]). *)
Definition shape_value (dims : list (option Z)) : pyval :=
  PyTuple ((λ d, match d with Some n => PyInt n | None => PyNone end) <$> dims).

(** [dim if dim else 1]: an unknown or zero dimension is read as 1. *)
Definition dim_or_1 (d : option Z) : Z :=
  match d with
  | Some n => if decide (n = 0) then 1 else n
  | None => 1
  end.

Lemma dims_or_1_shape (dims : list (option Z)) :
  dims_or_1 (shape_value dims) = Ok ((λ d, PyInt (dim_or_1 d)) <$> dims).
Proof.
  unfold dims_or_1, shape_value. cbn [py_items mbind result_bind].
  induction dims as [|d dims IH]; [reflexivity|].
  set (f := λ dim, t ← truthy dim; Ok (if t : bool then dim else PyInt 1)) in *.
  set (v := λ d : option Z, match d with Some n => PyInt n | None => PyNone end)
    in *.
  change (mapM f (v <$> d :: dims))
    with (y ← f (v d); k ← mapM f (v <$> dims); mret (y :: k)).
  assert (Hd : f (v d) = Ok (PyInt (dim_or_1 d))).
  { unfold f, v, dim_or_1. destruct d as [n|];
      cbn [truthy mbind result_bind]; [|reflexivity].
    destruct (Z.eqb_spec n 0) as [->|Hn]; cbn [negb]; [reflexivity|].
    destruct (decide (n = 0)); [contradiction|reflexivity]. }
  rewrite IH, Hd. reflexivity.
Qed.

(** X19: a dense layer registers its kernel transposed, with [units] the
    kernel's second dimension.  An input of rank at most 2 is multiplied
    as it is.  An input of rank 3 whose first two dimensions are both
    read as 1 (each is 1, or is unknown or zero and so taken for 1) has
    its first axis squeezed before and restored after.  Every other
    declared shape of rank above 2 is refused with a [ValueError], but
    only after the kernel has been registered. *)
Theorem dense_lowering (x : expr) (l : Layer) (etab : ExprTable)
    (w : ndarray) (ws : list ndarray) (n_in units : Z)
    (dims : list (option Z)) :
  get_weights l = w :: ws →
  np_shape w = [n_in; units] →
  attrs l !! "input_shape" = Some (shape_value dims) →
  let weight := EVar (fresh_name etab) (Some [units; n_in]) in
  let etab1 :=
    mkExprTable (exprs etab)
      (<[fresh_name etab := NdTranspose w [1; 0]%nat]> (params etab)) in
  let finish (data : expr) (wrap : expr → expr) :=
    (out ← bias_and_activation (_op.nn.dense data weight (PyInt units)) l 1;
     mret (One (wrap out))) etab1 in
  let flattens := ∃ d0 d1 d2,
    dims = [d0; d1; d2] ∧ dim_or_1 d0 = 1 ∧ dim_or_1 d1 = 1 in
  ((length dims <= 2)%nat →
     _convert_dense (One x) l etab = finish x (λ out, out))
  ∧ (flattens →
     _convert_dense (One x) l etab =
       finish (_op.squeeze x (PyInt 0)) (λ out, _op.expand_dims out 0))
  ∧ ((2 < length dims)%nat → ¬ flattens →
     _convert_dense (One x) l etab =
       (Err (ValueError "Cannot flatten the inputs with shape. for dense."),
        etab1)).
Proof.
  intros Hws Hshape Hin weight etab1 finish flattens.
  unfold _convert_dense. rewrite Hws.
  rewrite (bind_lift_Ok _ (NdTranspose w [1; 0]%nat)); cycle 1.
  { cbn [list_index lookup list_lookup mbind result_bind].
    apply np_transpose_Ok. rewrite Hshape. apply perm_10. }
  rewrite bind_new_const.
  change (new_const (NdTranspose w [1; 0]%nat) etab).2 with etab1.
  assert (Hsh : np_shape (NdTranspose w [1; 0]%nat) = [units; n_in])
    by (cbn [np_shape]; rewrite Hshape; reflexivity).
  rewrite Hsh. fold weight.
  rewrite (bind_lift_Ok _ units)
    by (cbn [list_index lookup list_lookup mbind result_bind];
        rewrite Hshape; reflexivity).
  rewrite (bind_lift_Ok _ (shape_value dims)) by exact (getattr_Some _ _ _ Hin).
  rewrite (bind_lift_Ok _ (length dims))
    by (unfold shape_value, py_len; cbn [py_items mbind result_bind];
        rewrite length_fmap; reflexivity).
  assert (Hdims : (s ← list_index (_as_list_val (shape_value dims)) 0;
                   dims_or_1 s) = Ok ((λ d, PyInt (dim_or_1 d)) <$> dims)).
  { unfold shape_value at 1.
    cbn [_as_list_val list_index lookup list_lookup mbind result_bind].
    apply dims_or_1_shape. }
  split; [|split].
  - intros Hlen.
    destruct (decide (2 < length dims)%nat) as [|_]; [lia|].
    rewrite (bind_lift_Ok _ x) by reflexivity.
    destruct (decide (2 < length dims)%nat) as [|_]; [lia|].
    reflexivity.
  - intros (d0 & d1 & d2 & -> & H0 & H1).
    cbn [length]. destruct (decide (2 < 3)%nat) as [_|]; [|lia].
    rewrite (bind_lift_Ok _ (_op.squeeze x (PyInt 0))); [reflexivity|].
    rewrite Hdims. cbn [mbind result_bind fmap list_fmap].
    destruct (decide (3%nat ≠ 3%nat)); [contradiction|].
    cbn [list_index lookup list_lookup mbind result_bind].
    rewrite !py_eqb_int, H0, H1. reflexivity.
  - intros Hlen Hnot.
    destruct (decide (2 < length dims)%nat) as [_|]; [|lia].
    unfold lift at 1. cbn [mbind M_bind].
    rewrite Hdims. cbn [mbind result_bind].
    destruct (decide (length dims ≠ 3%nat)) as [|Hl]; [reflexivity|].
    destruct dims as [|d0 [|d1 [|d2 [|? ?]]]]; cbn [length] in Hl; try lia.
    cbn [fmap list_fmap list_index lookup list_lookup mbind result_bind].
    rewrite !py_eqb_int.
    destruct (bool_decide_reflect (dim_or_1 d0 = 1)) as [H0|]; [|reflexivity].
    destruct (bool_decide_reflect (dim_or_1 d1 = 1)) as [H1|]; [|reflexivity].
    destruct Hnot. exists d0, d1, d2. auto.
Qed.

Definition dense_rnn_layer : Layer :=
  mkLayer "Dense" false "dense_2" [NdWeights "kernel" [4; 2]]
    (list_to_map [("use_bias", PyBool false);
                  ("activation", PyStr "linear");
                  ("input_shape", PyTuple [PyNone; PyInt 1; PyInt 4])])
    None (Some []).

Definition dense_sequence_layer : Layer :=
  mkLayer "Dense" false "dense_3" [NdWeights "kernel" [4; 2]]
    (list_to_map [("use_bias", PyBool false);
                  ("activation", PyStr "linear");
                  ("input_shape", PyTuple [PyNone; PyInt 5; PyInt 4])])
    None (Some []).

Lemma dense_lowering_witness :
  _convert_dense (One (EVar "x" None)) dense_rnn_layer ExprTable_new =
    (Ok (One (_op.expand_dims
                (_op.nn.dense (_op.squeeze (EVar "x" None) (PyInt 0))
                   (EVar "_param" (Some [2; 4])) (PyInt 2)) 0)),
     mkExprTable ∅ {[ "_param" := NdTranspose (NdWeights "kernel" [4; 2])
                                    [1; 0]%nat ]})
  ∧ _convert_dense (One (EVar "x" None)) dense_sequence_layer ExprTable_new =
      (Err (ValueError "Cannot flatten the inputs with shape. for dense."),
       mkExprTable ∅ {[ "_param" := NdTranspose (NdWeights "kernel" [4; 2])
                                      [1; 0]%nat ]}).
Proof.
  split.
  - rewrite (proj1 (proj2 (dense_lowering (EVar "x" None) dense_rnn_layer
                             ExprTable_new (NdWeights "kernel" [4; 2]) [] 4 2
                             [None; Some 1; Some 4] eq_refl eq_refl eq_refl))).
    + vm_compute. reflexivity.
    + exists None, (Some 1), (Some 4). repeat split.
  - rewrite (proj2 (proj2 (dense_lowering (EVar "x" None) dense_sequence_layer
                             ExprTable_new (NdWeights "kernel" [4; 2]) [] 4 2
                             [None; Some 5; Some 4] eq_refl eq_refl eq_refl))).
    + vm_compute. reflexivity.
    + cbn. lia.
    + intros (d0 & d1 & d2 & [= <- <- <-] & _ & H1). discriminate H1.
Defined.

(** ** Batch normalisation *)

(** X20: batch normalisation reads its weights by position: gamma first
    when the layer scales, then beta when it centers, then the moving
    mean and the moving variance.  It registers exactly these, in this
    order, and nothing of what follows them; when the layer both scales
    and centers the result is the first output of one [batch_norm] call
    on the four constants. *)
Theorem batchnorm_weights (x : expr) (l : Layer) (etab : ExprTable)
    (epsilon scale_attr center_attr : pyval) (scale center : bool) :
  attrs l !! "epsilon" = Some epsilon →
  attrs l !! "scale" = Some scale_attr → truthy scale_attr = Ok scale →
  attrs l !! "center" = Some center_attr → truthy center_attr = Ok center →
  let used := ((if scale then 1 else 0) + (if center then 1 else 0) + 2)%nat in
  ((used <= length (get_weights l))%nat →
     (_convert_batchnorm (One x) l etab).2 =
       register_all (take used (get_weights l)) etab)
  ∧ (scale = true → center = true →
     ∀ gamma beta moving_mean moving_var rest,
       get_weights l = gamma :: beta :: moving_mean :: moving_var :: rest →
       _convert_batchnorm (One x) l etab =
         (gamma ← new_const gamma;
          beta ← new_const beta;
          moving_mean ← new_const moving_mean;
          moving_var ← new_const moving_var;
          mret (One (ETupleGetItem
                       (ECall "nn.batch_norm"
                          [x; gamma; beta; moving_mean; moving_var]
                          [("scale", PyBool true); ("center", PyBool true);
                           ("epsilon", epsilon)]) 0))) etab).
Proof.
  intros Heps Hs Hst Hc Hct used. unfold _convert_batchnorm.
  rewrite (bind_lift_Ok _ epsilon) by exact (getattr_Some _ _ _ Heps).
  rewrite (bind_lift_Ok _ scale)
    by (rewrite (getattr_Some _ _ _ Hs); exact Hst).
  split.
  - intros Hlen. unfold used in *. clear used.
    destruct (get_weights l) as [|a [|b ws]] eqn:Hws;
      cbn [length] in Hlen; try (destruct scale, center; cbn in Hlen; lia).
    destruct scale.
    + rewrite bind_assoc.
      rewrite (bind_lift_Ok _ a) by reflexivity.
      rewrite bind_assoc, bind_new_const, bind_ret.
      rewrite (bind_lift_Ok _ center)
        by (rewrite (getattr_Some _ _ _ Hc); exact Hct).
      destruct center.
      * destruct ws as [|c [|d ws]]; cbn [length] in Hlen; try lia.
        reflexivity.
      * destruct ws as [|c ws]; cbn [length] in Hlen; try lia.
        reflexivity.
    + rewrite bind_ret.
      rewrite (bind_lift_Ok _ center)
        by (rewrite (getattr_Some _ _ _ Hc); exact Hct).
      destruct center.
      * destruct ws as [|c ws]; cbn [length] in Hlen; try lia.
        reflexivity.
      * reflexivity.
  - intros -> -> gamma beta moving_mean moving_var rest Hws. rewrite Hws.
    rewrite bind_assoc.
    rewrite (bind_lift_Ok _ gamma) by reflexivity.
    rewrite bind_assoc, bind_new_const, bind_ret.
    rewrite (bind_lift_Ok _ true)
      by (rewrite (getattr_Some _ _ _ Hc); exact Hct).
    reflexivity.
Qed.

Definition batchnorm_layer : Layer :=
  mkLayer "BatchNormalization" false "batch_normalization_1"
    [NdWeights "beta" [8]; NdWeights "moving_mean" [8];
     NdWeights "moving_variance" [8]]
    (list_to_map [("epsilon", PyFloat 0.001);
                  ("scale", PyBool false);
                  ("center", PyBool true)])
    None (Some []).

Lemma batchnorm_weights_witness :
  params (_convert_batchnorm (One (EVar "x" None)) batchnorm_layer
            ExprTable_new).2 =
    {[ "_param" := NdWeights "beta" [8];
       "_param0" := NdWeights "moving_mean" [8];
       "_param1" := NdWeights "moving_variance" [8] ]}.
Proof.
  rewrite (proj1 (batchnorm_weights (EVar "x" None) batchnorm_layer
                    ExprTable_new (PyFloat 0.001) (PyBool false) (PyBool true)
                    false true eq_refl eq_refl eq_refl eq_refl eq_refl));
    [|cbn; lia].
  vm_compute. reflexivity.
Defined.

(** ** Separable convolution *)

(** X21: a separable convolution is a depthwise convolution (one group
    per input channel, [in_channels * depth_mult] output channels)
    followed by a 1x1 pointwise convolution whose channel count is the
    last dimension of the second kernel.  Both kernels are registered,
    the depthwise one first, and the bias is the third weight.  The
    depthwise kernel is never dilated, and ["same"] padding is computed
    from the kernel size as it is. *)
Theorem separable_convolution_lowering (x : expr) (l : Layer) (etab : ExprTable)
    (w0 w1 : ndarray) (ws : list ndarray)
    (kernel_h kernel_w in_channels depth_mult p_h p_w p_in n_filters sh sw : Z)
    (padding : pyval) :
  _check_data_format l = Ok tt →
  get_weights l = w0 :: w1 :: ws →
  np_shape w0 = [kernel_h; kernel_w; in_channels; depth_mult] →
  np_shape w1 = [p_h; p_w; p_in; n_filters] →
  attrs l !! "strides" = Some (PyTuple [PyInt sh; PyInt sw]) →
  attrs l !! "padding" = Some padding →
  let depthwise_kwargs (pad : pyval) :=
    [("channels", PyInt (in_channels * depth_mult));
     ("groups", PyInt in_channels);
     ("kernel_size", PyList [PyInt kernel_h; PyInt kernel_w]);
     ("strides", PyList [PyInt sh; PyInt sw]);
     ("dilation", PyList [PyInt 1; PyInt 1]);
     ("padding", pad)] in
  let pointwise_kwargs :=
    [("channels", PyInt n_filters);
     ("groups", PyInt 1);
     ("kernel_size", PyList [PyInt 1; PyInt 1]);
     ("strides", PyList [PyInt 1; PyInt 1]);
     ("dilation", PyList [PyInt 1; PyInt 1])] in
  let separable (data : expr) (pad : pyval) : M pyexprs :=
    weight0 ← new_const (NdTranspose w0 [2; 3; 0; 1]%nat);
    weight1 ← new_const (NdTranspose w1 [3; 2; 0; 1]%nat);
    out ← bias_and_activation
            (_op.nn.conv2d (_op.nn.conv2d data weight0 (depthwise_kwargs pad))
               weight1 pointwise_kwargs) l 2;
    mret (One out) in
  (padding = PyStr "valid" →
     _convert_separable_convolution (One x) l etab =
       separable x (PyList [PyInt 0; PyInt 0]) etab)
  ∧ (padding = PyStr "same" →
     ∀ batch in_h in_w channels pad_t pad_b pad_l pad_r,
       attrs l !! "input_shape" =
         Some (PyTuple [batch; PyInt in_h; PyInt in_w; channels]) →
       _get_pad_pair in_h kernel_h sh = Ok (pad_t, pad_b) →
       _get_pad_pair in_w kernel_w sw = Ok (pad_l, pad_r) →
       _convert_separable_convolution (One x) l etab =
         if decide (pad_t = pad_b ∧ pad_l = pad_r)
         then separable x (PyTuple [PyInt pad_t; PyInt pad_l]) etab
         else separable
                (_op.nn.pad x [(PyInt 0, PyInt 0); (PyInt 0, PyInt 0);
                               (PyInt pad_t, PyInt pad_b);
                               (PyInt pad_l, PyInt pad_r)])
                (PyList [PyInt 0; PyInt 0]) etab).
Proof.
  intros Hfmt Hws Hshape0 Hshape1 Hstr Hpad depthwise_kwargs pointwise_kwargs
    separable.
  assert (Hw1 : np_transpose w1 [3; 2; 0; 1]%nat =
                Ok (NdTranspose w1 [3; 2; 0; 1]%nat))
    by (apply np_transpose_Ok; rewrite Hshape1; apply perm_3201).
  assert (Hconv : ∀ data kw,
    conv_padding (One x) l kernel_h kernel_w (PyInt sh) (PyInt sw)
      (depthwise_kwargs (PyList [PyInt 0; PyInt 0])) = Ok (One data, kw) →
    _convert_separable_convolution (One x) l etab =
      (weight0 ← new_const (NdTranspose w0 [2; 3; 0; 1]%nat);
       weight1 ← new_const (NdTranspose w1 [3; 2; 0; 1]%nat);
       out ← bias_and_activation
               (_op.nn.conv2d (_op.nn.conv2d data weight0 kw)
                  weight1 pointwise_kwargs) l 2;
       mret (One out)) etab).
  { intros data kw Hcp. unfold _convert_separable_convolution.
    rewrite (bind_lift_Ok _ tt) by exact Hfmt.
    erewrite bind_lift_Ok; cycle 1.
    { rewrite Hws. cbn [list_index lookup list_lookup]. cbn [mbind result_bind].
      rewrite Hshape0. cbn [unpack_shape4 mbind result_bind].
      rewrite (getattr_Some _ _ _ Hstr).
      cbn [mbind result_bind unpack2 py_items].
      rewrite np_transpose_Ok by (rewrite Hshape0; apply perm_2301).
      reflexivity. }
    cbn beta iota. rewrite !bind_new_const.
    fold (depthwise_kwargs (PyList [PyInt 0; PyInt 0])).
    rewrite (bind_lift_Ok _ (One data, kw)) by exact Hcp.
    cbn beta iota.
    erewrite bind_lift_Ok by reflexivity.
    rewrite Hws.
    rewrite (bind_lift_Ok _ (NdTranspose w1 [3; 2; 0; 1]%nat))
      by (cbn [list_index lookup list_lookup mbind result_bind]; exact Hw1).
    rewrite bind_new_const.
    rewrite (bind_lift_Ok _ n_filters)
      by (cbn [np_shape]; rewrite Hshape1; reflexivity).
    reflexivity. }
  unfold separable.
  split.
  - intros ->. apply Hconv. unfold conv_padding.
    rewrite (getattr_Some _ _ _ Hpad). reflexivity.
  - intros -> batch in_h in_w channels pad_t pad_b pad_l pad_r Hin Ht Hl.
    assert (Hsame :
      same_pads l kernel_h kernel_w (PyInt sh) (PyInt sw) =
        Ok (pad_t, pad_b, pad_l, pad_r)).
    { unfold same_pads. rewrite (getattr_Some _ _ _ Hin).
      cbn [mbind result_bind py_index list_index lookup list_lookup as_int].
      rewrite Ht, Hl. reflexivity. }
    destruct (decide (pad_t = pad_b ∧ pad_l = pad_r)) as [Hsym|Hasym];
      apply Hconv; unfold conv_padding; rewrite (getattr_Some _ _ _ Hpad);
      cbn [mbind result_bind];
      change (py_eqb (PyStr "same") (PyStr "valid")) with false;
      change (py_eqb (PyStr "same") (PyStr "same")) with true;
      cbn iota; rewrite Hsame; cbn [mbind result_bind];
      destruct (decide (pad_t = pad_b ∧ pad_l = pad_r)); try contradiction;
      reflexivity.
Qed.

Definition separable_layer : Layer :=
  mkLayer "SeparableConv2D" false "separable_conv2d_1"
    [NdWeights "depthwise_kernel" [3; 3; 8; 2];
     NdWeights "pointwise_kernel" [1; 1; 16; 32]]
    (list_to_map [("strides", PyTuple [PyInt 1; PyInt 1]);
                  ("dilation_rate", PyTuple [PyInt 2; PyInt 2]);
                  ("padding", PyStr "same");
                  ("input_shape", PyTuple [PyNone; PyInt 16; PyInt 16; PyInt 8]);
                  ("use_bias", PyBool false);
                  ("activation", PyStr "linear")])
    None (Some []).

Lemma separable_convolution_lowering_witness :
  (_convert_separable_convolution (One (EVar "x" None)) separable_layer
     ExprTable_new).1 =
    Ok (One (ECall "nn.conv2d"
               [ECall "nn.conv2d"
                  [EVar "x" None; EVar "_param" (Some [8; 2; 3; 3])]
                  [("channels", PyInt 16); ("groups", PyInt 8);
                   ("kernel_size", PyList [PyInt 3; PyInt 3]);
                   ("strides", PyList [PyInt 1; PyInt 1]);
                   ("dilation", PyList [PyInt 1; PyInt 1]);
                   ("padding", PyTuple [PyInt 1; PyInt 1])];
                EVar "_param0" (Some [32; 16; 1; 1])]
               [("channels", PyInt 32); ("groups", PyInt 1);
                ("kernel_size", PyList [PyInt 1; PyInt 1]);
                ("strides", PyList [PyInt 1; PyInt 1]);
                ("dilation", PyList [PyInt 1; PyInt 1])])).
Proof.
  rewrite (proj2 (separable_convolution_lowering (EVar "x" None) separable_layer
                    ExprTable_new (NdWeights "depthwise_kernel" [3; 3; 8; 2])
                    (NdWeights "pointwise_kernel" [1; 1; 16; 32]) []
                    3 3 8 2 1 1 16 32 1 1 (PyStr "same")
                    eq_refl eq_refl eq_refl eq_refl eq_refl eq_refl)
             eq_refl PyNone 16 16 (PyInt 8) 1 1 1 1 eq_refl eq_refl eq_refl).
  vm_compute. reflexivity.
Defined.

(** ** The recurrent layers *)

(** X22: invoked on a bare input, a recurrent converter does what it
    does on the list of that input and initial states, after it has
    registered zero-filled states of shape (1, units): one for SimpleRNN
    and GRU, two for LSTM, the cell state first though it comes last in
    the list. *)
Theorem recurrent_bare_is_stateful (x : expr) (l : Layer) (etab : ExprTable)
    (u : Z) :
  _check_data_format l = Ok tt →
  attrs l !! "units" = Some (PyInt u) →
  0 <= u →
  let buf := NdZeros [1; u] "float32" in
  _convert_simple_rnn (One x) l etab =
    (prev_op ← new_const buf; _convert_simple_rnn (Many [x; prev_op]) l) etab
  ∧ _convert_gru (One x) l etab =
      (h_tm1 ← new_const buf; _convert_gru (Many [x; h_tm1]) l) etab
  ∧ _convert_lstm (One x) l etab =
      (c_op ← new_const buf; h_op ← new_const buf;
       _convert_lstm (Many [x; h_op; c_op]) l) etab.
Proof.
  intros Hfmt Hunits Hu buf.
  pose proof (zero_state_Ok l u Hunits Hu) as Hz. fold buf in Hz.
  unfold _convert_simple_rnn, _convert_gru, _convert_lstm.
  repeat split.
  - rewrite (bind_lift_Ok _ tt) by exact Hfmt.
    rewrite bind_assoc, (bind_lift_Ok _ buf) by exact Hz.
    rewrite bind_assoc, !bind_new_const, bind_ret.
    rewrite (bind_lift_Ok _ tt) by exact Hfmt.
    rewrite bind_ret. reflexivity.
  - rewrite (bind_lift_Ok _ tt) by exact Hfmt.
    rewrite bind_assoc, (bind_lift_Ok _ buf) by exact Hz.
    rewrite bind_assoc, !bind_new_const, bind_ret.
    rewrite (bind_lift_Ok _ tt) by exact Hfmt.
    rewrite bind_ret. reflexivity.
  - rewrite (bind_lift_Ok _ tt) by exact Hfmt.
    rewrite bind_assoc, (bind_lift_Ok _ buf) by exact Hz.
    rewrite bind_assoc, bind_new_const.
    rewrite bind_assoc, bind_new_const, bind_ret.
    rewrite !bind_new_const.
    rewrite (bind_lift_Ok _ tt) by exact Hfmt.
    rewrite bind_ret. reflexivity.
Qed.

Definition gru_layer : Layer :=
  mkLayer "GRU" false "gru_1"
    [NdWeights "kernel" [3; 6]; NdWeights "recurrent_kernel" [2; 6];
     NdWeights "bias" [6]]
    (list_to_map [("units", PyInt 2); ("activation", PyStr "tanh");
                  ("recurrent_activation", PyStr "sigmoid");
                  ("input_shape", PyTuple [PyInt 1; PyInt 1; PyInt 3]);
                  ("output_shape", PyTuple [PyInt 1; PyInt 2])])
    None (Some []).

Lemma recurrent_bare_is_stateful_witness :
  _convert_gru (One (EVar "x" None)) gru_layer ExprTable_new =
    _convert_gru (Many [EVar "x" None; EVar "_param" (Some [1; 2])]) gru_layer
      (mkExprTable ∅ {[ "_param" := NdZeros [1; 2] "float32" ]}).
Proof.
  rewrite (proj1 (proj2 (recurrent_bare_is_stateful (EVar "x" None) gru_layer
                           ExprTable_new 2 eq_refl eq_refl ltac:(lia)))).
  reflexivity.
Defined.

Lemma recurrent_weights (l : Layer) (w0 w1 w2 : ndarray) (ws : list ndarray)
    (n_in n_gates r_in r_gates : Z) {A} (k : expr → expr → expr → M A)
    (etab : ExprTable) :
  get_weights l = w0 :: w1 :: w2 :: ws →
  np_shape w0 = [n_in; n_gates] →
  np_shape w1 = [r_in; r_gates] →
  (w0 ← lift (w ← list_index (get_weights l) 0; np_transpose w [1; 0]%nat);
   kernel_weight ← new_const w0;
   w1 ← lift (w ← list_index (get_weights l) 1; np_transpose w [1; 0]%nat);
   recurrent_weight ← new_const w1;
   w2 ← lift (list_index (get_weights l) 2);
   in_bias ← new_const w2;
   k kernel_weight recurrent_weight in_bias) etab =
  (kernel_weight ← new_const (NdTranspose w0 [1; 0]%nat);
   recurrent_weight ← new_const (NdTranspose w1 [1; 0]%nat);
   in_bias ← new_const w2;
   k kernel_weight recurrent_weight in_bias) etab.
Proof.
  intros Hws Hs0 Hs1. rewrite Hws.
  rewrite (bind_lift_Ok _ (NdTranspose w0 [1; 0]%nat)); cycle 1.
  { cbn [list_index lookup list_lookup mbind result_bind].
    apply np_transpose_Ok. rewrite Hs0. apply perm_10. }
  rewrite !(bind_new_const (NdTranspose w0 [1; 0]%nat)).
  rewrite (bind_lift_Ok _ (NdTranspose w1 [1; 0]%nat)); cycle 1.
  { cbn [list_index lookup list_lookup mbind result_bind].
    apply np_transpose_Ok. rewrite Hs1. apply perm_10. }
  rewrite !(bind_new_const (NdTranspose w1 [1; 0]%nat)).
  rewrite (bind_lift_Ok _ w2) by reflexivity.
  reflexivity.
Qed.

Lemma first_shape_ints (l : Layer) (attr : string) (dims : list Z) :
  attrs l !! attr = Some (PyTuple (PyInt <$> dims)) →
  Forall (λ d, d ≠ 0) dims →
  first_shape l attr = Ok (PyInt <$> dims).
Proof.
  intros Hattr Hdims. unfold first_shape.
  rewrite (getattr_Some _ _ _ Hattr).
  cbn [mbind result_bind _as_list_val list_index lookup list_lookup].
  apply dims_or_1_ints, Hdims.
Qed.

(** X23: a SimpleRNN layer given its input and previous state registers
    its three weights and nothing else (no zero state), and returns twice
    the same expression: the activation of
    [bias_add(dense(flatten x, kernel), bias) + dense(flatten h, recurrent_kernel)],
    reshaped to the declared output shape.  States beyond the first are
    ignored. *)
Theorem simple_rnn_lowering (x h : expr) (more : list expr) (l : Layer)
    (etab : ExprTable) (w0 w1 w2 : ndarray) (ws : list ndarray)
    (n_in n_units r_in r_units : Z) (out_dims : list Z) (act : expr → expr) :
  _check_data_format l = Ok tt →
  get_weights l = w0 :: w1 :: w2 :: ws →
  np_shape w0 = [n_in; n_units] →
  np_shape w1 = [r_in; r_units] →
  attrs l !! "output_shape" = Some (PyTuple (PyInt <$> out_dims)) →
  Forall (λ d, d ≠ 0) out_dims →
  (∀ g, _convert_activation (One g) (IsLayer l) = Ok (One (act g))) →
  _convert_simple_rnn (Many (x :: h :: more)) l etab =
    (kernel ← new_const (NdTranspose w0 [1; 0]%nat);
     recurrent_kernel ← new_const (NdTranspose w1 [1; 0]%nat);
     bias ← new_const w2;
     let ixh := _op.nn.bias_add
                  (_op.nn.dense (_op.nn.batch_flatten x) kernel (PyInt n_units))
                  bias in
     let ixh2 := _op.nn.dense (_op.nn.batch_flatten h) recurrent_kernel
                   (PyInt n_units) in
     let output := _op.reshape (act (_op.add ixh ixh2)) (PyInt <$> out_dims) in
     mret (Many [output; output])) etab.
Proof.
  intros Hfmt Hws Hs0 Hs1 Hout Hdims Hact.
  unfold _convert_simple_rnn.
  rewrite (bind_lift_Ok _ tt) by exact Hfmt.
  rewrite bind_ret.
  rewrite (bind_lift_Ok _ x) by reflexivity.
  rewrite (bind_lift_Ok _ h) by reflexivity.
  rewrite (recurrent_weights l w0 w1 w2 ws n_in n_units r_in r_units _ etab
             Hws Hs0 Hs1).
  rewrite !bind_new_const. unfold lift, mret, M_ret. f_equal.
  rewrite Hws. cbn [list_index lookup list_lookup mbind result_bind].
  rewrite Hs0. cbn [list_index lookup list_lookup mbind result_bind].
  unfold activation. rewrite Hact. cbn [mbind result_bind the_expr].
  rewrite (first_shape_ints l _ out_dims Hout Hdims). reflexivity.
Qed.

Definition simple_rnn_layer : Layer :=
  mkLayer "SimpleRNN" false "simple_rnn_1"
    [NdWeights "kernel" [3; 2]; NdWeights "recurrent_kernel" [2; 2];
     NdWeights "bias" [2]]
    (list_to_map [("units", PyInt 2); ("activation", PyStr "tanh");
                  ("output_shape", PyTuple [PyInt 1; PyInt 2])])
    None (Some []).

Lemma simple_rnn_lowering_witness :
  params (_convert_simple_rnn (Many [EVar "x" None; EVar "h" None])
            simple_rnn_layer ExprTable_new).2 =
    {[ "_param" := NdTranspose (NdWeights "kernel" [3; 2]) [1; 0]%nat;
       "_param0" := NdTranspose (NdWeights "recurrent_kernel" [2; 2]) [1; 0]%nat;
       "_param1" := NdWeights "bias" [2] ]}.
Proof.
  rewrite (simple_rnn_lowering (EVar "x" None) (EVar "h" None) []
             simple_rnn_layer ExprTable_new
             (NdWeights "kernel" [3; 2]) (NdWeights "recurrent_kernel" [2; 2])
             (NdWeights "bias" [2]) [] 3 2 2 2 [1; 2] _op.tanh
             eq_refl eq_refl eq_refl eq_refl eq_refl);
    [vm_compute; reflexivity|repeat constructor; lia|intros g; reflexivity].
Defined.

(** X24: a GRU layer given its input and previous state [h] projects the
    input by all gate matrices at once and splits the result at [units]
    and [2*units] into the update, reset and candidate parts; the
    recurrent kernel is split at [2*units] into the part for update and
    reset and the part for the candidate.  With
    [z = recurrent_activation(x_z + h_z)] and
    [r = recurrent_activation(x_r + h_r)] the new state is
    [z * h + (1 - z) * activation(x_h + dense(r * h, candidate kernel))],
    returned twice, reshaped to the declared output shape. *)
Theorem gru_lowering (x h : expr) (more : list expr) (l : Layer)
    (etab : ExprTable) (w0 w1 w2 : ndarray) (ws : list ndarray)
    (n_in n_gates r_in r_gates u : Z) (out_dims : list Z)
    (rec_id : string) (act rec_act : expr → expr) :
  _check_data_format l = Ok tt →
  attrs l !! "units" = Some (PyInt u) →
  get_weights l = w0 :: w1 :: w2 :: ws →
  np_shape w0 = [n_in; n_gates] →
  np_shape w1 = [r_in; r_gates] →
  attrs l !! "output_shape" = Some (PyTuple (PyInt <$> out_dims)) →
  Forall (λ d, d ≠ 0) out_dims →
  (∀ g, _convert_activation (One g) (IsLayer l) = Ok (One (act g))) →
  attrs l !! "recurrent_activation" = Some (PyStr rec_id) →
  (∀ g, _convert_activation (One g) (IsStr rec_id) = Ok (One (rec_act g))) →
  let part (data : expr) (indices : list Z) (axis : Z) (i : nat) : expr :=
    ETupleGetItem
      (ECall "split" [data]
         [("indices_or_sections", PyList (PyInt <$> indices));
          ("axis", PyInt axis)]) i in
  _convert_gru (Many (x :: h :: more)) l etab =
    (kernel ← new_const (NdTranspose w0 [1; 0]%nat);
     recurrent_kernel ← new_const (NdTranspose w1 [1; 0]%nat);
     bias ← new_const w2;
     let matrix_x :=
       _op.nn.bias_add
         (_op.nn.dense (_op.nn.batch_flatten x) kernel (PyInt n_gates)) bias in
     let x_z := part matrix_x [u; 2 * u] 1 0%nat in
     let x_r := part matrix_x [u; 2 * u] 1 1%nat in
     let x_h := part matrix_x [u; 2 * u] 1 2%nat in
     let h := _op.nn.batch_flatten h in
     let matrix_inner :=
       _op.nn.dense h (part recurrent_kernel [2 * u] 0 0%nat) (PyInt (2 * u)) in
     let z := rec_act (_op.add x_z (part matrix_inner [u] 1 0%nat)) in
     let r := rec_act (_op.add x_r (part matrix_inner [u] 1 1%nat)) in
     let recurrent_h :=
       _op.nn.dense (_op.multiply r h) (part recurrent_kernel [2 * u] 0 1%nat)
         (PyInt u) in
     let hh := act (_op.add x_h recurrent_h) in
     let output :=
       _op.add (_op.multiply z h)
         (_op.multiply (_op.subtract (_expr.const (PyFloat 1) None) z) hh) in
     let output := _op.reshape output (PyInt <$> out_dims) in
     mret (Many [output; output])) etab.
Proof.
  intros Hfmt Hunits Hws Hs0 Hs1 Hout Hdims Hact Hrec_id Hrec_str part.
  pose proof (recurrent_activation_of_layer l rec_id rec_act Hrec_id Hrec_str)
    as Hrec.
  destruct (activation_as_function l act rec_act Hact Hrec) as [Hact' Hrec'].
  unfold _convert_gru.
  rewrite (bind_lift_Ok _ tt) by exact Hfmt.
  rewrite bind_ret.
  rewrite (bind_lift_Ok _ x) by reflexivity.
  rewrite (bind_lift_Ok _ h) by reflexivity.
  rewrite (recurrent_weights l w0 w1 w2 ws n_in n_gates r_in r_gates _ etab
             Hws Hs0 Hs1).
  rewrite !bind_new_const. unfold lift, mret, M_ret. f_equal.
  rewrite Hws. cbn [list_index lookup list_lookup mbind result_bind].
  rewrite Hs0. cbn [list_index lookup list_lookup mbind result_bind].
  rewrite (getattr_Some _ _ _ Hunits).
  cbn [mbind result_bind as_int _op.split length].
  repeat (rewrite tw_getitem_Ok by (cbn [size length]; lia);
          cbn [mbind result_bind tuple_value];
          rewrite ?Hrec', ?Hact'; cbn [mbind result_bind]).
  rewrite (first_shape_ints l _ out_dims Hout Hdims). reflexivity.
Qed.

Lemma gru_lowering_witness :
  ∃ out,
    (_convert_gru (Many [EVar "x" None; EVar "h" None]) gru_layer
       ExprTable_new).1 = Ok (Many [out; out]).
Proof.
  eexists.
  rewrite (gru_lowering (EVar "x" None) (EVar "h" None) [] gru_layer
             ExprTable_new
             (NdWeights "kernel" [3; 6]) (NdWeights "recurrent_kernel" [2; 6])
             (NdWeights "bias" [6]) [] 3 6 2 6 2 [1; 2] "sigmoid"
             _op.tanh _op.sigmoid
             eq_refl eq_refl eq_refl eq_refl eq_refl eq_refl);
    [reflexivity|repeat constructor; lia|intros g; reflexivity
    |reflexivity|intros g; reflexivity].
Defined.

(** X25: a recurrent converter given a list reads the input and the
    states by position and checks nothing else about the list: one that
    is too short (fewer than two entries, three for LSTM) fails with
    [IndexError] before any constant is registered. *)
Theorem recurrent_state_list_too_short (l : Layer) (etab : ExprTable)
    (inexpr : list expr) :
  _check_data_format l = Ok tt →
  ((length inexpr < 2)%nat →
     _convert_simple_rnn (Many inexpr) l etab =
       (Err (IndexError "index out of range"), etab)
     ∧ _convert_gru (Many inexpr) l etab =
         (Err (IndexError "index out of range"), etab))
  ∧ ((length inexpr < 3)%nat →
     _convert_lstm (Many inexpr) l etab =
       (Err (IndexError "index out of range"), etab)).
Proof.
  intros Hfmt. unfold _convert_simple_rnn, _convert_gru, _convert_lstm.
  rewrite !(bind_lift_Ok _ tt) by exact Hfmt.
  rewrite !bind_ret.
  split; intros Hlen.
  - destruct inexpr as [|a [|b ?]]; cbn [length] in Hlen; try lia;
      split; reflexivity.
  - destruct inexpr as [|a [|b [|c ?]]]; cbn [length] in Hlen; try lia;
      reflexivity.
Qed.

Lemma recurrent_state_list_too_short_witness :
  _convert_lstm (Many [EVar "x" None; EVar "h" None]) lstm_layer ExprTable_new =
    (Err (IndexError "index out of range"), ExprTable_new).
Proof.
  refine (proj2 (recurrent_state_list_too_short lstm_layer ExprTable_new
                   [EVar "x" None; EVar "h" None] eq_refl) _).
  cbn. lia.
Defined.

(** ** The checks of [from_keras] *)

Lemma check_unsupported_layers_Ok (model : Model) :
  _check_unsupported_layers model = Ok tt
  ↔ Forall (λ l, type_name l ∈ _convert_map.*1) (layers model).
Proof.
  unfold _check_unsupported_layers.
  induction (layers model) as [|l ls IH]; cbn [foldM].
  - split; [constructor|reflexivity].
  - rewrite Forall_cons.
    destruct (map_lookup (type_name l) _convert_map) as [c|] eqn:Hl;
      cbn [mbind result_bind].
    + rewrite IH. split; [intros H; split; [|exact H]|intros [_ H]; exact H].
      destruct (decide (type_name l ∈ _convert_map.*1)) as [|Hn]; [done|].
      apply map_lookup_None in Hn. congruence.
    + split; [discriminate|]. intros [Hin _].
      exfalso. revert Hin. by apply map_lookup_None.
Qed.

(** X26: [from_keras] creates its expression table exactly when Keras
    is installed, the model is a Keras model, the backend is tensorflow,
    the image data format is channels_last and every layer's kind is a
    key of the dispatch map.  The checks are made in this order, so the
    first that fails decides the exception. *)
Theorem from_keras_checks_order (keras : Keras) (model : Model)
    (shape_dict : gmap string (list Z)) :
  ((∃ etab, (from_keras keras model shape_dict).2 = Some etab)
   ↔ installed keras = true ∧ is_keras_Model model = true
     ∧ backend keras = "tensorflow"
     ∧ image_data_format keras = "channels_last"
     ∧ Forall (λ l, type_name l ∈ _convert_map.*1) (layers model))
  ∧ (installed keras = false →
     from_keras keras model shape_dict =
       (Err (ImportError "Keras must be installed"), None))
  ∧ (installed keras = true → is_keras_Model model = false →
     ∃ msg, from_keras keras model shape_dict = (Err (AssertionError msg), None))
  ∧ (installed keras = true → is_keras_Model model = true →
     backend keras ≠ "tensorflow" →
     from_keras keras model shape_dict =
       (Err (ValueError
               "Keras frontend currently supports tensorflow backend only."),
        None))
  ∧ (installed keras = true → is_keras_Model model = true →
     backend keras = "tensorflow" →
     image_data_format keras ≠ "channels_last" →
     from_keras keras model shape_dict =
       (Err (ValueError
               "Keras frontend currently supports data_format = channels_last only."),
        None)).
Proof.
  unfold from_keras, from_keras_checks.
  split; [|repeat split].
  - destruct (installed keras); cbn [negb];
      [|split; [intros [? [=]]|intros [[=] _]]].
    destruct (is_keras_Model model); cbn [negb];
      [|split; [intros [? [=]]|intros (_ & [=] & _)]].
    destruct (decide (backend keras ≠ "tensorflow")) as [Hb|Hb];
      [split; [intros [? [=]]|intros (_ & _ & ? & _); contradiction]|].
    apply dec_stable in Hb.
    destruct (decide (image_data_format keras ≠ "channels_last")) as [Hd|Hd];
      [split; [intros [? [=]]|intros (_ & _ & _ & ? & _); contradiction]|].
    apply dec_stable in Hd.
    pose proof (check_unsupported_layers_Ok model) as Hiff.
    destruct (_check_unsupported_layers model) as [[]|e].
    + split; [intros _; repeat split; try done; by apply Hiff|].
      intros _. destruct (from_keras_convert _ _ _). eauto.
    + split; [intros [? [=]]|]. intros (_ & _ & _ & _ & HF).
      apply Hiff in HF. discriminate HF.
  - intros ->. reflexivity.
  - intros -> ->. eexists. reflexivity.
  - intros -> -> Hb. cbn [negb].
    destruct (decide (backend keras ≠ "tensorflow")); [reflexivity|contradiction].
  - intros -> -> Hb Hd. cbn [negb].
    destruct (decide (backend keras ≠ "tensorflow")); [contradiction|].
    destruct (decide (image_data_format keras ≠ "channels_last"));
      [reflexivity|contradiction].
Qed.

(** ** What the walk does to the table *)

(** The second table holds all that the first holds, unchanged. *)
Definition extends (etab etab' : ExprTable) : Prop :=
  exprs etab ⊆ exprs etab' ∧ params etab ⊆ params etab'.

Lemma extends_refl (etab : ExprTable) : extends etab etab.
Proof. split; reflexivity. Qed.

Lemma extends_trans (e1 e2 e3 : ExprTable) :
  extends e1 e2 → extends e2 e3 → extends e1 e3.
Proof. intros [? ?] [? ?]. split; etrans; eauto. Qed.

(** A computation that only adds to the table, whether it returns or
    raises. *)
Definition monotone {A} (m : M A) : Prop :=
  ∀ etab, extends etab (m etab).2.

(** A computation that leaves the recorded expressions as they are. *)
Definition keeps_exprs {A} (m : M A) : Prop :=
  ∀ etab, exprs (m etab).2 = exprs etab.

Lemma keeps_exprs_ret {A} (a : A) : keeps_exprs (mret a).
Proof. intros etab. reflexivity. Qed.

Lemma keeps_exprs_raise {A} (e : exn) : keeps_exprs (raise (A := A) e).
Proof. intros etab. reflexivity. Qed.

Lemma keeps_exprs_lift {A} (r : result A) : keeps_exprs (lift r).
Proof. intros etab. reflexivity. Qed.

Lemma keeps_exprs_new_const (a : ndarray) : keeps_exprs (new_const a).
Proof. intros etab. reflexivity. Qed.

Lemma keeps_exprs_bind {A B} (m : M A) (k : A → M B) :
  keeps_exprs m → (∀ a, keeps_exprs (k a)) → keeps_exprs (m ≫= k).
Proof.
  intros Hm Hk etab. specialize (Hm etab). unfold mbind, M_bind.
  destruct (m etab) as [[a|e] etab1]; simpl in *; [|exact Hm].
  rewrite Hk. exact Hm.
Qed.

Ltac keeps_exprs_step :=
  first
    [ apply keeps_exprs_ret | apply keeps_exprs_raise | apply keeps_exprs_lift
    | apply keeps_exprs_new_const
    | apply keeps_exprs_bind; [|intros ?]
    | match goal with
      | |- keeps_exprs (match ?x with _ => _ end) => destruct x
      | |- keeps_exprs (let '_ := ?x in _) => destruct x
      end ].

Lemma keeps_exprs_convert_map (key : string) (convert : converter) :
  map_lookup key _convert_map = Some convert →
  ∀ inexpr l, keeps_exprs (convert inexpr l).
Proof.
  unfold _convert_map. cbn [map_lookup].
  repeat (destruct (decide (_ = key)) as [_|_];
          [intros [= <-] inexpr l;
           unfold pure_converter, _convert_dense, _convert_advanced_activation,
             _convert_convolution, _convert_separable_convolution,
             _convert_batchnorm, _convert_lstm, _convert_simple_rnn,
             _convert_gru, bias_and_activation;
           repeat keeps_exprs_step|]).
  discriminate.
Qed.

Lemma monotone_keeps_exprs {A} (m : M A) : grows m → keeps_exprs m → monotone m.
Proof. intros Hg Hk etab. split; [rewrite Hk; reflexivity|apply Hg]. Qed.

Lemma monotone_ret {A} (a : A) : monotone (mret a).
Proof. intros etab. apply extends_refl. Qed.

Lemma monotone_bind {A B} (m : M A) (k : A → M B) :
  monotone m → (∀ a, monotone (k a)) → monotone (m ≫= k).
Proof.
  intros Hm Hk etab. specialize (Hm etab). unfold mbind, M_bind.
  destruct (m etab) as [[a|e] etab1]; simpl in *; [|exact Hm].
  eapply extends_trans; [exact Hm|apply Hk].
Qed.

Lemma monotone_set_expr (name : string) (e : expr) : monotone (set_expr name e).
Proof.
  intros etab. unfold set_expr.
  destruct (exprs etab !! name) eqn:Hn; [apply extends_refl|].
  split; [by apply insert_subseteq|reflexivity].
Qed.

Lemma monotone_get_expr (name : string) : monotone (get_expr name).
Proof.
  intros etab. unfold get_expr.
  destruct (exprs etab !! name); apply extends_refl.
Qed.

Lemma monotone_forM_ {A} (body : A → M unit) (l : list A) :
  (∀ a, monotone (body a)) → monotone (forM_ body l).
Proof.
  intros Hbody. induction l as [|a l IH]; simpl.
  - apply monotone_ret.
  - apply monotone_bind; [apply Hbody|intros _; exact IH].
Qed.

Lemma monotone_mapM_M {A B} (f : A → M B) (l : list A) :
  (∀ a, monotone (f a)) → monotone (mapM_M f l).
Proof.
  intros Hf. induction l as [|a l IH]; simpl.
  - apply monotone_ret.
  - apply monotone_bind; [apply Hf|intros b].
    apply monotone_bind; [exact IH|intros bs; apply monotone_ret].
Qed.

Lemma monotone_keras_op_to_relay inexpr l outname :
  monotone (keras_op_to_relay inexpr l outname).
Proof.
  unfold keras_op_to_relay.
  destruct (map_lookup (type_name l) _convert_map) as [convert|] eqn:Hc.
  - apply monotone_bind.
    + apply monotone_keeps_exprs;
        [by apply (grows_convert_map _ _ Hc)
        |by apply (keeps_exprs_convert_map _ _ Hc)].
    + intros outs. apply monotone_forM_. intros [t_idx out].
      apply monotone_set_expr.
  - intros etab. apply extends_refl.
Qed.

Lemma monotone_from_keras_layer model shape_dict l :
  monotone (from_keras_layer model shape_dict l).
Proof.
  unfold from_keras_layer. destruct (is_InputLayer l); [apply monotone_set_expr|].
  destruct (match inbound_nodes l with Some _ => _ | None => _ end);
    [|intros etab; apply extends_refl].
  apply monotone_forM_. intros [node_idx node].
  unfold from_keras_node. destruct (decide _); [apply monotone_ret|].
  apply monotone_bind.
  - apply monotone_mapM_M. intros [[n_idx t_idx] inbound]. apply monotone_get_expr.
  - intros inexpr. apply monotone_keras_op_to_relay.
Qed.

Lemma forM__app {A} (body : A → M unit) (l1 l2 : list A) (etab : ExprTable) :
  forM_ body (l1 ++ l2) etab = (_ ← forM_ body l1; forM_ body l2) etab.
Proof.
  revert etab. induction l1 as [|x l1 IH]; intros etab; simpl.
  - reflexivity.
  - unfold mbind, M_bind. destruct (body x etab) as [[[]|e] etab1]; [|reflexivity].
    apply IH.
Qed.

(** X27: the walk only ever adds to the table.  Whatever was recorded
    or registered once the first layers of the model have been walked,
    under whatever name, is in the table [from_keras] ends with, with
    the same value, whether [from_keras] returns or raises; no converter
    touches the recorded expressions. *)
Theorem walk_only_adds (keras : Keras) (model : Model)
    (shape_dict : gmap string (list Z)) :
  (∀ walked rest r etab',
     layers model = (walked ++ rest)%list →
     from_keras keras model shape_dict = (r, Some etab') →
     extends (forM_ (from_keras_layer model shape_dict) walked ExprTable_new).2
       etab')
  ∧ (∀ key convert inexpr l etab,
       map_lookup key _convert_map = Some convert →
       exprs (convert inexpr l etab).2 = exprs etab).
Proof.
  split.
  - intros walked rest r etab' Hlayers. unfold from_keras.
    destruct (from_keras_checks keras model); [|discriminate].
    unfold from_keras_convert. rewrite Hlayers.
    set (rest_of_walk := λ _ : unit, _).
    destruct ((forM_ _ (walked ++ rest) ≫= rest_of_walk) ExprTable_new)
      as [r1 etab1] eqn:Hrun.
    intros [= -> ->].
    change etab' with (r, etab').2. rewrite <- Hrun.
    unfold mbind at 1, M_bind at 1. rewrite forM__app.
    unfold mbind, M_bind.
    destruct (forM_ _ walked ExprTable_new) as [[[]|e] etab2]; cbn [snd];
      [|apply extends_refl].
    pose proof (monotone_forM_ (from_keras_layer model shape_dict) rest
                  (monotone_from_keras_layer model shape_dict) etab2) as H1.
    destruct (forM_ _ rest etab2) as [[[]|e] etab3]; cbn [snd] in *; [|exact H1].
    eapply extends_trans; [exact H1|].
    unfold rest_of_walk.
    match goal with
    | |- extends _ (?m etab3).2 => assert (Hm : monotone m); [|apply Hm]
    end.
    apply monotone_bind.
    + apply monotone_mapM_M. intros [[oc0 oc1] oc2]. apply monotone_get_expr.
    + intros outexpr. apply monotone_bind; [|intros ?; apply monotone_ret].
      intros etab. apply extends_refl.
  - intros key convert inexpr l etab Hc.
    apply (keeps_exprs_convert_map _ _ Hc).
Qed.

Lemma walk_only_adds_witness :
  match (from_keras (mkKeras true "tensorflow" "channels_last") lstm_model ∅).2
  with
  | Some etab' =>
      extends
        (forM_ (from_keras_layer lstm_model ∅) (take 1 (layers lstm_model))
           ExprTable_new).2 etab'
  | None => True
  end.
Proof.
  destruct (from_keras (mkKeras true "tensorflow" "channels_last") lstm_model ∅)
    as [r [etab'|]] eqn:Hrun; cbn [snd]; [|exact I].
  exact (proj1 (walk_only_adds (mkKeras true "tensorflow" "channels_last")
                  lstm_model ∅)
           (take 1 (layers lstm_model)) (drop 1 (layers lstm_model)) r etab'
           eq_refl Hrun).
Defined.

(** ** The outputs of a layer *)

Lemma set_expr_Ok_inv (name : string) (e : expr) (etab etab' : ExprTable) :
  set_expr name e etab = (Ok tt, etab') →
  exprs etab !! name = None
  ∧ etab' = mkExprTable (<[name := e]> (exprs etab)) (params etab).
Proof.
  unfold set_expr. destruct (exprs etab !! name); [discriminate|].
  intros [= <-]. auto.
Qed.

Lemma set_outputs_inv (outname : string) (outs : list expr) (k : nat)
    (etab etab' : ExprTable) :
  forM_ (fun '(t_idx, out) =>
           set_expr (outname ++ ":" ++ pretty (t_idx : nat)) out)
    (zip (seq k (length outs)) outs) etab = (Ok tt, etab') →
  params etab' = params etab
  ∧ exprs etab ⊆ exprs etab'
  ∧ (∀ i out, outs !! i = Some out →
       exprs etab !! (outname ++ ":" ++ pretty (k + i)%nat) = None
       ∧ exprs etab' !! (outname ++ ":" ++ pretty (k + i)%nat) = Some out)
  ∧ (∀ n, exprs etab' !! n = exprs etab !! n
          ∨ ∃ i, (i < length outs)%nat ∧ n = outname ++ ":" ++ pretty (k + i)%nat).
Proof.
  revert k etab. induction outs as [|x outs IH]; intros k etab H.
  - injection H as <-.
    split; [reflexivity|]. split; [reflexivity|]. split.
    + intros i out Hi. discriminate Hi.
    + intros n. by left.
  - cbn [length seq zip zip_with forM_] in H.
    apply bind_Ok_inv in H as ([] & etab1 & Hset & H).
    apply set_expr_Ok_inv in Hset as [Hnew ->].
    destruct (IH _ _ H) as (Hp & Hsub & Hall & Honly). cbn [exprs params] in *.
    assert (Hsub0 : exprs etab ⊆ exprs etab')
      by (etrans; [apply insert_subseteq, Hnew|exact Hsub]).
    split; [exact Hp|]. split; [exact Hsub0|]. split.
    + intros i out Hi. destruct i as [|i]; cbn [lookup list_lookup] in Hi.
      * injection Hi as <-. rewrite Nat.add_0_r. split; [exact Hnew|].
        eapply lookup_weaken; [|exact Hsub]. apply lookup_insert_eq.
      * destruct (Hall i out Hi) as [Hn Hs].
        rewrite <- Nat.add_succ_comm. split; [|exact Hs].
        eapply lookup_weaken_None; [exact Hn|]. by apply insert_subseteq.
    + intros n. destruct (Honly n) as [Heq|(i & Hi & ->)].
      * destruct (decide (n = outname ++ ":" ++ pretty k)) as [->|Hne].
        -- right. exists 0%nat. cbn [length]. rewrite Nat.add_0_r.
           split; [lia|reflexivity].
        -- left. rewrite Heq. by apply lookup_insert_ne.
      * right. exists (S i). cbn [length]. rewrite <- Nat.add_succ_comm.
        split; [lia|reflexivity].
Qed.

(** X28: when [keras_op_to_relay] returns, the outputs of the layer's
    converter are in the table: output [i] is what [get_expr] returns
    for [outname:i], a name that was not recorded before.  Nothing else
    has changed: every other name has the expression, or the absence,
    it had before, and the constants are those the converter left. *)
Theorem keras_op_to_relay_records (inexpr : pyexprs) (l : Layer)
    (outname : string) (etab etab' : ExprTable) :
  keras_op_to_relay inexpr l outname etab = (Ok tt, etab') →
  ∃ convert outs etab1,
    map_lookup (type_name l) _convert_map = Some convert
    ∧ convert inexpr l etab = (Ok outs, etab1)
    ∧ params etab' = params etab1
    ∧ (∀ i out, _as_list outs !! i = Some out →
         exprs etab !! (outname ++ ":" ++ pretty i) = None
         ∧ get_expr (outname ++ ":" ++ pretty i) etab' = (Ok out, etab'))
    ∧ (∀ n, exprs etab' !! n = exprs etab !! n
            ∨ ∃ i, (i < length (_as_list outs))%nat
                   ∧ n = outname ++ ":" ++ pretty i).
Proof.
  unfold keras_op_to_relay.
  destruct (map_lookup (type_name l) _convert_map) as [convert|] eqn:Hc;
    [|discriminate].
  intros H. apply bind_Ok_inv in H as (outs & etab1 & Hconv & H).
  pose proof (keeps_exprs_convert_map _ _ Hc inexpr l etab) as Hkeep.
  rewrite Hconv in Hkeep. cbn [snd] in Hkeep.
  apply (set_outputs_inv outname (_as_list outs) 0) in H
    as (Hp & _ & Hall & Honly).
  exists convert, outs, etab1. rewrite Hkeep in *.
  split; [reflexivity|]. split; [exact Hconv|]. split; [exact Hp|]. split.
  - intros i out Hi. destruct (Hall i out Hi) as [Hn Hs].
    cbn [Nat.add] in Hn, Hs.
    split; [exact Hn|]. unfold get_expr. rewrite Hs. reflexivity.
  - exact Honly.
Qed.

Definition dropout_layer : Layer :=
  mkLayer "Dropout" false "dropout_1" [] ∅ None (Some []).

Lemma keras_op_to_relay_records_witness :
  get_expr "dropout_1:0:0"
    (keras_op_to_relay (One (EVar "x" None)) dropout_layer "dropout_1:0"
       ExprTable_new).2 =
    (Ok (EVar "x" None),
     (keras_op_to_relay (One (EVar "x" None)) dropout_layer "dropout_1:0"
        ExprTable_new).2).
Proof.
  destruct (keras_op_to_relay (One (EVar "x" None)) dropout_layer "dropout_1:0"
              ExprTable_new) as [r etab'] eqn:Hrun.
  assert (Hr : r = Ok tt) by (vm_compute in Hrun; congruence).
  subst r.
  destruct (keras_op_to_relay_records _ _ _ _ _ Hrun)
    as (convert & outs & etab1 & Hc & Hconv & _ & Hall & _).
  injection Hc as <-. injection Hconv as <- _.
  exact (proj2 (Hall 0%nat (EVar "x" None) eq_refl)).
Defined.
